(** * DualShock tools: the controller manager

    A shallow embedding of [src/js/controller-manager.ts] (class
    [ControllerManager]) together with the part of
    [src/js/controllers/base-controller.ts] it calls, and proofs about
    the input-report path (sticks, triggers, d-pad, buttons, touchpad,
    battery) and about the calibration and NVS entry points.

    Conventions of the embedding.
    - A JavaScript number that the code only uses as an integer (a byte,
      a byte offset, a bit mask, a device error code) is a [Z]; a number
      the code computes in floating point (stick positions, progress) is
      a binary64 [float] of the kernel, so the arithmetic is bit-exact.
    - A [DataView] is the list of its bytes; [getUint8] outside of it
      throws [RangeError], as the platform does.
    - [button_states] and the change-set are JavaScript objects used as
      dictionaries: finite maps from property names to values, every
      name being an ordinary key.
    - A method is a computation in a state-and-exception monad; a thrown
      exception keeps the mutations done before it, as in JavaScript.
      An [await] is a step of the sequence: input reports that arrive
      while a request is pending touch other fields of the manager and
      are not interleaved here.
    - The concrete drivers (DS4, DS5, DS5 Edge) subclass
      [BaseController] elsewhere: the driver, with its input layout and
      its battery parser, is a parameter ([BaseController.t]). The
      manager dereferences [currentController] and [l] through non-null
      assertions; the embedding takes both as present. *)

From Stdlib Require Import ZArith Lia Ascii Floats.PrimFloat Uint63.
From stdpp Require Import gmap strings list fin_maps pretty.

Open Scope Z_scope.

(** ** JavaScript numbers computed in floating point *)

Definition Z_to_float (z : Z) : float :=
  if z <? 0 then PrimFloat.opp (PrimFloat.of_uint63 (Uint63.of_Z (- z)))
  else PrimFloat.of_uint63 (Uint63.of_Z z).

(** [===] on numbers is IEEE equality: [-0 === 0], and [NaN] differs
    from itself. *)
Definition num_eq (a b : float) : bool := PrimFloat.eqb a b.

Definition two52 : float := 4503599627370496%float.

(** [Math.floor], exact on every binary64 value: below [2^52] adding and
    removing [2^52] rounds to the nearest integer, one too high when it
    rounded up. *)
Definition Math_floor (v : float) : float :=
  if (PrimFloat.abs v <? two52)%float then
    let t := if (0 <=? v)%float then ((v + two52) - two52)%float
             else ((v - two52) + two52)%float in
    if (v <? t)%float then (t - 1)%float else t
  else v.

(** [Math.round]: the nearest integer, a tie going towards [+∞]; an
    integral, infinite or [NaN] argument is returned as it is, and a
    negative argument that rounds to zero gives [-0]. *)
Definition Math_round (v : float) : float :=
  let f := Math_floor v in
  if (f =? v)%float then v
  else
    let r := if (v - f <? 0.5)%float then f else (f + 1)%float in
    if (r =? 0)%float then (if (v <? 0)%float then (-0)%float else r) else r.

(** ** Exceptions and results *)

Inductive exn : Type :=
  | Error (message : string)     (* [new Error(message)] *)
  | RangeError                   (* a [DataView] access out of bounds *)
  | TypeError                    (* a property read on [undefined] *)
  | Thrown (what : string).      (* anything a driver or the transport throws *)

Definition exn_name (e : exn) : string :=
  match e with
  | Error _ => "Error"
  | RangeError => "RangeError"
  | TypeError => "TypeError"
  | Thrown _ => "Thrown"
  end.

Inductive Res (A : Type) : Type :=
  | Ok (a : A)
  | Throw (e : exn).
Arguments Ok {A} a.
Arguments Throw {A} e.

Definition res_bind {A B} (r : Res A) (k : A → Res B) : Res B :=
  match r with
  | Ok a => k a
  | Throw e => Throw e
  end.

(** ** The state-and-exception monad *)

Definition M (S A : Type) : Type := S → Res A * S.

Definition ret {S A} (a : A) : M S A := λ s, (Ok a, s).

Definition bind {S A B} (m : M S A) (k : A → M S B) : M S B :=
  λ s, match m s with
       | (Ok a, s') => k a s'
       | (Throw e, s') => (Throw e, s')
       end.

Definition throw {S A} (e : exn) : M S A := λ s, (Throw e, s).
Definition liftRes {S A} (r : Res A) : M S A := λ s, (r, s).
Definition get {S} : M S S := λ s, (Ok s, s).
Definition put {S} (s : S) : M S unit := λ _, (Ok tt, s).
Definition modify {S} (f : S → S) : M S unit := λ s, (Ok tt, f s).

(** [try { m } catch (e) { h e }] *)
Definition try_catch {S A} (m : M S A) (h : exn → M S A) : M S A :=
  λ s, match m s with
       | (Ok a, s') => (Ok a, s')
       | (Throw e, s') => h e s'
       end.

(** Run a computation on a component of the state. *)
Definition zoom {S T A} (proj : S → T) (upd : T → S → S) (m : M T A) : M S A :=
  λ s, let '(r, t') := m (proj s) in (r, upd t' s).

Global Instance Res_bind : MBind Res := λ A B k r, res_bind r k.
Global Instance M_ret {S} : MRet (M S) := λ A a, ret a.
Global Instance M_bind {S} : MBind (M S) := λ A B k m, bind m k.

(** [for (const it of items) acc = body acc it], the accumulator being the
    object the loop body fills in. *)
Fixpoint for_of {S A B} (body : B → A → M S B) (acc : B) (items : list A) : M S B :=
  match items with
  | [] => ret acc
  | it :: rest => acc' ← body acc it; for_of body acc' rest
  end.

(** [for (let i = start; ...; i++)] run [n] times. *)
Fixpoint for_count {S} (n : nat) (i : Z) (body : Z → M S unit) : M S unit :=
  match n with
  | O => ret tt
  | S n' => body i;; for_count n' (i + 1) body
  end.

(** ** Input reports *)

Abbreviation DataView := (list Byte.byte).

Definition byte_val (b : Byte.byte) : Z := Z.of_N (Byte.to_N b).

Definition getUint8 (data : DataView) (byteOffset : Z) : Res Z :=
  if byteOffset <? 0 then Throw RangeError
  else match data !! Z.to_nat byteOffset with
       | Some b => Ok (byte_val b)
       | None => Throw RangeError
       end.

Module StickPosition.
Record t : Type := mk { x : float; y : float }.
End StickPosition.

Module StickStates.
Record t : Type := mk { left : StickPosition.t; right : StickPosition.t }.
End StickStates.

Module TouchPoint.
Record t : Type := mk { active : bool; id : Z; x : Z; y : Z }.
End TouchPoint.

Module BatteryInfo.
Record t : Type := mk {
    bat_capacity : Z;
    cable_connected : bool;
    is_charging : bool;
    is_error : bool }.
End BatteryInfo.

Module BatteryStatus.
Record t : Type := mk {
    bat_txt : string;
    changed : bool;
    bat_capacity : Z;
    cable_connected : bool;
    is_charging : bool;
    is_error : bool }.
End BatteryStatus.

Module ButtonMapping.
Record t : Type := mk { name : string; byte : Z; mask : Z }.
End ButtonMapping.

Module InputConfig.
Record t : Type := mk {
    buttonMap : list ButtonMapping.t;
    dpadByte : Z;
    l2AnalogByte : Z;
    r2AnalogByte : Z;
    touchpadOffset : option Z }.
End InputConfig.

(** The values stored under the keys of [button_states] and of a
    change-set: a pressed flag, a trigger byte, or the stick record. *)
Inductive jsval : Type :=
  | VBool (b : bool)
  | VNum (n : Z)
  | VSticks (s : StickStates.t).

Abbreviation ButtonStates := (gmap string jsval).
Abbreviation InputChanges := (gmap string jsval).

Module ProcessedInputResult.
Record t : Type := mk {
    changes : InputChanges;
    inputConfig : list ButtonMapping.t;     (* [{ buttonMap }] *)
    touchPoints : list TouchPoint.t;
    batteryStatus : BatteryStatus.t }.
End ProcessedInputResult.

(** [a !== b] where [b] is the freshly computed value: values of
    different types differ, and a freshly built object differs from any
    stored one. *)
Definition strict_neq (stored : option jsval) (v : jsval) : bool :=
  match stored, v with
  | Some (VBool a), VBool b => negb (Bool.eqb a b)
  | Some (VNum a), VNum b => negb (a =? b)
  | _, _ => true
  end.

Definition EXPECTED_CALIBRATION_ERROR_CODES : list Z := [3; 4; 5].

Definition TOUCHPAD_MAX_POINTS : Z := 2.
Definition TOUCHPAD_BYTES_PER_POINT : Z := 4.
Definition TOUCHPAD_ACTIVE_MASK : Z := 0x80.
Definition TOUCHPAD_ID_MASK : Z := 0x7f.
Definition TOUCHPAD_X_LOW_MASK : Z := 0x0f.
Definition TOUCHPAD_Y_SHIFT : Z := 4.

(** *** [_sticksChanged] *)
Definition _sticksChanged (current newValues : StickStates.t) : bool :=
  negb (num_eq (StickPosition.x (StickStates.left current))
               (StickPosition.x (StickStates.left newValues)))
  || negb (num_eq (StickPosition.y (StickStates.left current))
                  (StickPosition.y (StickStates.left newValues)))
  || negb (num_eq (StickPosition.x (StickStates.right current))
                  (StickPosition.x (StickStates.right newValues)))
  || negb (num_eq (StickPosition.y (StickStates.right current))
                  (StickPosition.y (StickStates.right newValues))).

(** *** [_recordButtonStates] *)

(** [Math.round(((v - 127.5) / 128) * 100) / 100] *)
Definition stickValue (v : Z) : float :=
  (Math_round (((Z_to_float v - 127.5) / 128) * 100) / 100)%float.

(** [[0, 1, 2, 3].map((i) => data.getUint8(i)).map(...)] and the
    [newSticks] object built from it. *)
Definition readSticks (data : DataView) : Res StickStates.t :=
  b0 ← getUint8 data 0;
  b1 ← getUint8 data 1;
  b2 ← getUint8 data 2;
  b3 ← getUint8 data 3;
  Ok (StickStates.mk (StickPosition.mk (stickValue b0) (stickValue b1))
                     (StickPosition.mk (stickValue b2) (stickValue b3))).

(** [this.button_states.sticks], whose fields [_sticksChanged] reads: a
    property read on anything but the stick record ends in [undefined.x]. *)
Definition currentSticks (bs : ButtonStates) : Res StickStates.t :=
  match bs !! "sticks" with
  | Some (VSticks s) => Ok s
  | _ => Throw TypeError
  end.

(** [if (this.button_states[name] !== v) { this.button_states[name] = v;
    changes[name] = v; }], for a [name] that is an ordinary key.  The
    names the manager writes itself are such keys; so is every button
    name of a layout but [__proto__], under which a plain object stores
    no boolean: what is proved of a button stored under its name is
    proved for layouts without that name. *)
Definition recordProp (name : string) (v : jsval) (changes : InputChanges)
  : M ButtonStates InputChanges :=
  λ bs, if strict_neq (bs !! name) v
        then (Ok (<[name := v]> changes), <[name := v]> bs)
        else (Ok changes, bs).

(** One round of [analogTriggers.forEach]. *)
Definition recordTrigger (data : DataView) (changes : InputChanges)
  (trigger : string * Z) : M ButtonStates InputChanges :=
  val ← liftRes (getUint8 data trigger.2);
  recordProp trigger.1 (VNum val) changes.

Definition dpadDirections : list string := ["up"; "right"; "down"; "left"].

(** [dpad_map[dir]] for the hat value [hat]. *)
Definition dpad_map (hat : Z) (dir : string) : bool :=
  if String.eqb dir "up" then (hat =? 0) || (hat =? 1) || (hat =? 7)
  else if String.eqb dir "right" then (hat =? 1) || (hat =? 2) || (hat =? 3)
  else if String.eqb dir "down" then (hat =? 3) || (hat =? 4) || (hat =? 5)
  else (hat =? 5) || (hat =? 6) || (hat =? 7).

(** One round of the loop over [dpadDirections]. *)
Definition recordDpad (hat : Z) (changes : InputChanges) (dir : string)
  : M ButtonStates InputChanges :=
  recordProp dir (VBool (dpad_map hat dir)) changes.

(** [dpadDirections.includes(btn.name)] *)
Definition is_dpad_name (name : string) : bool :=
  bool_decide (name ∈ dpadDirections).

(** One round of the loop over [BUTTON_MAP]: an entry named after a d-pad
    direction is skipped before its byte is read. *)
Definition recordButton (data : DataView) (changes : InputChanges)
  (btn : ButtonMapping.t) : M ButtonStates InputChanges :=
  if is_dpad_name (ButtonMapping.name btn) then ret changes
  else
    b ← liftRes (getUint8 data (ButtonMapping.byte btn));
    let pressed := negb (Z.land b (ButtonMapping.mask btn) =? 0) in
    recordProp (ButtonMapping.name btn) (VBool pressed) changes.

(** [if (this._sticksChanged(this.button_states.sticks, newSticks)) {
    this.button_states.sticks = newSticks; changes.sticks = newSticks; }],
    [changes] being empty at this point. *)
Definition recordSticks (newSticks : StickStates.t) : M ButtonStates InputChanges :=
  λ bs, match currentSticks bs with
        | Throw e => (Throw e, bs)
        | Ok current =>
            if _sticksChanged current newSticks
            then (Ok {["sticks" := VSticks newSticks]},
                  <["sticks" := VSticks newSticks]> bs)
            else (Ok ∅, bs)
        end.

Definition _recordButtonStates (data : DataView)
  (BUTTON_MAP : list ButtonMapping.t) (dpad_byte l2_analog_byte r2_analog_byte : Z)
  : M ButtonStates InputChanges :=
  newSticks ← liftRes (readSticks data);
  changes ← recordSticks newSticks;
  changes ← for_of (recordTrigger data) changes
              [("l2_analog", l2_analog_byte); ("r2_analog", r2_analog_byte)];
  hatByte ← liftRes (getUint8 data dpad_byte);
  let hat := Z.land hatByte 0x0f in
  changes ← for_of (recordDpad hat) changes dpadDirections;
  for_of (recordButton data) changes BUTTON_MAP.

(** *** [_parseTouchPoints] *)

(** One round of the loop of [_parseTouchPoints], for the point [i]. *)
Definition parseTouchPoint (data : DataView) (offset i : Z) : Res TouchPoint.t :=
  let base := offset + i * TOUCHPAD_BYTES_PER_POINT in
  b0 ← getUint8 data base;
  let active := Z.land b0 TOUCHPAD_ACTIVE_MASK =? 0 in
  let id := Z.land b0 TOUCHPAD_ID_MASK in
  b1 ← getUint8 data (base + 1);
  b2 ← getUint8 data (base + 2);
  b3 ← getUint8 data (base + 3);
  let x := Z.lor (Z.shiftl (Z.land b2 TOUCHPAD_X_LOW_MASK) 8) b1 in
  let y := Z.lor (Z.shiftl b3 TOUCHPAD_Y_SHIFT) (Z.shiftr b2 TOUCHPAD_Y_SHIFT) in
  Ok (TouchPoint.mk active id x y).

(** [for (let i = 0; i < TOUCHPAD_MAX_POINTS; i++) { ...; points.push(...) }],
    with [n] rounds left. *)
Fixpoint parseTouchPoints_from (data : DataView) (offset : Z) (n : nat) (i : Z)
  (points : list TouchPoint.t) : Res (list TouchPoint.t) :=
  match n with
  | O => Ok points
  | S n' =>
      p ← parseTouchPoint data offset i;
      parseTouchPoints_from data offset n' (i + 1) (points ++ [p])
  end.

Definition _parseTouchPoints (data : DataView) (offset : Z) : Res (list TouchPoint.t) :=
  parseTouchPoints_from data offset (Z.to_nat TOUCHPAD_MAX_POINTS) 0 [].

(** *** Battery *)

(** [String(n)] for an integer. *)
Definition String_of_Z (n : Z) : string := pretty n.

(** [batteryIcons.find((item) => bat_capacity < item.threshold)?.icon ||
    "fa-battery-full"] *)
Definition batteryIcons : list (Z * string) :=
  [(20, "fa-battery-empty"); (40, "fa-battery-quarter");
   (60, "fa-battery-half"); (80, "fa-battery-three-quarters")].

Definition battery_icon (bat_capacity : Z) : string :=
  match List.find (λ item : Z * string, bat_capacity <? item.1) batteryIcons with
  | Some item => item.2
  | None => "fa-battery-full"
  end.

(** The double-quote character of the HTML attributes. *)
Definition dq : string := String "034"%char EmptyString.

(** [[a, b, c].join(" ")] *)
Definition join3 (a b c : string) : string := a +:+ " " +:+ b +:+ " " +:+ c.

Section Input.
(** The language lookup [l] injected through the UI dependencies. *)
Variable l : string → string.
(** The driver's [getInputConfig()] and [parseBatteryStatus(data)]. *)
Variable inputConfig : InputConfig.t.
Variable parseBatteryStatus : DataView → Res BatteryInfo.t.

Definition _batteryPercentToText (info : BatteryInfo.t) : string :=
  if BatteryInfo.is_error info
  then "<font color=" +:+ dq +:+ "red" +:+ dq +:+ ">" +:+ l "error" +:+ "</font>"
  else
    let icon_txt := battery_icon (BatteryInfo.bat_capacity info) in
    let icon_full := "<i class=" +:+ dq +:+ "fa-solid " +:+ icon_txt +:+ dq +:+ "></i>" in
    let bolt_txt := if BatteryInfo.is_charging info
                    then "<i class=" +:+ dq +:+ "fa-solid fa-bolt" +:+ dq +:+ "></i>"
                    else EmptyString in
    join3 (String_of_Z (BatteryInfo.bat_capacity info) +:+ "%") icon_full bolt_txt.

(** The part of the manager the input path reads and writes. *)
Record Tracker : Type := mkTracker {
  button_states : ButtonStates;
  touchPoints : list TouchPoint.t;
  batteryStatus : BatteryStatus.t;
  _lastBatteryText : string }.

Definition set_button_states (bs : ButtonStates) (t : Tracker) : Tracker :=
  mkTracker bs (touchPoints t) (batteryStatus t) (_lastBatteryText t).
Definition set_touchPoints (tp : list TouchPoint.t) (t : Tracker) : Tracker :=
  mkTracker (button_states t) tp (batteryStatus t) (_lastBatteryText t).
Definition set_batteryStatus (b : BatteryStatus.t) (t : Tracker) : Tracker :=
  mkTracker (button_states t) (touchPoints t) b (_lastBatteryText t).
Definition set_lastBatteryText (s : string) (t : Tracker) : Tracker :=
  mkTracker (button_states t) (touchPoints t) (batteryStatus t) s.

Definition _parseBatteryStatus (data : DataView) : M Tracker BatteryStatus.t :=
  batteryInfo ← liftRes (parseBatteryStatus data);
  let bat_txt := _batteryPercentToText batteryInfo in
  t ← get;
  let changed := negb (String.eqb bat_txt (_lastBatteryText t)) in
  modify (set_lastBatteryText bat_txt);;
  mret (BatteryStatus.mk bat_txt changed
          (BatteryInfo.bat_capacity batteryInfo)
          (BatteryInfo.cable_connected batteryInfo)
          (BatteryInfo.is_charging batteryInfo)
          (BatteryInfo.is_error batteryInfo)).

(** [if (touchpadOffset)]: an offset that is declared and not zero. *)
Definition truthy_offset (o : option Z) : option Z :=
  match o with
  | Some z => if z =? 0 then None else Some z
  | None => None
  end.

(** The body of [processControllerInput] up to the [result] it builds. *)
Definition processControllerInput_result (data : DataView)
  : M Tracker ProcessedInputResult.t :=
  let buttonMap := InputConfig.buttonMap inputConfig in
  changes ← zoom button_states set_button_states
              (_recordButtonStates data buttonMap
                 (InputConfig.dpadByte inputConfig)
                 (InputConfig.l2AnalogByte inputConfig)
                 (InputConfig.r2AnalogByte inputConfig));
  match truthy_offset (InputConfig.touchpadOffset inputConfig) with
  | Some touchpadOffset =>
      pts ← liftRes (_parseTouchPoints data touchpadOffset);
      modify (set_touchPoints pts)
  | None => mret tt
  end;;
  status ← _parseBatteryStatus data;
  modify (set_batteryStatus status);;
  t ← get;
  mret (ProcessedInputResult.mk changes buttonMap (touchPoints t) (batteryStatus t)).

End Input.

(** ** Results exchanged with the driver *)

Module NvStatus.
Record t : Type := mk { status : string; locked : bool }.
End NvStatus.

Module NvResult.
Record t : Type := mk { ok : bool; error : option string }.
End NvResult.

Module CalibrationResult.
Record t : Type := mk { ok : bool; code : option Z; error : option string }.
End CalibrationResult.

Module CalibrationResponse.
Record t : Type := mk { success : bool; message : string }.
End CalibrationResponse.

(** The driver: the methods of [BaseController] the manager calls, each a
    request on a device of state [Dev] that returns or throws.
    [calibrateRangeEnd] may come back without a result, which the manager
    guards against with [res?.]. *)
Module BaseController.
Record t (Dev : Type) : Type := mk {
  getInputConfig : InputConfig.t;
  parseBatteryStatus : DataView → Res BatteryInfo.t;
  queryNvStatus : M Dev NvStatus.t;
  nvsLock : M Dev NvResult.t;
  nvsUnlock : M Dev NvResult.t;
  calibrateSticksBegin : M Dev CalibrationResult.t;
  calibrateSticksSample : M Dev CalibrationResult.t;
  calibrateSticksEnd : M Dev CalibrationResult.t;
  calibrateRangeBegin : M Dev CalibrationResult.t;
  calibrateRangeEnd : M Dev (option CalibrationResult.t) }.
Arguments getInputConfig {Dev}.
Arguments parseBatteryStatus {Dev}.
Arguments queryNvStatus {Dev}.
Arguments nvsLock {Dev}.
Arguments nvsUnlock {Dev}.
Arguments calibrateSticksBegin {Dev}.
Arguments calibrateSticksSample {Dev}.
Arguments calibrateSticksEnd {Dev}.
Arguments calibrateRangeBegin {Dev}.
Arguments calibrateRangeEnd {Dev}.
End BaseController.

Inductive DriverOp : Type :=
  | OpQueryNvStatus | OpNvsLock | OpNvsUnlock
  | OpCalibrateSticksBegin | OpCalibrateSticksSample | OpCalibrateSticksEnd
  | OpCalibrateRangeBegin | OpCalibrateRangeEnd.

(** What the manager does to the outside, in order. *)
Inductive Event : Type :=
  | EvDriver (op : DriverOp)                    (* a request awaited on the driver *)
  | EvNvStatusUpdate (nv : NvStatus.t)          (* [handleNvStatusUpdate(nv)] *)
  | EvSaveButton (hasChanges : bool)            (* [#savechanges] restyled *)
  | EvSleep (ms : Z)                            (* [await sleep(ms)] *)
  | EvProgress (progress : float)               (* [progressCallback(progress)] *)
  | EvLa (what : string)                        (* [la(what)] *)
  | EvConsoleLog                                (* [console.log(...)] *)
  | EvInput (result : ProcessedInputResult.t).  (* [inputHandler(result)] *)

(** [String(res.error)] *)
Definition String_of_error (error : option string) : string :=
  default "undefined" error.

(** [res.code ? ... : ...]: a code that is present and not zero. *)
Definition truthy_code (code : option Z) : option Z :=
  match code with
  | Some c => if c =? 0 then None else Some c
  | None => None
  end.

(** [res?.ok], [res?.code], [res?.error] *)
Definition opt_ok (res : option CalibrationResult.t) : bool :=
  match res with Some r => CalibrationResult.ok r | None => false end.
Definition opt_code (res : option CalibrationResult.t) : option Z :=
  res ≫= CalibrationResult.code.
Definition opt_error (res : option CalibrationResult.t) : option string :=
  res ≫= CalibrationResult.error.

Section Manager.
Context {Dev : Type}.
(** [this.currentController] *)
Variable currentController : BaseController.t Dev.
(** [uiDependencies.l], and whether [uiDependencies.handleNvStatusUpdate]
    was given. *)
Variable l : string → string.
Variable handleNvStatusUpdate : bool.

Record ControllerManager : Type := mkManager {
  has_changes_to_write : option bool;
  inputHandler : bool;                 (* whether an input handler is set *)
  tracker : Tracker }.

Record World : Type := mkWorld {
  this : ControllerManager;
  device : Dev;
  trace : list Event }.

Definition set_this (m : ControllerManager) (w : World) : World :=
  mkWorld m (device w) (trace w).
Definition set_device (d : Dev) (w : World) : World :=
  mkWorld (this w) d (trace w).
Definition set_tracker (t : Tracker) (m : ControllerManager) : ControllerManager :=
  mkManager (has_changes_to_write m) (inputHandler m) t.
Definition set_has_changes_to_write (b : option bool) (m : ControllerManager)
  : ControllerManager :=
  mkManager b (inputHandler m) (tracker m).

Definition emit (e : Event) : M World unit :=
  modify (λ w, mkWorld (this w) (device w) (trace w ++ [e])).

(** [await this.currentController!.op()] *)
Definition request {A} (op : DriverOp) (run : M Dev A) : M World A :=
  emit (EvDriver op);; zoom device set_device run.

Definition sleep (ms : Z) : M World unit := emit (EvSleep ms).

(** The constructor. *)
Definition new_ControllerManager : ControllerManager :=
  mkManager None false
    (mkTracker
       {["sticks" := VSticks (StickStates.mk (StickPosition.mk 0 0) (StickPosition.mk 0 0))]}
       []
       (BatteryStatus.mk EmptyString false 0 false false false)
       EmptyString).

Definition setInputHandler : M World unit :=
  modify (λ w, set_this (mkManager (has_changes_to_write (this w)) true (tracker (this w))) w).

Definition queryNvStatus : M World NvStatus.t :=
  nv ← request OpQueryNvStatus (BaseController.queryNvStatus currentController);
  (if handleNvStatusUpdate then emit (EvNvStatusUpdate nv) else mret tt);;
  mret nv.

Definition setHasChangesToWrite (hasChanges : bool) : M World unit :=
  w ← get;
  if bool_decide (has_changes_to_write (this w) = Some hasChanges) then mret tt
  else
    emit (EvSaveButton hasChanges);;
    modify (λ w, set_this (set_has_changes_to_write (Some hasChanges) (this w)) w).

Definition nvsUnlock : M World unit :=
  request OpNvsUnlock (BaseController.nvsUnlock currentController);;
  queryNvStatus;;
  mret tt.

Definition nvsLock : M World NvResult.t :=
  res ← request OpNvsLock (BaseController.nvsLock currentController);
  if negb (NvResult.ok res)
  then throw (Error (l "NVS Lock failed: " +:+ String_of_error (NvResult.error res)))
  else
    queryNvStatus;;
    mret res.

(** [res.code ? this.l!("Error ") + String(res.code) : String(res.error || '')] *)
Definition failure_detail (code : option Z) (error : option string) : string :=
  match truthy_code code with
  | Some c => l "Error " +:+ String_of_Z c
  | None => default EmptyString error
  end.

Definition calibrateSticksBegin : M World unit :=
  res ← request OpCalibrateSticksBegin (BaseController.calibrateSticksBegin currentController);
  if negb (CalibrationResult.ok res)
  then throw (Error (l "Stick calibration failed: "
                     +:+ failure_detail (CalibrationResult.code res) (CalibrationResult.error res)))
  else mret tt.

Definition calibrateSticksSample : M World unit :=
  res ← request OpCalibrateSticksSample (BaseController.calibrateSticksSample currentController);
  if negb (CalibrationResult.ok res)
  then
    sleep 500;;
    throw (Error (l "Stick calibration failed: "
                  +:+ failure_detail (CalibrationResult.code res) (CalibrationResult.error res)))
  else mret tt.

Definition calibrateSticksEnd : M World unit :=
  res ← request OpCalibrateSticksEnd (BaseController.calibrateSticksEnd currentController);
  if negb (CalibrationResult.ok res)
  then
    sleep 500;;
    throw (Error (l "Stick calibration failed: "
                  +:+ failure_detail (CalibrationResult.code res) (CalibrationResult.error res)))
  else setHasChangesToWrite true.

Definition calibrateRangeBegin : M World unit :=
  ret_ ← request OpCalibrateRangeBegin (BaseController.calibrateRangeBegin currentController);
  if negb (CalibrationResult.ok ret_)
  then throw (Error (l "Range calibration failed: "
                     +:+ failure_detail (CalibrationResult.code ret_) (CalibrationResult.error ret_)))
  else mret tt.

Definition is_expected_code (code : option Z) : bool :=
  match truthy_code code with
  | Some c => bool_decide (c ∈ EXPECTED_CALIBRATION_ERROR_CODES)
  | None => false
  end.

Definition calibrateRangeOnClose : M World CalibrationResponse.t :=
  res ← request OpCalibrateRangeEnd (BaseController.calibrateRangeEnd currentController);
  if opt_ok res then
    setHasChangesToWrite true;;
    mret (CalibrationResponse.mk true (l "Range calibration completed"))
  else if is_expected_code (opt_code res) then
    emit EvConsoleLog;;
    mret (CalibrationResponse.mk true (l "Range calibration window closed"))
  else
    emit EvConsoleLog;;
    sleep 500;;
    let msg := l "Range calibration failed: " +:+ failure_detail (opt_code res) (opt_error res) in
    mret (CalibrationResponse.mk false msg).

Definition progressCallback (progress : float) : M World unit :=
  emit (EvProgress progress).

Definition sampleCount : Z := 5.

Definition calibrateSticks : M World CalibrationResponse.t :=
  try_catch
    (emit (EvLa "multi_calibrate_sticks");;
     progressCallback 20;;
     calibrateSticksBegin;;
     progressCallback 30;;
     for_count (Z.to_nat sampleCount) 0 (λ i,
       sleep 100;;
       calibrateSticksSample;;
       let sampleProgress :=
         (30 + ((Z_to_float i + 1) / Z_to_float sampleCount) * 50)%float in
       progressCallback (Math_round sampleProgress));;
     progressCallback 90;;
     calibrateSticksEnd;;
     progressCallback 100;;
     mret (CalibrationResponse.mk true (l "Stick calibration completed")))
    (λ e, emit (EvLa "multi_calibrate_sticks_failed");; throw e).

Definition processControllerInput (data : DataView) : M World unit :=
  result ← zoom (λ w, tracker (this w)) (λ t w, set_this (set_tracker t (this w)) w)
             (processControllerInput_result l
                (BaseController.getInputConfig currentController)
                (BaseController.parseBatteryStatus currentController) data);
  w ← get;
  if inputHandler (this w) then emit (EvInput result) else mret tt.

(** [initControllerManager]: a fresh manager with the save button disabled. *)
Definition initControllerManager (d : Dev) : World :=
  (setHasChangesToWrite false (mkWorld new_ControllerManager d [])).2.

End Manager.

(** ** Definitions used to state the properties *)

(** The stick value in hundredths: [(v - 127.5) / 128 * 100] is the
    rational [(2 v - 255) * 25 / 64], rounded to the nearest integer. *)
Definition stickHundredths (v : Z) : Z := ((2 * v - 255) * 25 + 32) / 64.

Definition stick_value_checks (v : Z) : bool :=
  num_eq (stickValue v) (Z_to_float (stickHundredths v) / 100)%float
  && (-100 <=? stickHundredths v) && (stickHundredths v <=? 100)
  && (-1 <=? stickValue v)%float && (stickValue v <=? 1)%float
  && num_eq (stickValue v) (stickValue v).

Definition sticks_of_bytes (b0 b1 b2 b3 : Byte.byte) : StickStates.t :=
  StickStates.mk
    (StickPosition.mk (stickValue (byte_val b0)) (stickValue (byte_val b1)))
    (StickPosition.mk (stickValue (byte_val b2)) (stickValue (byte_val b3))).

(** The wire format of one touch point, in the words of the
    specification: the high bit of byte 0 clear means a finger is down,
    its low 7 bits are the contact id, [x] is the low nibble of byte 2
    above byte 1, and [y] is byte 3 above the high nibble of byte 2. *)
Definition touch_point_of_bytes (b0 b1 b2 b3 : Z) : TouchPoint.t :=
  TouchPoint.mk
    (negb (Z.testbit b0 7))
    (Z.land b0 0x7f)
    (Z.lor (Z.shiftl (Z.land b2 0x0f) 8) b1)
    (Z.lor (Z.shiftl b3 4) (Z.shiftr b2 4)).


(** *** What [_recordButtonStates] reads, apart from what it records

    The reads of [_recordButtonStates] do not depend on the snapshot, so
    they can be told apart from the comparison with it: [decode] is the
    list of the properties the function computes from a report, in the
    order in which it compares them with [button_states]. *)

Definition is_prim (v : jsval) : bool :=
  match v with
  | VBool _ | VNum _ => true
  | VSticks _ => false
  end.

Fixpoint readButtons (data : DataView) (BUTTON_MAP : list ButtonMapping.t)
  : Res (list (string * jsval)) :=
  match BUTTON_MAP with
  | [] => Ok []
  | btn :: rest =>
      if is_dpad_name (ButtonMapping.name btn) then readButtons data rest
      else
        b ← getUint8 data (ButtonMapping.byte btn);
        props ← readButtons data rest;
        Ok ((ButtonMapping.name btn,
             VBool (negb (Z.land b (ButtonMapping.mask btn) =? 0))) :: props)
  end.

Definition dpadProps (hat : Z) : list (string * jsval) :=
  (λ dir, (dir, VBool (dpad_map hat dir))) <$> dpadDirections.

Definition decodeProps (data : DataView) (BUTTON_MAP : list ButtonMapping.t)
  (dpad_byte l2_analog_byte r2_analog_byte : Z) : Res (list (string * jsval)) :=
  l2 ← getUint8 data l2_analog_byte;
  r2 ← getUint8 data r2_analog_byte;
  hatByte ← getUint8 data dpad_byte;
  buttons ← readButtons data BUTTON_MAP;
  Ok (("l2_analog", VNum l2) :: ("r2_analog", VNum r2)
      :: dpadProps (Z.land hatByte 0x0f) ++ buttons).

Definition decode (data : DataView) (BUTTON_MAP : list ButtonMapping.t)
  (dpad_byte l2_analog_byte r2_analog_byte : Z)
  : Res (StickStates.t * list (string * jsval)) :=
  newSticks ← readSticks data;
  props ← decodeProps data BUTTON_MAP dpad_byte l2_analog_byte r2_analog_byte;
  Ok (newSticks, props).

(** Comparing decoded properties with the snapshot, one after the other. *)
Definition recordAll (props : list (string * jsval)) (changes : InputChanges)
  : M ButtonStates InputChanges :=
  for_of (λ changes kv, recordProp kv.1 kv.2 changes) changes props.

(** The entries of the button map that the loop does not skip. *)
Definition tracked_buttons (BUTTON_MAP : list ButtonMapping.t) : list ButtonMapping.t :=
  filter (λ btn, is_dpad_name (ButtonMapping.name btn) = false) BUTTON_MAP.

(** The keys of [button_states] written for a layout. *)
Definition tracked_keys (BUTTON_MAP : list ButtonMapping.t) : list string :=
  "sticks" :: "l2_analog" :: "r2_analog" :: dpadDirections
  ++ (ButtonMapping.name <$> tracked_buttons BUTTON_MAP).

(** The byte offsets read by [_recordButtonStates], and by
    [processControllerInput] through the manager's own code. *)
Definition record_offsets (BUTTON_MAP : list ButtonMapping.t)
  (dpad_byte l2_analog_byte r2_analog_byte : Z) : list Z :=
  [0; 1; 2; 3; l2_analog_byte; r2_analog_byte; dpad_byte]
  ++ (ButtonMapping.byte <$> tracked_buttons BUTTON_MAP).

Definition touch_offsets (touchpadOffset : option Z) : list Z :=
  match truthy_offset touchpadOffset with
  | Some o => [o; o + 1; o + 2; o + 3; o + 4; o + 5; o + 6; o + 7]
  | None => []
  end.

Definition layout_offsets (cfg : InputConfig.t) : list Z :=
  record_offsets (InputConfig.buttonMap cfg) (InputConfig.dpadByte cfg)
    (InputConfig.l2AnalogByte cfg) (InputConfig.r2AnalogByte cfg)
  ++ touch_offsets (InputConfig.touchpadOffset cfg).

Definition in_range (data : DataView) (i : Z) : Prop :=
  0 ≤ i < Z.of_nat (length data).

(** The stick record of a snapshot is in place. *)
Definition has_sticks (bs : ButtonStates) : Prop :=
  ∃ s, bs !! "sticks" = Some (VSticks s).

(** A piece of [_recordButtonStates] that reads the report and records
    what it read: it behaves as the decoder [r] followed by [recordAll],
    and throws what the decoder throws. *)
Definition decodes_as (r : Res (list (string * jsval)))
  (m : InputChanges → M ButtonStates InputChanges) : Prop :=
  ∀ ch bs, match r with
           | Ok props => m ch bs = recordAll props ch bs
           | Throw e => ∃ bs', m ch bs = (Throw e, bs')
           end.

(** ** A layout and a driver to run the model on

    The layouts belong to the drivers. This one has the shape the
    manager expects: the d-pad entries the
    button loop skips, one entry per button, the hat in the low nibble of
    byte 4, the triggers in bytes 7 and 8, and a touchpad at offset 9. *)

Definition sample_buttonMap : list ButtonMapping.t :=
  [ ButtonMapping.mk "up" 4 0; ButtonMapping.mk "right" 4 0;
    ButtonMapping.mk "down" 4 0; ButtonMapping.mk "left" 4 0;
    ButtonMapping.mk "square" 4 0x10; ButtonMapping.mk "cross" 4 0x20;
    ButtonMapping.mk "circle" 4 0x40; ButtonMapping.mk "triangle" 4 0x80;
    ButtonMapping.mk "l1" 5 0x01; ButtonMapping.mk "r1" 5 0x02;
    ButtonMapping.mk "l2" 5 0x04; ButtonMapping.mk "r2" 5 0x08;
    ButtonMapping.mk "share" 5 0x10; ButtonMapping.mk "options" 5 0x20;
    ButtonMapping.mk "l3" 5 0x40; ButtonMapping.mk "r3" 5 0x80;
    ButtonMapping.mk "ps" 6 0x01; ButtonMapping.mk "touchpad" 6 0x02 ].

Definition sample_inputConfig : InputConfig.t :=
  InputConfig.mk sample_buttonMap 4 7 8 (Some 9).

Definition sample_parseBatteryStatus (data : DataView) : Res BatteryInfo.t :=
  Ok (BatteryInfo.mk 55 true false false).

(** A report given by the values of its bytes. *)
Definition report (bytes : list N) : DataView := omap Byte.of_N bytes.

(** Sticks at rest, no button, hat released (8), right trigger at 200,
    one finger on the touchpad. *)
Definition sample_report : DataView :=
  report [128; 127; 128; 127; 8; 0; 0; 0; 200; 0x00; 0x34; 0x02; 0x50; 0x80; 0; 0; 0]%N.

(** The [button_states] the constructor builds. *)
Definition initial_button_states : ButtonStates :=
  {["sticks" := VSticks (StickStates.mk (StickPosition.mk 0 0) (StickPosition.mk 0 0))]}.

(** The value a computation returned, [d] when it threw. *)
Definition res_value {A} (d : A) (r : Res A) : A :=
  match r with Ok a => a | Throw _ => d end.

Definition is_Ok {A} (r : Res A) : bool :=
  match r with Ok _ => true | Throw _ => false end.

(** The end of [processControllerInput]: the battery status is parsed and
    stored, and the result is built from the change-set and the stored
    touch points and battery status. *)
Definition finishInput (l : string → string) (buttonMap : list ButtonMapping.t)
  (parseBatteryStatus : DataView → Res BatteryInfo.t) (data : DataView)
  (changes : InputChanges) (t : Tracker) : Res ProcessedInputResult.t * Tracker :=
  match parseBatteryStatus data with
  | Throw e => (Throw e, t)
  | Ok info =>
      let bat_txt := _batteryPercentToText l info in
      let status :=
        BatteryStatus.mk bat_txt (negb (String.eqb bat_txt (_lastBatteryText t)))
          (BatteryInfo.bat_capacity info) (BatteryInfo.cable_connected info)
          (BatteryInfo.is_charging info) (BatteryInfo.is_error info) in
      (Ok (ProcessedInputResult.mk changes buttonMap (touchPoints t) status),
       set_batteryStatus status (set_lastBatteryText bat_txt t))
  end.

(** A report too short for the triggers of the sample layout: the sticks
    are at rest, the left trigger (byte 7) is there, the right trigger
    (byte 8) is not. *)
Definition short_report : DataView := report [128; 128; 128; 128; 8; 0; 0; 0]%N.

Definition initial_tracker : Tracker :=
  mkTracker initial_button_states []
    (BatteryStatus.mk EmptyString false 0 false false false) EmptyString.

(** A driver for the sample layout: a device without state of its own on
    which every request succeeds. *)
Definition sample_ok : CalibrationResult.t := CalibrationResult.mk true None None.

Definition sample_controller : BaseController.t unit :=
  BaseController.mk unit
    sample_inputConfig
    sample_parseBatteryStatus
    (ret (NvStatus.mk "locked" true))
    (ret (NvResult.mk true None))
    (ret (NvResult.mk true None))
    (ret sample_ok) (ret sample_ok) (ret sample_ok) (ret sample_ok)
    (ret (Some sample_ok)).

(** The same driver on a device that answers the end of a range
    calibration, and a request to lock the NVS, as told. *)
Definition scripted_controller (rangeEnd : option CalibrationResult.t)
  (lock : NvResult.t) : BaseController.t unit :=
  BaseController.mk unit
    sample_inputConfig
    sample_parseBatteryStatus
    (ret (NvStatus.mk "locked" true))
    (ret lock)
    (ret (NvResult.mk true None))
    (ret sample_ok) (ret sample_ok) (ret sample_ok) (ret sample_ok)
    (ret rangeEnd).

(** The manager after [initControllerManager], with an input handler set. *)
Definition sample_world : World :=
  (setInputHandler (initControllerManager tt)).2.

(** The values passed to the progress callback, in order. *)
Definition progress_values (tr : list Event) : list float :=
  omap (λ e, match e with EvProgress p => Some p | _ => None end) tr.

(** The results passed to the input handler, in order. *)
Definition input_results (tr : list Event) : list ProcessedInputResult.t :=
  omap (λ e, match e with EvInput r => Some r | _ => None end) tr.

Fixpoint strictly_increasing (ps : list float) : bool :=
  match ps with
  | p :: (q :: _) as rest => (p <? q)%float && strictly_increasing rest
  | _ => true
  end.

Definition within_0_100 (ps : list float) : bool :=
  forallb (λ p, (0 <=? p)%float && (p <=? 100)%float) ps.

(** [m] returns on every world, with a value that satisfies [Q], after
    passing the values [ps], and no other, to the progress callback. *)
Definition reports {Dev A} (m : M (@World Dev) A) (Q : A → Prop) (ps : list float)
  : Prop :=
  ∀ w, ∃ a w', m w = (Ok a, w') ∧ Q a
               ∧ progress_values (trace w') = progress_values (trace w) ++ ps.

(** Whenever [m] returns, its value satisfies [Q] and it has passed the
    values [ps], and no other, to the progress callback. *)
Definition reports_on_return {Dev A} (m : M (@World Dev) A) (Q : A → Prop)
  (ps : list float) : Prop :=
  ∀ w a w', m w = (Ok a, w') →
            Q a ∧ progress_values (trace w') = progress_values (trace w) ++ ps.

(** A driver request that is answered with an ok result whatever the
    state of the device. *)
Definition always_ok {Dev} (op : M Dev CalibrationResult.t) : Prop :=
  ∀ d, ∃ res d', op d = (Ok res, d') ∧ CalibrationResult.ok res = true.

(** [Math.round(30 + ((i + 1) / sampleCount) * 50)] *)
Definition sampleProgress (i : Z) : float :=
  Math_round (30 + ((Z_to_float i + 1) / Z_to_float sampleCount) * 50)%float.

(** Runs of the model on the sample reports. *)
Definition sample_recorded : Res InputChanges * ButtonStates :=
  _recordButtonStates sample_report sample_buttonMap 4 7 8 initial_button_states.

Definition sample_first_input : Res unit * World :=
  processControllerInput sample_controller id sample_report sample_world.

Definition sample_second_input : Res unit * World :=
  processControllerInput sample_controller id sample_report sample_first_input.2.

Definition short_input : Res unit * World :=
  processControllerInput sample_controller id short_report sample_world.

(** The answer of a device that is not in range calibration any more,
    and the answer of a device that refuses to lock its NVS. *)
Definition code4 : CalibrationResult.t := CalibrationResult.mk false (Some 4) None.
Definition lock_refused : NvResult.t := NvResult.mk false (Some "timeout").
Definition refusing_controller : BaseController.t unit :=
  scripted_controller (Some code4) lock_refused.

(** ** More of the manager and of [BaseController]

    The definitions below serve the properties of the last part of the
    file: sequences of reports, the remaining entry points of the manager
    and [alloc_req]. *)

(** One value of [dpad_map]. *)
Definition dpad_pressed (hatByte : Z) (dir : string) : bool :=
  dpad_map (Z.land hatByte 0x0f) dir.

Definition count_true (bs : list bool) : nat := length (filter (λ b, b = true) bs).

(** What holds of the four directions for a hat byte. *)
Definition dpad_checks (hatByte : Z) : bool :=
  let up := dpad_pressed hatByte "up" in
  let right := dpad_pressed hatByte "right" in
  let down := dpad_pressed hatByte "down" in
  let left := dpad_pressed hatByte "left" in
  let n := count_true [up; right; down; left] in
  negb (up && down) && negb (left && right)
  && bool_decide (n ≤ 2)%nat
  && Bool.eqb (bool_decide (n = 0)%nat) (8 <=? Z.land hatByte 0x0f)
  && Bool.eqb (bool_decide (n = 2)%nat)
       (bool_decide (Z.land hatByte 0x0f ∈ [1; 3; 5; 7])).

(** The stick value and its hundredths for each of the 256 bytes, and
    what holds of two rows of this table. *)
Definition stick_row (v : Z) : Z * float * Z := (v, stickValue v, stickHundredths v).

Definition stick_table : list (Z * float * Z) := stick_row <$> seqZ 0 256.

Definition stick_rows_check (r r' : Z * float * Z) : bool :=
  let '(v, f, h) := r in
  let '(v', f', h') := r' in
  implb (v <=? v') (f <=? f')%float
  && Bool.eqb (num_eq f f') (h =? h')
  && implb (v + v' =? 255) (num_eq f' (- f)%float).

Definition all_stick_rows_checked : bool :=
  (λ tbl, forallb (λ r, forallb (stick_rows_check r) tbl) tbl) stick_table.

(** The snapshot after a sequence of input reports, each handled by
    [_recordButtonStates]; a report on which it throws leaves what it had
    stored by then. *)
Definition record_reports (BUTTON_MAP : list ButtonMapping.t)
  (dpad_byte l2_analog_byte r2_analog_byte : Z) (reports : list DataView)
  (bs : ButtonStates) : ButtonStates :=
  foldl (λ bs data,
           (_recordButtonStates data BUTTON_MAP dpad_byte l2_analog_byte
              r2_analog_byte bs).2)
        bs reports.

(** The kind of value each key of the snapshot holds under a layout. *)
Definition well_typed_entry (BUTTON_MAP : list ButtonMapping.t) (k : string) (v : jsval)
  : Prop :=
  match v with
  | VSticks _ => k = "sticks"
  | VNum n => k ∈ ["l2_analog"; "r2_analog"] ∧ 0 ≤ n ≤ 255
  | VBool _ => k ∈ dpadDirections ++ (ButtonMapping.name <$> tracked_buttons BUTTON_MAP)
  end.

Definition well_typed_snapshot (BUTTON_MAP : list ButtonMapping.t) (bs : ButtonStates)
  : Prop :=
  has_sticks bs ∧ ∀ k v, bs !! k = Some v → well_typed_entry BUTTON_MAP k v.

(** A computation on the snapshot that keeps [P], whether it returns or
    throws. *)
Definition preserves {A} (P : ButtonStates → Prop) (m : M ButtonStates A) : Prop :=
  ∀ bs r bs', P bs → m bs = (r, bs') → P bs'.

(** ** The battery text *)

(** What of a battery reading its text shows: nothing of it on an error,
    else the capacity and whether the battery is charging. *)
Definition battery_shown (info : BatteryInfo.t) : option (Z * bool) :=
  if BatteryInfo.is_error info then None
  else Some (BatteryInfo.bat_capacity info, BatteryInfo.is_charging info).

(** The characters of a decimal numeral: digits and the minus sign. *)
Definition numeral_char (a : ascii) : bool :=
  bool_decide (a ∈ ["-"; "0"; "1"; "2"; "3"; "4"; "5"; "6"; "7"; "8"; "9"]%char).

Fixpoint numeral (s : string) : bool :=
  match s with
  | EmptyString => true
  | String a s' => numeral_char a && numeral s'
  end.

(** The tracker after the reports [ds], and whether none of them was
    handled to the end. *)
Definition after_reports (l : string → string) (cfg : InputConfig.t)
  (parseBatteryStatus : DataView → Res BatteryInfo.t) (ds : list DataView) (t : Tracker)
  : Tracker :=
  foldl (λ t d, (processControllerInput_result l cfg parseBatteryStatus d t).2) t ds.

Fixpoint none_handled (l : string → string) (cfg : InputConfig.t)
  (parseBatteryStatus : DataView → Res BatteryInfo.t) (ds : list DataView) (t : Tracker)
  : bool :=
  match ds with
  | [] => true
  | d :: rest =>
      let r := processControllerInput_result l cfg parseBatteryStatus d t in
      negb (is_Ok r.1) && none_handled l cfg parseBatteryStatus rest r.2
  end.

(** Reports handled one after the other by the sample driver: the
    sample report, the short report, the sample report again. *)
Definition sample_result_first : Res ProcessedInputResult.t * Tracker :=
  processControllerInput_result id sample_inputConfig sample_parseBatteryStatus
    sample_report initial_tracker.

Definition sample_result_second : Res ProcessedInputResult.t * Tracker :=
  processControllerInput_result id sample_inputConfig sample_parseBatteryStatus
    sample_report
    (after_reports id sample_inputConfig sample_parseBatteryStatus [short_report]
       sample_result_first.2).

Definition no_result : ProcessedInputResult.t :=
  ProcessedInputResult.mk ∅ [] [] (BatteryStatus.mk EmptyString false 0 false false false).

(** ** [flash], and a session of calls on the manager *)

Module FlashResult.
Record t : Type := mk { success : bool; message : string }.
End FlashResult.

(** The requests awaited on the driver, in order. *)
Definition driver_ops (tr : list Event) : list DriverOp :=
  omap (λ e, match e with EvDriver op => Some op | _ => None end) tr.

(** The states the save button was given, in order. *)
Definition save_events (tr : list Event) : list bool :=
  omap (λ e, match e with EvSaveButton b => Some b | _ => None end) tr.

(** No state is given twice in a row. *)
Fixpoint alternates (bs : list bool) : bool :=
  match bs with
  | b :: (b' :: _) as rest => negb (eqb b b') && alternates rest
  | _ => true
  end.

Section Session.
Context {Dev : Type}.
Variable currentController : BaseController.t Dev.
(** The driver's [flash(progressCallback)], the callback it was given
    included: a request on the device that returns or throws. *)
Variable driver_flash : M Dev FlashResult.t.
Variable l : string → string.
Variable handleNvStatusUpdate : bool.

Definition flash : M (@World Dev) FlashResult.t :=
  result ← zoom device set_device driver_flash;
  setHasChangesToWrite false;;
  mret result.

(** The calls a page makes on the manager. *)
Inductive Call : Type :=
  | CallSetInputHandler
  | CallQueryNvStatus
  | CallSetHasChangesToWrite (hasChanges : bool)
  | CallFlash
  | CallNvsUnlock
  | CallNvsLock
  | CallCalibrateSticksBegin
  | CallCalibrateSticksSample
  | CallCalibrateSticksEnd
  | CallCalibrateRangeBegin
  | CallCalibrateRangeOnClose
  | CallCalibrateSticks
  | CallProcessControllerInput (data : DataView).

(** The world after a call, whether it returned or threw. *)
Definition call (c : Call) (w : @World Dev) : @World Dev :=
  match c with
  | CallSetInputHandler => (setInputHandler w).2
  | CallQueryNvStatus => (queryNvStatus currentController handleNvStatusUpdate w).2
  | CallSetHasChangesToWrite hasChanges => (setHasChangesToWrite hasChanges w).2
  | CallFlash => (flash w).2
  | CallNvsUnlock => (nvsUnlock currentController handleNvStatusUpdate w).2
  | CallNvsLock => (nvsLock currentController l handleNvStatusUpdate w).2
  | CallCalibrateSticksBegin => (calibrateSticksBegin currentController l w).2
  | CallCalibrateSticksSample => (calibrateSticksSample currentController l w).2
  | CallCalibrateSticksEnd => (calibrateSticksEnd currentController l w).2
  | CallCalibrateRangeBegin => (calibrateRangeBegin currentController l w).2
  | CallCalibrateRangeOnClose => (calibrateRangeOnClose currentController l w).2
  | CallCalibrateSticks => (calibrateSticks currentController l w).2
  | CallProcessControllerInput data => (processControllerInput currentController l data w).2
  end.

(** The world after [initControllerManager] and the calls [cs]. *)
Definition session (d : Dev) (cs : list Call) : @World Dev :=
  foldl (λ w c, call c w) (initControllerManager d) cs.

End Session.

(** The flag is set, the save button shows it, and the button was never
    given the same state twice in a row. *)
Definition save_button_follows_flag {Dev} (w : @World Dev) : Prop :=
  is_Some (has_changes_to_write (this w))
  ∧ last (save_events (trace w)) = has_changes_to_write (this w)
  ∧ alternates (save_events (trace w)) = true.

(** A computation on the world that keeps [I], whether it returns or throws. *)
Definition keeps {Dev A} (I : @World Dev → Prop) (m : M (@World Dev) A) : Prop :=
  ∀ w, I w → I (m w).2.

(** The requests of a full stick calibration. *)
Definition stick_protocol : list DriverOp :=
  [OpCalibrateSticksBegin]
  ++ replicate (Z.to_nat sampleCount) OpCalibrateSticksSample
  ++ [OpCalibrateSticksEnd].

(** The sample driver on a device that refuses to unlock its NVS. *)
Definition unlock_refused : NvResult.t := NvResult.mk false (Some "busy").
Definition unlock_refusing_controller : BaseController.t unit :=
  BaseController.mk unit
    sample_inputConfig
    sample_parseBatteryStatus
    (ret (NvStatus.mk "locked" true))
    (ret (NvResult.mk true None))
    (ret unlock_refused)
    (ret sample_ok) (ret sample_ok) (ret sample_ok) (ret sample_ok)
    (ret (Some sample_ok)).

(** [m] leaves the manager's own state alone and, when it returns, has
    made the requests [ops] on the driver; when it throws it has made
    the first of them only. *)
Definition requests {Dev A} (m : M (@World Dev) A) (ops : list DriverOp) : Prop :=
  ∀ w, this (m w).2 = this w
       ∧ ∃ evs, trace (m w).2 = trace w ++ evs
           ∧ if is_Ok (m w).1 then driver_ops evs = ops
             else driver_ops evs `prefix_of` ops.

(** The same for a computation that ends by raising the flag: the
    manager's own state is left alone when it throws. *)
Definition requests_then_flags {Dev A} (m : M (@World Dev) A) (ops : list DriverOp)
  (Q : A → Prop) : Prop :=
  ∀ w, ∃ evs, trace (m w).2 = trace w ++ evs
         ∧ match (m w).1 with
           | Ok a => driver_ops evs = ops ∧ Q a
                     ∧ has_changes_to_write (this (m w).2) = Some true
           | Throw _ => driver_ops evs `prefix_of` ops ∧ this (m w).2 = this w
           end.

(** ** [BaseController.alloc_req] *)

(** What [alloc_req] reads of the HID device: for each collection its
    feature reports, by report id, with the items of each. *)
Module HIDReportItem.
Record t : Type := mk { reportCount : Z }.
End HIDReportItem.

Module HIDReportInfo.
Record t : Type := mk { reportId : Z; items : list HIDReportItem.t }.
End HIDReportInfo.

Module HIDCollectionInfo.
Record t : Type := mk { featureReports : list HIDReportInfo.t }.
End HIDCollectionInfo.

(** The conversion of an integer stored into a [Uint8Array]. *)
Definition ToUint8 (z : Z) : Z := z mod 256.

(** [new Uint8Array(n)] on a platform that creates typed arrays of up to
    [max_length] elements (a limit of the engine, 2^53 - 1 at most): a
    negative length and a length beyond [max_length] throw [RangeError]. *)
Definition Uint8Array_new (max_length : Z) (n : Z) : Res (list Z) :=
  if (n <? 0) || (max_length <? n) then Throw RangeError
  else Ok (replicate (Z.to_nat n) 0).

(** [out.set(src)] *)
Definition Uint8Array_set (out : list Z) (src : list Z) : Res (list Z) :=
  if (length out <? length src)%nat then Throw RangeError
  else Ok ((ToUint8 <$> src) ++ drop (length src) out).

(** [const [report] = fr.find((e) => e.reportId === id)?.items || []] *)
Definition find_report (fr : list HIDReportInfo.t) (id : Z) : option HIDReportItem.t :=
  let items := match List.find (λ e, HIDReportInfo.reportId e =? id) fr with
               | Some e => HIDReportInfo.items e
               | None => []
               end in
  head items.

(** [report?.reportCount || data.length] *)
Definition request_length (report : option HIDReportItem.t) (data : list Z) : Z :=
  match report with
  | Some r => if HIDReportItem.reportCount r =? 0 then Z.of_nat (length data)
              else HIDReportItem.reportCount r
  | None => Z.of_nat (length data)
  end.

(** [alloc_req(id, data)] on a device with the collections [collections],
    for [data] an array of integers, on a platform with typed arrays of
    up to [max_length] elements. *)
Definition alloc_req (max_length : Z) (collections : list HIDCollectionInfo.t)
  (id : Z) (data : list Z) : Res (list Z) :=
  match head collections with
  | None => Throw TypeError
  | Some c =>
      let fr := HIDCollectionInfo.featureReports c in
      let report := find_report fr id in
      let maxLen := request_length report data in
      let len := Z.min (Z.of_nat (length data)) maxLen in
      out ← Uint8Array_new max_length maxLen;
      Uint8Array_set out (take (Z.to_nat len) data)
  end.

(** A device that declares 4 bytes for the feature report 0x80 and more
    bytes than any typed array holds for the feature report 0x90, and
    the largest length [ToIndex] accepts for a typed array. *)
Definition sample_collection : HIDCollectionInfo.t :=
  HIDCollectionInfo.mk
    [HIDReportInfo.mk 0x05 [HIDReportItem.mk 40];
     HIDReportInfo.mk 0x80 [HIDReportItem.mk 4];
     HIDReportInfo.mk 0x90 [HIDReportItem.mk (2 ^ 53)]].

Definition sample_collections : list HIDCollectionInfo.t := [sample_collection].

Definition sample_max_length : Z := 2 ^ 53 - 1.

(** The left stick pushed to the right, first in a report too short for
    the right trigger of the sample layout, then in a full report. *)
Definition moved_short_report : DataView := report [255; 128; 128; 128; 8; 0; 0; 0]%N.

Definition moved_report : DataView :=
  report [255; 128; 128; 128; 8; 0; 0; 0; 200; 0x00; 0x34; 0x02; 0x50; 0x80; 0; 0; 0]%N.

Definition moved_sticks : StickStates.t :=
  sticks_of_bytes Byte.xff Byte.x80 Byte.x80 Byte.x80.

Definition moved_short_recorded : Res InputChanges * ButtonStates :=
  _recordButtonStates moved_short_report sample_buttonMap 4 7 8 initial_button_states.

Definition moved_recorded : Res InputChanges * ButtonStates :=
  _recordButtonStates moved_report sample_buttonMap 4 7 8 moved_short_recorded.2.

(** The same movement in a full report, recorded from the constructor's
    snapshot. *)
Definition moved_first_recorded : Res InputChanges * ButtonStates :=
  _recordButtonStates
    (Byte.xff :: Byte.x80 :: Byte.x80 :: Byte.x80 :: drop 4 moved_report)
    sample_buttonMap 4 7 8 initial_button_states.

Definition sticks_at_zero : StickStates.t :=
  StickStates.mk (StickPosition.mk 0 0) (StickPosition.mk 0 0).

(** What a computation threw, [d] when it returned. *)
Definition res_error {A} (d : exn) (r : Res A) : exn :=
  match r with Ok _ => d | Throw e => e end.
(** * Properties *)

(** ** The arithmetic of the platform, on examples *)

Example Math_round_examples :
  Math_round 2.5 = 3%float
  ∧ Math_round (-2.5) = (-2)%float
  ∧ Math_round 0.25 = 0%float
  ∧ Math_round (-0.25) = (-0)%float
  ∧ Math_round 0x1.fffffffffffffp-2 = 0%float
  ∧ Math_round 7 = 7%float
  ∧ Math_round (-99.609375) = (-100)%float.
Proof. repeat split; vm_compute; reflexivity. Qed.

Example sampleProgress_examples :
  sampleProgress <$> [0; 1; 2; 3; 4] = [40; 50; 60; 70; 80]%float.
Proof. vm_compute. reflexivity. Qed.

(** Hat 0 is up, hat 7 is up and left, hat 8 is no direction. *)
Example dpad_hat_examples :
  dpadProps 0
  = [("up", VBool true); ("right", VBool false); ("down", VBool false); ("left", VBool false)]
  ∧ dpadProps 7
    = [("up", VBool true); ("right", VBool false); ("down", VBool false); ("left", VBool true)]
  ∧ dpadProps 8
    = [("up", VBool false); ("right", VBool false); ("down", VBool false); ("left", VBool false)].
Proof. repeat split; reflexivity. Qed.

Example battery_text_example :
  _batteryPercentToText id (BatteryInfo.mk 55 true true false)
  = "55% <i class=" +:+ dq +:+ "fa-solid fa-battery-half" +:+ dq +:+ "></i> <i class="
    +:+ dq +:+ "fa-solid fa-bolt" +:+ dq +:+ "></i>".
Proof. vm_compute. reflexivity. Qed.

(** ** Bytes and [getUint8] *)

Lemma byte_val_range (b : Byte.byte) : 0 ≤ byte_val b < 256.
Proof.
  unfold byte_val. pose proof (Byte.to_N_bounded b) as H. lia.
Qed.

Lemma getUint8_Ok (data : DataView) (i v : Z) :
  getUint8 data i = Ok v ↔
  0 ≤ i ∧ ∃ b, data !! Z.to_nat i = Some b ∧ v = byte_val b.
Proof.
  unfold getUint8. destruct (Z.ltb_spec i 0) as [Hi|Hi].
  - split; [discriminate | lia].
  - destruct (data !! Z.to_nat i) as [b|] eqn:Hb.
    + split.
      * intros [= <-]. eauto.
      * intros [_ (b' & [= <-] & ->)]. reflexivity.
    + split; [discriminate | intros [_ (b' & [=] & _)]].
Qed.

Lemma getUint8_Throw (data : DataView) (i : Z) (e : exn) :
  getUint8 data i = Throw e → e = RangeError ∧ ¬ (0 ≤ i < Z.of_nat (length data)).
Proof.
  unfold getUint8. destruct (Z.ltb_spec i 0) as [Hi|Hi].
  - intros [= <-]. split; [reflexivity | lia].
  - destruct (data !! Z.to_nat i) as [b|] eqn:Hb; [discriminate |].
    intros [= <-]. split; [reflexivity |].
    apply lookup_ge_None in Hb. lia.
Qed.

Lemma getUint8_app_at (pre l : DataView) (i k : Z) :
  i = Z.of_nat (length pre) + k → 0 ≤ k →
  getUint8 (pre ++ l) i = getUint8 l k.
Proof.
  intros -> Hk. unfold getUint8.
  destruct (Z.ltb_spec (Z.of_nat (length pre) + k) 0); [lia |].
  destruct (Z.ltb_spec k 0); [lia |].
  replace (Z.to_nat (Z.of_nat (length pre) + k)) with (length pre + Z.to_nat k)%nat by lia.
  by rewrite lookup_app_r, Nat.add_comm, Nat.add_sub by lia.
Qed.

(** ** Sticks *)

Lemma stick_value_checks_byte (b : Byte.byte) : stick_value_checks (byte_val b) = true.
Proof. destruct b; vm_compute; reflexivity. Qed.

Lemma stickValue_refl (b : Byte.byte) :
  num_eq (stickValue (byte_val b)) (stickValue (byte_val b)) = true.
Proof.
  pose proof (stick_value_checks_byte b) as H. unfold stick_value_checks in H.
  by repeat (apply andb_prop in H as [H ?]).
Qed.

Lemma readSticks_cons (b0 b1 b2 b3 : Byte.byte) (rest : DataView) :
  readSticks (b0 :: b1 :: b2 :: b3 :: rest) = Ok (sticks_of_bytes b0 b1 b2 b3).
Proof. reflexivity. Qed.

Lemma readSticks_Ok (data : DataView) (s : StickStates.t) :
  readSticks data = Ok s →
  ∃ b0 b1 b2 b3 rest, data = b0 :: b1 :: b2 :: b3 :: rest ∧ s = sticks_of_bytes b0 b1 b2 b3.
Proof.
  destruct data as [|b0 [|b1 [|b2 [|b3 rest]]]]; try discriminate.
  rewrite readSticks_cons. intros [= <-]. by exists b0, b1, b2, b3, rest.
Qed.

Lemma readSticks_short (data : DataView) :
  (length data < 4)%nat → readSticks data = Throw RangeError.
Proof.
  destruct data as [|b0 [|b1 [|b2 [|b3 rest]]]]; simpl; try reflexivity; lia.
Qed.

Lemma readSticks_Throw (data : DataView) (e : exn) :
  readSticks data = Throw e → e = RangeError ∧ (length data < 4)%nat.
Proof.
  destruct data as [|b0 [|b1 [|b2 [|b3 rest]]]]; simpl;
    try (intros [= <-]; split; [reflexivity | lia]).
  rewrite readSticks_cons. discriminate.
Qed.

Lemma sticksChanged_same (b0 b1 b2 b3 : Byte.byte) :
  _sticksChanged (sticks_of_bytes b0 b1 b2 b3) (sticks_of_bytes b0 b1 b2 b3) = false.
Proof.
  unfold _sticksChanged, sticks_of_bytes; simpl.
  by rewrite !stickValue_refl.
Qed.


(** ** Touchpad *)

Lemma active_mask_high_bit (b : Byte.byte) :
  (Z.land (byte_val b) TOUCHPAD_ACTIVE_MASK =? 0) = negb (Z.testbit (byte_val b) 7).
Proof. destruct b; reflexivity. Qed.

Lemma lor_shiftl_low (hi lo k : Z) :
  0 ≤ k → 0 ≤ lo < 2 ^ k → Z.lor (Z.shiftl hi k) lo = hi * 2 ^ k + lo.
Proof.
  intros Hk Hlo.
  assert (Hland : Z.land (Z.shiftl hi k) lo = 0).
  { apply Z.bits_inj'. intros n Hn. rewrite Z.land_spec, Z.bits_0.
    destruct (Z.ltb_spec n k).
    - by rewrite Z.shiftl_spec_low.
    - rewrite <- (Z.mod_small lo (2 ^ k)) by lia.
      rewrite Z.mod_pow2_bits_high by lia. apply andb_false_r. }
  rewrite <- Z.lxor_lor by done. rewrite <- Z.add_nocarry_lxor by done.
  by rewrite Z.shiftl_mul_pow2.
Qed.

Lemma parseTouchPoint_at (pre post : DataView) (skip : DataView)
  (b0 b1 b2 b3 : Byte.byte) (i : Z) :
  Z.of_nat (length skip) = i * TOUCHPAD_BYTES_PER_POINT →
  parseTouchPoint (pre ++ skip ++ b0 :: b1 :: b2 :: b3 :: post) (Z.of_nat (length pre)) i
  = Ok (touch_point_of_bytes (byte_val b0) (byte_val b1) (byte_val b2) (byte_val b3)).
Proof.
  intros Hi. unfold parseTouchPoint.
  set (base := Z.of_nat (length pre) + i * TOUCHPAD_BYTES_PER_POINT).
  assert (Hget : ∀ k b, (b0 :: b1 :: b2 :: b3 :: post) !! Z.to_nat k = Some b → 0 ≤ k →
            getUint8 (pre ++ skip ++ b0 :: b1 :: b2 :: b3 :: post) (base + k)
            = Ok (byte_val b)).
  { intros k b Hb Hk. rewrite app_assoc.
    rewrite (getUint8_app_at (pre ++ skip) _ _ k);
      [| rewrite length_app; subst base; lia | done].
    apply getUint8_Ok. eauto. }
  replace base with (base + 0) at 1 by lia.
  rewrite (Hget 0 b0), (Hget 1 b1), (Hget 2 b2), (Hget 3 b3) by (done || lia).
  simpl. unfold touch_point_of_bytes. by rewrite active_mask_high_bit.
Qed.

(** C2. On a report that holds the eight touchpad bytes at the declared
    offset, [_parseTouchPoints] returns exactly two points, point [i]
    decoded from the four bytes at [offset + 4 i] by the wire format:
    active when the high bit of byte 0 is clear, id the low 7 bits of
    byte 0, [x = ((byte2 & 0x0F) << 8) | byte1] and
    [y = (byte3 << 4) | (byte2 >> 4)]; the ranges are those of a 7-bit id
    and of 12-bit coordinates, and the bytes 00 34 02 50 decode to an
    active point with id 0, x 564 and y 1280. *)
Theorem parse_touch_points_wire_format
  (pre post : DataView) (a0 a1 a2 a3 c0 c1 c2 c3 : Byte.byte) :
  _parseTouchPoints (pre ++ [a0; a1; a2; a3; c0; c1; c2; c3] ++ post)
                    (Z.of_nat (length pre))
  = Ok [ touch_point_of_bytes (byte_val a0) (byte_val a1) (byte_val a2) (byte_val a3);
         touch_point_of_bytes (byte_val c0) (byte_val c1) (byte_val c2) (byte_val c3) ]
  ∧ (let p := touch_point_of_bytes (byte_val a0) (byte_val a1) (byte_val a2) (byte_val a3) in
     TouchPoint.active p = negb (Z.testbit (byte_val a0) 7)
     ∧ TouchPoint.id p = byte_val a0 `mod` 128
     ∧ TouchPoint.x p = (byte_val a2 `mod` 16) * 256 + byte_val a1
     ∧ TouchPoint.y p = byte_val a3 * 16 + byte_val a2 `div` 16
     ∧ 0 ≤ TouchPoint.id p ≤ 127
     ∧ 0 ≤ TouchPoint.x p ≤ 4095
     ∧ 0 ≤ TouchPoint.y p ≤ 4095)
  ∧ touch_point_of_bytes 0x00 0x34 0x02 0x50 = TouchPoint.mk true 0 564 1280.
Proof.
  split; [| split; [| reflexivity]].
  - unfold _parseTouchPoints. simpl.
    pose proof (parseTouchPoint_at pre ([c0; c1; c2; c3] ++ post) [] a0 a1 a2 a3 0) as H0.
    pose proof (parseTouchPoint_at pre post [a0; a1; a2; a3] c0 c1 c2 c3 1) as H1.
    simpl in H0, H1. unfold mbind, Res_bind.
    rewrite H0 by reflexivity. simpl. change (0 + 1) with 1.
    rewrite H1 by reflexivity. reflexivity.
  - pose proof (byte_val_range a0). pose proof (byte_val_range a1).
    pose proof (byte_val_range a2). pose proof (byte_val_range a3).
    assert (Hid : Z.land (byte_val a0) 127 = byte_val a0 `mod` 128)
      by (change 127 with (Z.ones 7); by rewrite Z.land_ones).
    assert (Hlow : 0 ≤ byte_val a2 `div` 16 < 16)
      by (split; [apply Z.div_pos; lia | apply Z.div_lt_upper_bound; lia]).
    assert (Hx : Z.lor (Z.shiftl (Z.land (byte_val a2) 15) 8) (byte_val a1)
                 = (byte_val a2 `mod` 16) * 256 + byte_val a1).
    { change 15 with (Z.ones 4). rewrite Z.land_ones by lia.
      rewrite lor_shiftl_low; [reflexivity | lia | change (2 ^ 8) with 256; lia]. }
    assert (Hy : Z.lor (Z.shiftl (byte_val a3) 4) (Z.shiftr (byte_val a2) 4)
                 = byte_val a3 * 16 + byte_val a2 `div` 16).
    { rewrite Z.shiftr_div_pow2 by lia. change (2 ^ 4) with 16.
      rewrite lor_shiftl_low; [reflexivity | lia | change (2 ^ 4) with 16; lia]. }
    simpl. rewrite Hid, Hx, Hy.
    pose proof (Z.mod_pos_bound (byte_val a0) 128).
    pose proof (Z.mod_pos_bound (byte_val a2) 16).
    repeat split; try reflexivity; lia.
Qed.

(** ** The monad *)

Lemma bind_Ok_inv {S A B} (m : M S A) (k : A → M S B) (s s' : S) (b : B) :
  (m ≫= k) s = (Ok b, s') → ∃ a s1, m s = (Ok a, s1) ∧ k a s1 = (Ok b, s').
Proof.
  unfold mbind, M_bind, bind. destruct (m s) as [[a|e] s1]; intros H.
  - by exists a, s1.
  - discriminate.
Qed.

Lemma bind_Ok_run {S A B} (m : M S A) (k : A → M S B) (s s1 : S) (a : A) :
  m s = (Ok a, s1) → (m ≫= k) s = k a s1.
Proof. unfold mbind, M_bind, bind. by intros ->. Qed.

(** ** Recording decoded properties *)

Lemma strict_neq_false (stored : option jsval) (v : jsval) :
  strict_neq stored v = false ↔ is_prim v = true ∧ stored = Some v.
Proof.
  destruct stored as [[a|a|a]|], v as [b|b|b]; simpl; split;
    try discriminate; try (intros [? [=]]; fail); try (intros [[=] ?]; fail).
  - intros H. apply negb_false_iff, Bool.eqb_prop in H. by subst.
  - intros [_ [= ->]]. by rewrite Bool.eqb_reflx.
  - intros H. apply negb_false_iff, Z.eqb_eq in H. by subst.
  - intros [_ [= ->]]. by rewrite Z.eqb_refl.
Qed.

Lemma recordProp_settled (k : string) (v : jsval) (ch : InputChanges) (bs : ButtonStates) :
  is_prim v = true → bs !! k = Some v → recordProp k v ch bs = (Ok ch, bs).
Proof.
  intros Hv Hk. unfold recordProp.
  by rewrite (proj2 (strict_neq_false (bs !! k) v)).
Qed.

Lemma recordProp_changed (k : string) (v : jsval) (ch : InputChanges) (bs : ButtonStates) :
  bs !! k ≠ Some v →
  recordProp k v ch bs = (Ok (<[k := v]> ch), <[k := v]> bs).
Proof.
  intros Hk. unfold recordProp.
  destruct (strict_neq (bs !! k) v) eqn:E; [done |].
  apply strict_neq_false in E as [_ E]. done.
Qed.

Lemma recordProp_run (k : string) (v : jsval) (ch : InputChanges) (bs : ButtonStates) :
  is_prim v = true →
  ∃ ch' bs', recordProp k v ch bs = (Ok ch', bs')
    ∧ bs' !! k = Some v
    ∧ (∀ k', k' ≠ k → bs' !! k' = bs !! k').
Proof.
  intros Hv. unfold recordProp.
  destruct (strict_neq (bs !! k) v) eqn:E.
  - eexists _, _. split; [reflexivity |]. split.
    + apply lookup_insert_eq.
    + intros k' Hk'. by rewrite lookup_insert_ne.
  - apply strict_neq_false in E as [_ E]. eauto.
Qed.

Lemma recordAll_cons (k : string) (v : jsval) (props : list (string * jsval))
  (ch : InputChanges) :
  recordAll ((k, v) :: props) ch = (recordProp k v ch ≫= recordAll props).
Proof. reflexivity. Qed.

Lemma recordAll_app (props1 props2 : list (string * jsval)) (ch : InputChanges)
  (bs : ButtonStates) :
  recordAll (props1 ++ props2) ch bs = (recordAll props1 ch ≫= recordAll props2) bs.
Proof.
  revert ch bs. induction props1 as [|[k v] props1 IH]; intros ch bs.
  - reflexivity.
  - simpl. rewrite !recordAll_cons. unfold mbind, M_bind, bind.
    destruct (recordProp k v ch bs) as [[ch1|e] bs1]; [| reflexivity].
    apply IH.
Qed.

(** Once every property of the list is in the snapshot, recording the
    list reports nothing and leaves the snapshot alone. *)
Lemma recordAll_settled (props : list (string * jsval)) (ch : InputChanges)
  (bs : ButtonStates) :
  Forall (λ kv, is_prim kv.2 = true ∧ bs !! kv.1 = Some kv.2) props →
  recordAll props ch bs = (Ok ch, bs).
Proof.
  induction 1 as [|[k v] props [Hv Hk] _ IH]; [reflexivity |].
  rewrite recordAll_cons.
  by rewrite (bind_Ok_run _ _ _ _ _ (recordProp_settled k v ch bs Hv Hk)).
Qed.

(** Recording a list of properties under distinct keys puts each of them
    in the snapshot and touches no other key. *)
Lemma recordAll_run (props : list (string * jsval)) (ch : InputChanges)
  (bs : ButtonStates) :
  NoDup props.*1 → Forall (λ kv, is_prim kv.2 = true) props →
  ∃ ch' bs', recordAll props ch bs = (Ok ch', bs')
    ∧ Forall (λ kv, bs' !! kv.1 = Some kv.2) props
    ∧ (∀ k, k ∉ props.*1 → bs' !! k = bs !! k).
Proof.
  revert ch bs. induction props as [|[k v] props IH]; intros ch bs Hnd Hprim.
  - exists ch, bs. by repeat split.
  - apply NoDup_cons in Hnd as [Hk Hnd]. apply Forall_cons in Hprim as [Hv Hprim].
    destruct (recordProp_run k v ch bs Hv) as (ch1 & bs1 & Hrun & Hset & Hother).
    destruct (IH ch1 bs1 Hnd Hprim) as (ch' & bs' & Hrun' & Hall & Hother').
    exists ch', bs'. rewrite recordAll_cons, (bind_Ok_run _ _ _ _ _ Hrun).
    split; [done |]. split.
    + constructor; [| done]. simpl. by rewrite Hother'.
    + intros k' Hk'. simpl in Hk'. apply not_elem_of_cons in Hk' as [Hne Hk'].
      by rewrite Hother', Hother.
Qed.

Lemma recordProp_total (k : string) (v : jsval) (ch : InputChanges) (bs : ButtonStates) :
  ∃ ch' bs', recordProp k v ch bs = (Ok ch', bs').
Proof. unfold recordProp. destruct (strict_neq (bs !! k) v); eauto. Qed.

Lemma recordAll_total (props : list (string * jsval)) (ch : InputChanges)
  (bs : ButtonStates) :
  ∃ ch' bs', recordAll props ch bs = (Ok ch', bs').
Proof.
  revert ch bs. induction props as [|[k v] props IH]; intros ch bs.
  - by exists ch, bs.
  - destruct (recordProp_total k v ch bs) as (ch1 & bs1 & H1).
    rewrite recordAll_cons, (bind_Ok_run _ _ _ _ _ H1). apply IH.
Qed.

(** ** [_recordButtonStates] decodes, then records *)

Lemma for_of_cons {S A B} (body : B → A → M S B) (acc : B) (it : A) (rest : list A) :
  for_of body acc (it :: rest) = (body acc it ≫= λ acc', for_of body acc' rest).
Proof. reflexivity. Qed.

Lemma bind_run {S A B} (m : M S A) (k : A → M S B) (s : S) :
  (m ≫= k) s = match m s with
               | (Ok a, s') => k a s'
               | (Throw e, s') => (Throw e, s')
               end.
Proof. reflexivity. Qed.

Lemma recordButton_run (data : DataView) (ch : InputChanges) (btn : ButtonMapping.t)
  (bs : ButtonStates) :
  recordButton data ch btn bs
  = if is_dpad_name (ButtonMapping.name btn) then (Ok ch, bs)
    else match getUint8 data (ButtonMapping.byte btn) with
         | Ok b => recordProp (ButtonMapping.name btn)
                     (VBool (negb (Z.land b (ButtonMapping.mask btn) =? 0))) ch bs
         | Throw e => (Throw e, bs)
         end.
Proof.
  unfold recordButton. destruct (is_dpad_name _); [reflexivity |].
  rewrite bind_run. unfold liftRes. by destruct (getUint8 _ _).
Qed.

Lemma recordTrigger_run (data : DataView) (ch : InputChanges) (name : string)
  (byte : Z) (bs : ButtonStates) :
  recordTrigger data ch (name, byte) bs
  = match getUint8 data byte with
    | Ok val => recordProp name (VNum val) ch bs
    | Throw e => (Throw e, bs)
    end.
Proof.
  unfold recordTrigger. rewrite bind_run. unfold liftRes. simpl.
  by destruct (getUint8 _ _).
Qed.

Lemma res_bind_Ok {A B} (a : A) (k : A → Res B) : (Ok a ≫= k) = k a.
Proof. reflexivity. Qed.

Lemma res_bind_Throw {A B} (e : exn) (k : A → Res B) : (Throw e ≫= k) = Throw e.
Proof. reflexivity. Qed.

Ltac res_red := repeat (rewrite res_bind_Ok || rewrite res_bind_Throw).

Lemma decodes_as_seq (r1 r2 : Res (list (string * jsval)))
  (m1 m2 : InputChanges → M ButtonStates InputChanges) :
  decodes_as r1 m1 → decodes_as r2 m2 →
  decodes_as (p1 ← r1; p2 ← r2; Ok (p1 ++ p2)) (λ ch, m1 ch ≫= m2).
Proof.
  intros H1 H2 ch bs. specialize (H1 ch bs). rewrite bind_run.
  destruct r1 as [p1|e]; res_red.
  - destruct (recordAll_total p1 ch bs) as (ch1 & bs1 & Hrun).
    rewrite H1, Hrun. specialize (H2 ch1 bs1).
    destruct r2 as [p2|e]; res_red.
    + by rewrite recordAll_app, (bind_Ok_run _ _ _ _ _ Hrun).
    + done.
  - destruct H1 as [bs' ->]. eauto.
Qed.

Lemma decodes_as_read (data : DataView) (i : Z)
  (r : Z → Res (list (string * jsval)))
  (m : Z → InputChanges → M ButtonStates InputChanges) :
  (∀ v, decodes_as (r v) (m v)) →
  decodes_as (v ← getUint8 data i; r v) (λ ch, v ← liftRes (getUint8 data i); m v ch).
Proof.
  intros H ch bs. rewrite bind_run. unfold liftRes.
  destruct (getUint8 data i) as [v|e]; res_red; [apply H | eauto].
Qed.

Lemma decodes_as_recordAll (props : list (string * jsval)) :
  decodes_as (Ok props) (recordAll props).
Proof. by intros ch bs. Qed.

Lemma decodes_as_buttons (data : DataView) (BUTTON_MAP : list ButtonMapping.t) :
  decodes_as (readButtons data BUTTON_MAP) (λ ch, for_of (recordButton data) ch BUTTON_MAP).
Proof.
  induction BUTTON_MAP as [|btn rest IH]; intros ch bs; [reflexivity |].
  rewrite for_of_cons, bind_run, recordButton_run. cbn [readButtons].
  destruct (is_dpad_name (ButtonMapping.name btn)); [apply IH |].
  destruct (getUint8 data (ButtonMapping.byte btn)) as [b|e]; res_red; [| eauto].
  set (v := VBool (negb (Z.land b (ButtonMapping.mask btn) =? 0))).
  destruct (recordProp_total (ButtonMapping.name btn) v ch bs) as (ch1 & bs1 & H1).
  rewrite H1. specialize (IH ch1 bs1).
  destruct (readButtons data rest) as [props|e]; res_red; [| done].
  by rewrite recordAll_cons, (bind_Ok_run _ _ _ _ _ H1).
Qed.

Lemma decodes_as_triggers (data : DataView) (l2_analog_byte r2_analog_byte : Z) :
  decodes_as
    (l2 ← getUint8 data l2_analog_byte;
     r2 ← getUint8 data r2_analog_byte;
     Ok [("l2_analog", VNum l2); ("r2_analog", VNum r2)])
    (λ ch, for_of (recordTrigger data) ch
             [("l2_analog", l2_analog_byte); ("r2_analog", r2_analog_byte)]).
Proof.
  intros ch bs. rewrite for_of_cons, bind_run, recordTrigger_run.
  destruct (getUint8 data l2_analog_byte) as [l2|e]; res_red; [| eauto].
  destruct (recordProp_total "l2_analog" (VNum l2) ch bs) as (ch1 & bs1 & H1).
  rewrite H1, for_of_cons, bind_run, recordTrigger_run.
  destruct (getUint8 data r2_analog_byte) as [r2|e]; res_red; [| eauto].
  destruct (recordProp_total "r2_analog" (VNum r2) ch1 bs1) as (ch2 & bs2 & H2).
  rewrite H2, recordAll_cons, (bind_Ok_run _ _ _ _ _ H1).
  rewrite recordAll_cons, (bind_Ok_run _ _ _ _ _ H2).
  reflexivity.
Qed.

(** The part of [_recordButtonStates] after the sticks. *)
Lemma record_after_sticks (data : DataView) (BUTTON_MAP : list ButtonMapping.t)
  (dpad_byte l2_analog_byte r2_analog_byte : Z) :
  decodes_as (decodeProps data BUTTON_MAP dpad_byte l2_analog_byte r2_analog_byte)
    (λ changes,
       changes ← for_of (recordTrigger data) changes
                   [("l2_analog", l2_analog_byte); ("r2_analog", r2_analog_byte)];
       hatByte ← liftRes (getUint8 data dpad_byte);
       changes ← for_of (recordDpad (Z.land hatByte 0x0f)) changes dpadDirections;
       for_of (recordButton data) changes BUTTON_MAP).
Proof.
  pose proof (decodes_as_seq _ _ _ _
    (decodes_as_triggers data l2_analog_byte r2_analog_byte)
    (decodes_as_read data dpad_byte _ _ (λ hatByte,
       decodes_as_seq _ _ _ _
         (decodes_as_recordAll (dpadProps (Z.land hatByte 0x0f)))
         (decodes_as_buttons data BUTTON_MAP)))) as H.
  intros ch bs. specialize (H ch bs). unfold decodeProps.
  destruct (getUint8 data l2_analog_byte) as [l2|e]; res_red; cbv beta in *; [| done].
  destruct (getUint8 data r2_analog_byte) as [r2|e]; res_red; cbv beta in *; [| done].
  destruct (getUint8 data dpad_byte) as [hatByte|e]; res_red; cbv beta in *; [| done].
  destruct (readButtons data BUTTON_MAP) as [buttons|e]; res_red; cbv beta in *; done.
Qed.

Lemma recordSticks_run (newSticks : StickStates.t) (bs : ButtonStates) :
  (∃ current, bs !! "sticks" = Some (VSticks current)
     ∧ recordSticks newSticks bs
       = if _sticksChanged current newSticks
         then (Ok {["sticks" := VSticks newSticks]}, <["sticks" := VSticks newSticks]> bs)
         else (Ok ∅, bs))
  ∨ (¬ has_sticks bs ∧ recordSticks newSticks bs = (Throw TypeError, bs)).
Proof.
  unfold recordSticks, currentSticks, has_sticks.
  destruct (bs !! "sticks") as [[b|n|s]|] eqn:E.
  - right. split; [intros [s [=]] | done].
  - right. split; [intros [s [=]] | done].
  - left. by exists s.
  - right. split; [intros [s [=]] | done].
Qed.

Lemma decode_Ok (data : DataView) (BUTTON_MAP : list ButtonMapping.t)
  (dpad_byte l2_analog_byte r2_analog_byte : Z) (newSticks : StickStates.t)
  (props : list (string * jsval)) :
  decode data BUTTON_MAP dpad_byte l2_analog_byte r2_analog_byte = Ok (newSticks, props)
  ↔ readSticks data = Ok newSticks
    ∧ decodeProps data BUTTON_MAP dpad_byte l2_analog_byte r2_analog_byte = Ok props.
Proof.
  unfold decode. destruct (readSticks data) as [ns|e]; res_red.
  - destruct (decodeProps _ _ _ _ _) as [ps|e]; res_red.
    + split; [by intros [= -> ->] | by intros [[= ->] [= ->]]].
    + split; [discriminate | by intros [_ [=]]].
  - split; [discriminate | by intros [[=] _]].
Qed.

Lemma decode_Throw (data : DataView) (BUTTON_MAP : list ButtonMapping.t)
  (dpad_byte l2_analog_byte r2_analog_byte : Z) (e : exn) :
  decode data BUTTON_MAP dpad_byte l2_analog_byte r2_analog_byte = Throw e
  ↔ readSticks data = Throw e
    ∨ ∃ newSticks, readSticks data = Ok newSticks
        ∧ decodeProps data BUTTON_MAP dpad_byte l2_analog_byte r2_analog_byte = Throw e.
Proof.
  unfold decode. destruct (readSticks data) as [ns|e']; res_red.
  - destruct (decodeProps _ _ _ _ _) as [ps|e']; res_red.
    + split; [discriminate | intros [[=]|(? & _ & [=])]].
    + split; [intros [= ->]; eauto | by intros [[=]|(? & _ & [= ->])]].
  - split; [intros [= ->]; eauto | by intros [[= ->]|(? & [=] & _)]].
Qed.

Lemma recordButtonStates_run (data : DataView) (BUTTON_MAP : list ButtonMapping.t)
  (dpad_byte l2_analog_byte r2_analog_byte : Z) (bs : ButtonStates) :
  _recordButtonStates data BUTTON_MAP dpad_byte l2_analog_byte r2_analog_byte bs
  = match readSticks data with
    | Ok newSticks =>
        (recordSticks newSticks ≫= λ changes,
           changes ← for_of (recordTrigger data) changes
                       [("l2_analog", l2_analog_byte); ("r2_analog", r2_analog_byte)];
           hatByte ← liftRes (getUint8 data dpad_byte);
           changes ← for_of (recordDpad (Z.land hatByte 0x0f)) changes dpadDirections;
           for_of (recordButton data) changes BUTTON_MAP) bs
    | Throw e => (Throw e, bs)
    end.
Proof.
  unfold _recordButtonStates. rewrite bind_run. unfold liftRes at 1.
  by destruct (readSticks data).
Qed.

(** [_recordButtonStates] is the decoder followed by the comparison with
    the snapshot. *)
Lemma recordButtonStates_decoded (data : DataView) (BUTTON_MAP : list ButtonMapping.t)
  (dpad_byte l2_analog_byte r2_analog_byte : Z) (newSticks : StickStates.t)
  (props : list (string * jsval)) (bs : ButtonStates) :
  decode data BUTTON_MAP dpad_byte l2_analog_byte r2_analog_byte = Ok (newSticks, props) →
  _recordButtonStates data BUTTON_MAP dpad_byte l2_analog_byte r2_analog_byte bs
  = (recordSticks newSticks ≫= recordAll props) bs.
Proof.
  intros [Hs Hp]%decode_Ok. rewrite recordButtonStates_run, Hs, !bind_run.
  destruct (recordSticks newSticks bs) as [[ch|e] bs1]; [| done].
  pose proof (record_after_sticks data BUTTON_MAP dpad_byte l2_analog_byte
                r2_analog_byte ch bs1) as Ht.
  by rewrite Hp in Ht.
Qed.

(** When the decoder fails, so does [_recordButtonStates], with the same
    exception unless the stick record is missing from the snapshot. *)
Lemma recordButtonStates_undecoded (data : DataView) (BUTTON_MAP : list ButtonMapping.t)
  (dpad_byte l2_analog_byte r2_analog_byte : Z) (e : exn) (bs : ButtonStates) :
  decode data BUTTON_MAP dpad_byte l2_analog_byte r2_analog_byte = Throw e →
  ∃ e' bs',
    _recordButtonStates data BUTTON_MAP dpad_byte l2_analog_byte r2_analog_byte bs
    = (Throw e', bs')
    ∧ (has_sticks bs → e' = e).
Proof.
  intros [Hs|(newSticks & Hs & Hp)]%decode_Throw; rewrite recordButtonStates_run, Hs.
  - by exists e, bs.
  - rewrite bind_run.
    destruct (recordSticks_run newSticks bs) as [(cur & Hcur & Hrun)|[Hno Hrun]].
    + assert (∃ ch bs1, recordSticks newSticks bs = (Ok ch, bs1)) as (ch & bs1 & Hrun1).
      { rewrite Hrun. destruct (_sticksChanged cur newSticks); eauto. }
      rewrite Hrun1.
      pose proof (record_after_sticks data BUTTON_MAP dpad_byte l2_analog_byte
                    r2_analog_byte ch bs1) as Ht.
      rewrite Hp in Ht. destruct Ht as [bs' Ht]. by exists e, bs'.
    + rewrite Hrun. exists TypeError, bs. split; [done | intros H; by destruct Hno].
Qed.

(** ** What the decoder returns *)

Lemma readButtons_Ok (data : DataView) (BUTTON_MAP : list ButtonMapping.t)
  (props : list (string * jsval)) :
  readButtons data BUTTON_MAP = Ok props →
  props.*1 = ButtonMapping.name <$> tracked_buttons BUTTON_MAP
  ∧ Forall (λ kv, is_prim kv.2 = true) props
  ∧ Forall (in_range data) (ButtonMapping.byte <$> tracked_buttons BUTTON_MAP).
Proof.
  revert props. induction BUTTON_MAP as [|btn rest IH]; intros props.
  - intros [= <-]. by repeat split.
  - cbn [readButtons]. unfold tracked_buttons. rewrite filter_cons.
    destruct (is_dpad_name (ButtonMapping.name btn)) eqn:Hd.
    + rewrite decide_False by done. apply IH.
    + rewrite decide_True by done.
      destruct (getUint8 data (ButtonMapping.byte btn)) as [b|e] eqn:Hb; res_red;
        [| discriminate].
      destruct (readButtons data rest) as [ps|e]; res_red; [| discriminate].
      intros [= <-]. destruct (IH ps eq_refl) as (Hk & Hp & Hr).
      apply getUint8_Ok in Hb as (Hpos & b' & Hb' & _).
      apply lookup_lt_Some in Hb'.
      repeat split.
      * simpl. by f_equal.
      * by constructor.
      * constructor; [unfold in_range; lia | done].
Qed.

Lemma readButtons_Throw (data : DataView) (BUTTON_MAP : list ButtonMapping.t) (e : exn) :
  readButtons data BUTTON_MAP = Throw e → e = RangeError.
Proof.
  induction BUTTON_MAP as [|btn rest IH]; cbn [readButtons]; [discriminate |].
  destruct (is_dpad_name (ButtonMapping.name btn)); [done |].
  destruct (getUint8 data (ButtonMapping.byte btn)) as [b|e'] eqn:Hb; res_red.
  - destruct (readButtons data rest) as [ps|e']; res_red; [discriminate |].
    intros [= <-]. by apply IH.
  - intros [= <-]. by apply getUint8_Throw in Hb as [-> _].
Qed.

Lemma decodeProps_Ok (data : DataView) (BUTTON_MAP : list ButtonMapping.t)
  (dpad_byte l2_analog_byte r2_analog_byte : Z) (props : list (string * jsval)) :
  decodeProps data BUTTON_MAP dpad_byte l2_analog_byte r2_analog_byte = Ok props ↔
  ∃ l2 r2 hatByte buttons,
    getUint8 data l2_analog_byte = Ok l2
    ∧ getUint8 data r2_analog_byte = Ok r2
    ∧ getUint8 data dpad_byte = Ok hatByte
    ∧ readButtons data BUTTON_MAP = Ok buttons
    ∧ props = ("l2_analog", VNum l2) :: ("r2_analog", VNum r2)
              :: dpadProps (Z.land hatByte 0x0f) ++ buttons.
Proof.
  unfold decodeProps. split.
  - destruct (getUint8 data l2_analog_byte) as [l2|e]; res_red; [| discriminate].
    destruct (getUint8 data r2_analog_byte) as [r2|e]; res_red; [| discriminate].
    destruct (getUint8 data dpad_byte) as [hatByte|e]; res_red; [| discriminate].
    destruct (readButtons data BUTTON_MAP) as [buttons|e]; res_red; [| discriminate].
    intros [= <-]. by exists l2, r2, hatByte, buttons.
  - intros (l2 & r2 & hatByte & buttons & -> & -> & -> & -> & ->). reflexivity.
Qed.

Lemma decode_Throw_RangeError (data : DataView) (BUTTON_MAP : list ButtonMapping.t)
  (dpad_byte l2_analog_byte r2_analog_byte : Z) (e : exn) :
  decode data BUTTON_MAP dpad_byte l2_analog_byte r2_analog_byte = Throw e →
  e = RangeError.
Proof.
  intros [Hs|(ns & _ & Hp)]%decode_Throw.
  - by apply readSticks_Throw in Hs as [-> _].
  - unfold decodeProps in Hp.
    destruct (getUint8 data l2_analog_byte) as [l2|e'] eqn:H1; revert Hp; res_red;
      [| intros [= <-]; by apply getUint8_Throw in H1 as [-> _]].
    destruct (getUint8 data r2_analog_byte) as [r2|e'] eqn:H2; res_red;
      [| intros [= <-]; by apply getUint8_Throw in H2 as [-> _]].
    destruct (getUint8 data dpad_byte) as [hatByte|e'] eqn:H3; res_red;
      [| intros [= <-]; by apply getUint8_Throw in H3 as [-> _]].
    destruct (readButtons data BUTTON_MAP) as [buttons|e'] eqn:H4; res_red;
      [discriminate | intros [= <-]; by apply readButtons_Throw in H4].
Qed.

Lemma getUint8_Ok_in_range (data : DataView) (i v : Z) :
  getUint8 data i = Ok v → in_range data i.
Proof.
  intros (Hpos & b & Hb & _)%getUint8_Ok. apply lookup_lt_Some in Hb.
  unfold in_range. lia.
Qed.

(** The decoder succeeds only on a report that covers every offset it
    reads. *)
Lemma decode_Ok_in_range (data : DataView) (BUTTON_MAP : list ButtonMapping.t)
  (dpad_byte l2_analog_byte r2_analog_byte : Z) (newSticks : StickStates.t)
  (props : list (string * jsval)) :
  decode data BUTTON_MAP dpad_byte l2_analog_byte r2_analog_byte = Ok (newSticks, props) →
  Forall (in_range data) (record_offsets BUTTON_MAP dpad_byte l2_analog_byte r2_analog_byte).
Proof.
  intros [Hs Hp]%decode_Ok.
  apply readSticks_Ok in Hs as (b0 & b1 & b2 & b3 & rest & -> & _).
  apply decodeProps_Ok in Hp as (l2 & r2 & hatByte & buttons & H1 & H2 & H3 & H4 & _).
  apply readButtons_Ok in H4 as (_ & _ & H4).
  apply getUint8_Ok_in_range in H1, H2, H3.
  unfold record_offsets. repeat (apply Forall_cons; split); try done.
  all: unfold in_range; simpl; lia.
Qed.

Lemma decodeProps_keys (data : DataView) (BUTTON_MAP : list ButtonMapping.t)
  (dpad_byte l2_analog_byte r2_analog_byte : Z) (props : list (string * jsval)) :
  decodeProps data BUTTON_MAP dpad_byte l2_analog_byte r2_analog_byte = Ok props →
  "sticks" :: props.*1 = tracked_keys BUTTON_MAP
  ∧ Forall (λ kv, is_prim kv.2 = true) props.
Proof.
  intros (l2 & r2 & hatByte & buttons & _ & _ & _ & Hb & ->)%decodeProps_Ok.
  apply readButtons_Ok in Hb as (Hk & Hp & _). split.
  - unfold tracked_keys. rewrite <- Hk. reflexivity.
  - repeat (apply Forall_cons; split); try done.
Qed.

(** ** After a report has been recorded *)

(** Shared by the two tracker properties: once [_recordButtonStates] has
    returned on a report, under a layout that writes each key once, the
    snapshot agrees with everything decoded from that report. *)
Lemma recorded_snapshot (data : DataView) (BUTTON_MAP : list ButtonMapping.t)
  (dpad_byte l2_analog_byte r2_analog_byte : Z) (bs bs1 : ButtonStates)
  (ch1 : InputChanges) :
  NoDup (tracked_keys BUTTON_MAP) →
  _recordButtonStates data BUTTON_MAP dpad_byte l2_analog_byte r2_analog_byte bs
  = (Ok ch1, bs1) →
  ∃ newSticks props,
    decode data BUTTON_MAP dpad_byte l2_analog_byte r2_analog_byte = Ok (newSticks, props)
    ∧ recordSticks newSticks bs1 = (Ok ∅, bs1)
    ∧ Forall (λ kv, is_prim kv.2 = true ∧ bs1 !! kv.1 = Some kv.2) props.
Proof.
  intros Hnd Hrun.
  destruct (decode data BUTTON_MAP dpad_byte l2_analog_byte r2_analog_byte)
    as [[newSticks props]|e] eqn:Hdec.
  2:{ destruct (recordButtonStates_undecoded _ _ _ _ _ _ bs Hdec) as (e' & bs' & H & _).
      rewrite H in Hrun. discriminate. }
  exists newSticks, props. split; [done |].
  rewrite (recordButtonStates_decoded _ _ _ _ _ _ _ bs Hdec) in Hrun.
  apply bind_Ok_inv in Hrun as (ch0 & bs0 & Hst & Hall).
  apply decode_Ok in Hdec as [Hs Hp].
  apply decodeProps_keys in Hp as [Hkeys Hprim].
  rewrite <- Hkeys in Hnd. apply NoDup_cons in Hnd as [Hsticks Hnd].
  destruct (recordAll_run props ch0 bs0 Hnd Hprim) as (ch' & bs' & Hrun' & Hset & Hother).
  rewrite Hall in Hrun'. injection Hrun' as <- <-.
  assert (Hcur : ∃ cur, bs0 !! "sticks" = Some (VSticks cur)
                        ∧ _sticksChanged cur newSticks = false).
  { destruct (recordSticks_run newSticks bs) as [(cur & Hcur & Hr)|[_ Hr]];
      rewrite Hr in Hst; [| discriminate].
    destruct (_sticksChanged cur newSticks) eqn:Hch; injection Hst as <- <-.
    - exists newSticks. split; [apply lookup_insert_eq |].
      apply readSticks_Ok in Hs as (b0 & b1 & b2 & b3 & rest & _ & ->).
      apply sticksChanged_same.
    - by exists cur. }
  destruct Hcur as (cur & Hcur & Hsame). split.
  - unfold recordSticks, currentSticks. by rewrite (Hother _ Hsticks), Hcur, Hsame.
  - rewrite Forall_forall in Hprim, Hset. apply Forall_forall. intros kv Hkv.
    split; [by apply Hprim | by apply Hset].
Qed.

(** C5. Under a layout that stores every tracked field under a key of its
    own (distinct button names, none of them [sticks], [l2_analog] or
    [r2_analog]), once [_recordButtonStates] has returned on a report,
    recording the same report again returns the empty change-set (no
    sticks, no button, no d-pad direction, no analog trigger) and leaves
    the snapshot as it is. *)
Theorem record_same_report_twice (data : DataView) (BUTTON_MAP : list ButtonMapping.t)
  (dpad_byte l2_analog_byte r2_analog_byte : Z) (bs bs1 : ButtonStates)
  (ch1 : InputChanges) :
  NoDup (tracked_keys BUTTON_MAP) →
  _recordButtonStates data BUTTON_MAP dpad_byte l2_analog_byte r2_analog_byte bs
  = (Ok ch1, bs1) →
  _recordButtonStates data BUTTON_MAP dpad_byte l2_analog_byte r2_analog_byte bs1
  = (Ok ∅, bs1).
Proof.
  intros Hnd Hrun.
  destruct (recorded_snapshot _ _ _ _ _ _ _ _ Hnd Hrun)
    as (newSticks & props & Hdec & Hst & Hall).
  rewrite (recordButtonStates_decoded _ _ _ _ _ _ _ bs1 Hdec).
  rewrite (bind_Ok_run _ _ _ _ _ Hst).
  by apply recordAll_settled.
Qed.

Lemma run_returned {S A} (d : A) (r : Res A * S) :
  is_Ok r.1 = true → r = (Ok (res_value d r.1), r.2).
Proof. destruct r as [[a|e] s]; [reflexivity | discriminate]. Qed.

Lemma record_same_report_twice_witness :
  NoDup (tracked_keys sample_buttonMap)
  ∧ _recordButtonStates sample_report sample_buttonMap 4 7 8 initial_button_states
    = (Ok (res_value ∅ sample_recorded.1), sample_recorded.2)
  ∧ _recordButtonStates sample_report sample_buttonMap 4 7 8 sample_recorded.2
    = (Ok ∅, sample_recorded.2).
Proof.
  set (first := sample_recorded).
  assert (Hnd : NoDup (tracked_keys sample_buttonMap))
    by (apply (bool_decide_unpack _); vm_compute; exact I).
  assert (Hrun : _recordButtonStates sample_report sample_buttonMap 4 7 8
                   initial_button_states
                 = (Ok (res_value ∅ first.1), first.2))
    by (apply (run_returned ∅ sample_recorded); vm_compute; reflexivity).
  split; [exact Hnd |]. split; [exact Hrun |].
  exact (record_same_report_twice sample_report sample_buttonMap 4 7 8
           initial_button_states first.2 (res_value ∅ first.1) Hnd Hrun).
Defined.

Ltac in_list :=
  simpl; repeat first [done | apply list_elem_of_here | apply list_elem_of_further].

(** ** Changing one byte of a report *)

Lemma byte_val_inj (b b' : Byte.byte) : byte_val b = byte_val b' → b = b'.
Proof.
  unfold byte_val. intros H. apply N2Z.inj in H.
  pose proof (Byte.of_to_N b) as Hb. rewrite H, Byte.of_to_N in Hb. congruence.
Qed.

Lemma getUint8_insert_ne (data : DataView) (n : nat) (b : Byte.byte) (i : Z) :
  i ≠ Z.of_nat n → getUint8 (<[n := b]> data) i = getUint8 data i.
Proof.
  intros Hi. unfold getUint8. destruct (Z.ltb_spec i 0); [reflexivity |].
  rewrite list_lookup_insert_ne by lia. reflexivity.
Qed.

Lemma getUint8_insert_eq (data : DataView) (b : Byte.byte) (i : Z) :
  in_range data i → getUint8 (<[Z.to_nat i := b]> data) i = Ok (byte_val b).
Proof.
  intros [Hpos Hlt]. unfold getUint8. destruct (Z.ltb_spec i 0); [lia |].
  rewrite list_lookup_insert_eq by lia. reflexivity.
Qed.

Lemma readSticks_agree (data data' : DataView) :
  (∀ i, i ∈ [0; 1; 2; 3] → getUint8 data' i = getUint8 data i) →
  readSticks data' = readSticks data.
Proof.
  intros H. unfold readSticks.
  rewrite (H 0), (H 1), (H 2), (H 3) by in_list. reflexivity.
Qed.

Lemma readButtons_agree (data data' : DataView) (BUTTON_MAP : list ButtonMapping.t) :
  (∀ i, i ∈ ButtonMapping.byte <$> tracked_buttons BUTTON_MAP →
        getUint8 data' i = getUint8 data i) →
  readButtons data' BUTTON_MAP = readButtons data BUTTON_MAP.
Proof.
  induction BUTTON_MAP as [|btn rest IH]; intros H; [reflexivity |].
  cbn [readButtons]. unfold tracked_buttons in H. rewrite filter_cons in H.
  destruct (is_dpad_name (ButtonMapping.name btn)) eqn:Hd.
  - rewrite decide_False in H by done. by apply IH.
  - rewrite decide_True in H by done. rewrite fmap_cons in H.
    rewrite (H (ButtonMapping.byte btn)) by in_list.
    rewrite IH; [reflexivity |]. intros i Hi. apply H. in_list.
Qed.

(** C6. Under a layout that stores every tracked field under a key of its
    own and reads the right-trigger byte for nothing else, take a report
    that has been recorded and a second report that differs from it in
    the right-trigger byte only: recording the second one returns the
    change-set made of [r2_analog] alone (no sticks, no button, no d-pad
    direction, no left trigger), and the snapshot differs from the one
    before in [r2_analog] only. *)
Theorem right_trigger_change_alone (data : DataView)
  (BUTTON_MAP : list ButtonMapping.t) (dpad_byte l2_analog_byte r2_analog_byte : Z)
  (bs bs1 : ButtonStates) (ch1 : InputChanges) (b' : Byte.byte) :
  NoDup (tracked_keys BUTTON_MAP) →
  r2_analog_byte ∉ ([0; 1; 2; 3; l2_analog_byte; dpad_byte]
                    ++ (ButtonMapping.byte <$> tracked_buttons BUTTON_MAP)) →
  data !! Z.to_nat r2_analog_byte ≠ Some b' →
  _recordButtonStates data BUTTON_MAP dpad_byte l2_analog_byte r2_analog_byte bs
  = (Ok ch1, bs1) →
  _recordButtonStates (<[Z.to_nat r2_analog_byte := b']> data)
    BUTTON_MAP dpad_byte l2_analog_byte r2_analog_byte bs1
  = (Ok {["r2_analog" := VNum (byte_val b')]},
     <["r2_analog" := VNum (byte_val b')]> bs1).
Proof.
  intros Hnd Hr2 Hdiff Hrun.
  destruct (recorded_snapshot _ _ _ _ _ _ _ _ Hnd Hrun)
    as (newSticks & props & Hdec & Hst & Hall).
  apply decode_Ok in Hdec as [Hs Hp].
  pose proof (decodeProps_keys _ _ _ _ _ _ Hp) as [Hkeys _].
  apply decodeProps_Ok in Hp as (l2 & r2 & hatByte & buttons & H1 & H2 & H3 & H4 & ->).
  pose proof (getUint8_Ok_in_range _ _ _ H2) as Hin.
  set (data' := <[Z.to_nat r2_analog_byte := b']> data).
  assert (Hget : ∀ i, i ≠ r2_analog_byte → getUint8 data' i = getUint8 data i).
  { intros i Hi. apply getUint8_insert_ne. destruct Hin. lia. }
  assert (Hget' : ∀ i, i ∈ [0; 1; 2; 3; l2_analog_byte; dpad_byte]
                           ++ (ButtonMapping.byte <$> tracked_buttons BUTTON_MAP) →
                       getUint8 data' i = getUint8 data i).
  { intros i Hi. apply Hget. intros ->. contradiction. }
  assert (Hdec' : decode data' BUTTON_MAP dpad_byte l2_analog_byte r2_analog_byte
                  = Ok (newSticks, ("l2_analog", VNum l2)
                                   :: ("r2_analog", VNum (byte_val b'))
                                   :: dpadProps (Z.land hatByte 0x0f) ++ buttons)).
  { apply decode_Ok. split.
    - rewrite <- Hs. apply readSticks_agree. intros i Hi. apply Hget'.
      apply elem_of_app. left. rewrite !elem_of_cons in Hi. rewrite !elem_of_cons. tauto.
    - apply decodeProps_Ok. exists l2, (byte_val b'), hatByte, buttons.
      rewrite <- H1, <- H3, <- H4. repeat split.
      + apply Hget'. in_list.
      + by apply getUint8_insert_eq.
      + apply Hget'. in_list.
      + apply readButtons_agree. intros i Hi. apply Hget'. in_list. }
  rewrite (recordButtonStates_decoded _ _ _ _ _ _ _ bs1 Hdec').
  rewrite (bind_Ok_run _ _ _ _ _ Hst).
  apply Forall_cons in Hall as [[_ Hl2] Hall].
  apply Forall_cons in Hall as [[_ Hr2old] Hrest]. cbn [fst snd] in Hl2, Hr2old.
  rewrite recordAll_cons, (bind_Ok_run _ _ _ _ _
    (recordProp_settled "l2_analog" (VNum l2) ∅ bs1 eq_refl Hl2)).
  assert (Hne : bs1 !! "r2_analog" ≠ Some (VNum (byte_val b'))).
  { rewrite Hr2old. intros [= Hv]. apply Hdiff.
    apply getUint8_Ok in H2 as (_ & b & Hb & ->). apply byte_val_inj in Hv. by subst. }
  rewrite recordAll_cons, (bind_Ok_run _ _ _ _ _
    (recordProp_changed "r2_analog" (VNum (byte_val b')) ∅ bs1 Hne)).
  rewrite insert_empty. apply recordAll_settled.
  rewrite <- Hkeys, !fmap_cons in Hnd.
  apply NoDup_cons in Hnd as [_ Hnd]. apply NoDup_cons in Hnd as [_ Hnd].
  apply NoDup_cons in Hnd as [Hfresh _]. cbn [fst] in Hfresh.
  apply Forall_forall. intros [k v] Hkv.
  rewrite Forall_forall in Hrest. destruct (Hrest _ Hkv) as [Hprim Hk].
  cbn [fst snd] in *.
  split; [done |]. rewrite lookup_insert_ne; [done |].
  intros <-. apply Hfresh. apply list_elem_of_fmap. by exists ("r2_analog", v).
Qed.

Lemma right_trigger_change_alone_witness :
  NoDup (tracked_keys sample_buttonMap)
  ∧ (8 ∉ [0; 1; 2; 3; 7; 4] ++ (ButtonMapping.byte <$> tracked_buttons sample_buttonMap))
  ∧ sample_report !! Z.to_nat 8 ≠ Some Byte.x10
  ∧ _recordButtonStates sample_report sample_buttonMap 4 7 8 initial_button_states
    = (Ok (res_value ∅ sample_recorded.1), sample_recorded.2)
  ∧ _recordButtonStates (<[Z.to_nat 8 := Byte.x10]> sample_report)
      sample_buttonMap 4 7 8 sample_recorded.2
    = (Ok {["r2_analog" := VNum (byte_val Byte.x10)]},
       <["r2_analog" := VNum (byte_val Byte.x10)]> sample_recorded.2).
Proof.
  set (first := sample_recorded).
  assert (Hnd : NoDup (tracked_keys sample_buttonMap))
    by (apply (bool_decide_unpack _); vm_compute; exact I).
  assert (Hr2 : 8 ∉ [0; 1; 2; 3; 7; 4]
                    ++ (ButtonMapping.byte <$> tracked_buttons sample_buttonMap))
    by (apply (bool_decide_unpack _); vm_compute; exact I).
  assert (Hdiff : sample_report !! Z.to_nat 8 ≠ Some Byte.x10)
    by (vm_compute; discriminate).
  assert (Hrun : _recordButtonStates sample_report sample_buttonMap 4 7 8
                   initial_button_states
                 = (Ok (res_value ∅ first.1), first.2))
    by (apply (run_returned ∅ sample_recorded); vm_compute; reflexivity).
  repeat (split; [assumption |]).
  exact (right_trigger_change_alone sample_report sample_buttonMap 4 7 8
           initial_button_states first.2 (res_value ∅ first.1) Byte.x10
           Hnd Hr2 Hdiff Hrun).
Defined.

(** ** Touchpad bytes out of range *)

Lemma parseTouchPoint_Ok (data : DataView) (offset i : Z) (p : TouchPoint.t) :
  parseTouchPoint data offset i = Ok p →
  let base := offset + i * TOUCHPAD_BYTES_PER_POINT in
  in_range data base ∧ in_range data (base + 1)
  ∧ in_range data (base + 2) ∧ in_range data (base + 3).
Proof.
  unfold parseTouchPoint. cbv zeta.
  set (base := offset + i * TOUCHPAD_BYTES_PER_POINT).
  destruct (getUint8 data base) as [b0|e] eqn:H0; res_red; [| discriminate].
  destruct (getUint8 data (base + 1)) as [b1|e] eqn:H1; res_red; [| discriminate].
  destruct (getUint8 data (base + 2)) as [b2|e] eqn:H2; res_red; [| discriminate].
  destruct (getUint8 data (base + 3)) as [b3|e] eqn:H3; res_red; [| discriminate].
  intros _. split; [| split; [| split]]; eapply getUint8_Ok_in_range; eassumption.
Qed.

Lemma parseTouchPoint_Throw (data : DataView) (offset i : Z) (e : exn) :
  parseTouchPoint data offset i = Throw e → e = RangeError.
Proof.
  unfold parseTouchPoint.
  set (base := offset + i * TOUCHPAD_BYTES_PER_POINT).
  destruct (getUint8 data base) as [b0|e0] eqn:H0; res_red;
    [| intros [= <-]; by apply getUint8_Throw in H0 as [-> _]].
  destruct (getUint8 data (base + 1)) as [b1|e1] eqn:H1; res_red;
    [| intros [= <-]; by apply getUint8_Throw in H1 as [-> _]].
  destruct (getUint8 data (base + 2)) as [b2|e2] eqn:H2; res_red;
    [| intros [= <-]; by apply getUint8_Throw in H2 as [-> _]].
  destruct (getUint8 data (base + 3)) as [b3|e3] eqn:H3; res_red;
    [discriminate | intros [= <-]; by apply getUint8_Throw in H3 as [-> _]].
Qed.

Lemma parseTouchPoints_unfold (data : DataView) (offset : Z) :
  _parseTouchPoints data offset
  = (p0 ← parseTouchPoint data offset 0;
     p1 ← parseTouchPoint data offset 1;
     Ok [p0; p1]).
Proof. reflexivity. Qed.

Lemma parseTouchPoints_Ok (data : DataView) (offset : Z) (pts : list TouchPoint.t) :
  _parseTouchPoints data offset = Ok pts →
  Forall (in_range data)
    [offset; offset + 1; offset + 2; offset + 3;
     offset + 4; offset + 5; offset + 6; offset + 7].
Proof.
  rewrite parseTouchPoints_unfold.
  destruct (parseTouchPoint data offset 0) as [p0|e] eqn:H0; res_red; [| discriminate].
  destruct (parseTouchPoint data offset 1) as [p1|e] eqn:H1; res_red; [| discriminate].
  intros _. apply parseTouchPoint_Ok in H0, H1.
  unfold TOUCHPAD_BYTES_PER_POINT, in_range in *.
  repeat (apply Forall_cons; split); try apply Forall_nil; lia.
Qed.

Lemma parseTouchPoints_Throw (data : DataView) (offset : Z) (e : exn) :
  _parseTouchPoints data offset = Throw e → e = RangeError.
Proof.
  rewrite parseTouchPoints_unfold.
  destruct (parseTouchPoint data offset 0) as [p0|e0] eqn:H0; res_red;
    [| intros [= <-]; by apply parseTouchPoint_Throw in H0].
  destruct (parseTouchPoint data offset 1) as [p1|e1] eqn:H1; res_red;
    [discriminate | intros [= <-]; by apply parseTouchPoint_Throw in H1].
Qed.

(** ** [processControllerInput], step by step *)

Section InputProperties.
Variable l : string → string.
Variable cfg : InputConfig.t.
Variable parseBatteryStatus : DataView → Res BatteryInfo.t.

Lemma processControllerInput_result_run (data : DataView) (t : Tracker) :
  processControllerInput_result l cfg parseBatteryStatus data t
  = match _recordButtonStates data (InputConfig.buttonMap cfg) (InputConfig.dpadByte cfg)
            (InputConfig.l2AnalogByte cfg) (InputConfig.r2AnalogByte cfg)
            (button_states t) with
    | (Throw e, bs') => (Throw e, set_button_states bs' t)
    | (Ok changes, bs') =>
        let t1 := set_button_states bs' t in
        match truthy_offset (InputConfig.touchpadOffset cfg) with
        | Some touchpadOffset =>
            match _parseTouchPoints data touchpadOffset with
            | Throw e => (Throw e, t1)
            | Ok pts =>
                finishInput l (InputConfig.buttonMap cfg) parseBatteryStatus data
                  changes (set_touchPoints pts t1)
            end
        | None =>
            finishInput l (InputConfig.buttonMap cfg) parseBatteryStatus data changes t1
        end
    end.
Proof.
  unfold processControllerInput_result, finishInput, _parseBatteryStatus.
  unfold zoom, mbind, M_bind, bind, liftRes, modify, get, mret, M_ret, ret.
  destruct (_recordButtonStates _ _ _ _ _ _) as [[changes|e] bs']; [| reflexivity].
  destruct (truthy_offset _) as [o|].
  - destruct (_parseTouchPoints data o) as [pts|e]; [| reflexivity].
    by destruct (parseBatteryStatus data).
  - by destruct (parseBatteryStatus data).
Qed.

Lemma set_button_states_same (t : Tracker) : set_button_states (button_states t) t = t.
Proof. by destruct t. Qed.

(** A report that misses a byte read through the layout makes
    [processControllerInput] throw [RangeError] before it builds a
    result; only [button_states] may have changed by then, and not even
    that when the four stick bytes are missing. *)
Lemma short_report_result (data : DataView) (t : Tracker) (o : Z) :
  has_sticks (button_states t) →
  o ∈ layout_offsets cfg → ¬ in_range data o →
  ∃ bs', processControllerInput_result l cfg parseBatteryStatus data t
         = (Throw RangeError, set_button_states bs' t)
         ∧ ((length data < 4)%nat → bs' = button_states t).
Proof.
  intros Hst Ho Hout. rewrite processControllerInput_result_run.
  set (BM := InputConfig.buttonMap cfg). set (dp := InputConfig.dpadByte cfg).
  set (l2 := InputConfig.l2AnalogByte cfg). set (r2 := InputConfig.r2AnalogByte cfg).
  destruct (decode data BM dp l2 r2) as [[newSticks props]|e] eqn:Hdec.
  - pose proof (decode_Ok_in_range _ _ _ _ _ _ _ Hdec) as Hin.
    rewrite (recordButtonStates_decoded _ _ _ _ _ _ _ (button_states t) Hdec).
    apply decode_Ok in Hdec as [Hs _].
    assert (Hlen : ¬ (length data < 4)%nat).
    { apply readSticks_Ok in Hs as (b0 & b1 & b2 & b3 & rest & -> & _). simpl. lia. }
    rewrite bind_run.
    destruct (recordSticks_run newSticks (button_states t)) as [(cur & _ & Hr)|[Hno _]];
      [| contradiction].
    assert (∃ ch bs0, recordSticks newSticks (button_states t) = (Ok ch, bs0))
      as (ch & bs0 & Hrun0).
    { rewrite Hr. destruct (_sticksChanged cur newSticks); eauto. }
    rewrite Hrun0.
    destruct (recordAll_total props ch bs0) as (ch' & bs' & ->).
    exists bs'. split; [| intros; contradiction].
    unfold layout_offsets in Ho. apply elem_of_app in Ho as [Ho|Ho].
    { rewrite Forall_forall in Hin. destruct Hout. by apply Hin. }
    unfold touch_offsets in Ho.
    destruct (truthy_offset (InputConfig.touchpadOffset cfg)) as [off|];
      [| by apply elem_of_nil in Ho].
    cbv zeta. destruct (_parseTouchPoints data off) as [pts|e] eqn:Htp.
    + apply parseTouchPoints_Ok in Htp. rewrite Forall_forall in Htp.
      destruct Hout. by apply Htp.
    + by apply parseTouchPoints_Throw in Htp as ->.
  - pose proof (decode_Throw_RangeError _ _ _ _ _ _ Hdec) as ->.
    destruct (recordButtonStates_undecoded _ _ _ _ _ _ (button_states t) Hdec)
      as (e' & bs' & Hrun & He).
    rewrite Hrun, (He Hst). exists bs'. split; [reflexivity |].
    intros Hlen. rewrite recordButtonStates_run, (readSticks_short _ Hlen) in Hrun.
    by injection Hrun as _ <-.
Qed.

(** What of the result does not depend on the tracker: the touch points
    of a layout with a touchpad, and the battery fields but [changed]. *)
Lemma result_independent_parts (data : DataView) (t t' : Tracker)
  (r : ProcessedInputResult.t) :
  processControllerInput_result l cfg parseBatteryStatus data t = (Ok r, t') →
  ProcessedInputResult.inputConfig r = InputConfig.buttonMap cfg
  ∧ (∀ o, truthy_offset (InputConfig.touchpadOffset cfg) = Some o →
          _parseTouchPoints data o = Ok (ProcessedInputResult.touchPoints r))
  ∧ (truthy_offset (InputConfig.touchpadOffset cfg) = None →
     ProcessedInputResult.touchPoints r = touchPoints t)
  ∧ ∃ info, parseBatteryStatus data = Ok info
      ∧ BatteryStatus.bat_txt (ProcessedInputResult.batteryStatus r)
        = _batteryPercentToText l info
      ∧ BatteryStatus.changed (ProcessedInputResult.batteryStatus r)
        = negb (String.eqb (_batteryPercentToText l info) (_lastBatteryText t))
      ∧ BatteryStatus.bat_capacity (ProcessedInputResult.batteryStatus r)
        = BatteryInfo.bat_capacity info
      ∧ BatteryStatus.cable_connected (ProcessedInputResult.batteryStatus r)
        = BatteryInfo.cable_connected info
      ∧ BatteryStatus.is_charging (ProcessedInputResult.batteryStatus r)
        = BatteryInfo.is_charging info
      ∧ BatteryStatus.is_error (ProcessedInputResult.batteryStatus r)
        = BatteryInfo.is_error info.
Proof.
  rewrite processControllerInput_result_run.
  destruct (_recordButtonStates _ _ _ _ _ _) as [[changes|e] bs']; [| discriminate].
  cbv zeta. unfold finishInput.
  destruct (truthy_offset (InputConfig.touchpadOffset cfg)) as [o|].
  - destruct (_parseTouchPoints data o) as [pts|e] eqn:Htp; [| discriminate].
    destruct (parseBatteryStatus data) as [info|e]; [| discriminate].
    intros [= <- <-]. cbn. repeat split; try done.
    + by intros ? [= <-].
    + by exists info.
  - destruct (parseBatteryStatus data) as [info|e]; [| discriminate].
    intros [= <- <-]. cbn. repeat split; try done.
    by exists info.
Qed.

End InputProperties.

(** ** The manager *)

Section ManagerProperties.
Context {Dev : Type}.
Variable currentController : BaseController.t Dev.
Variable l : string → string.
Variable handleNvStatusUpdate : bool.

Lemma request_run {A} (op : DriverOp) (run : M Dev A) (w : World) :
  request op run w
  = ((run (device w)).1,
     mkWorld (this w) (run (device w)).2 (trace w ++ [EvDriver op])).
Proof.
  unfold request, emit, modify, zoom, mbind, M_bind, bind; simpl.
  by destruct (run (device w)).
Qed.

Lemma processControllerInput_run (data : DataView) (w : World) :
  processControllerInput currentController l data w
  = match processControllerInput_result l
            (BaseController.getInputConfig currentController)
            (BaseController.parseBatteryStatus currentController)
            data (tracker (this w)) with
    | (Ok r, t') =>
        (Ok tt,
         mkWorld (set_tracker t' (this w)) (device w)
           (if inputHandler (this w) then trace w ++ [EvInput r] else trace w))
    | (Throw e, t') =>
        (Throw e, mkWorld (set_tracker t' (this w)) (device w) (trace w))
    end.
Proof.
  unfold processControllerInput, zoom, emit, modify, get, mbind, M_bind, bind,
    mret, M_ret, ret.
  destruct (processControllerInput_result _ _ _ _ _) as [[r|e] t']; simpl;
    [| reflexivity].
  by destruct (inputHandler (this w)).
Qed.

(** C8, as the code has it. A report that misses a byte read through the
    layout (the sticks at 0 to 3, the triggers, the d-pad, the buttons the
    loop does not skip, the eight touchpad bytes when the touchpad offset
    is not zero) makes [processControllerInput] throw the [RangeError] of
    [getUint8]: the code has no error of its own for a malformed report.
    The input handler is not called, and neither the touch points nor the
    battery status nor the device are touched. The snapshot is left as it
    was when the report has fewer than four bytes. *)
Theorem short_report_throws_RangeError (data : DataView) (w : World) (o : Z) :
  has_sticks (button_states (tracker (this w))) →
  o ∈ layout_offsets (BaseController.getInputConfig currentController) →
  ¬ in_range data o →
  ∃ w', processControllerInput currentController l data w = (Throw RangeError, w')
        ∧ exn_name RangeError = "RangeError"
        ∧ trace w' = trace w
        ∧ device w' = device w
        ∧ touchPoints (tracker (this w')) = touchPoints (tracker (this w))
        ∧ batteryStatus (tracker (this w')) = batteryStatus (tracker (this w))
        ∧ _lastBatteryText (tracker (this w')) = _lastBatteryText (tracker (this w))
        ∧ ((length data < 4)%nat → w' = w).
Proof.
  intros Hst Ho Hout. rewrite processControllerInput_run.
  destruct (short_report_result l _ (BaseController.parseBatteryStatus currentController)
              data _ o Hst Ho Hout) as (bs' & -> & Hlen).
  eexists. split; [reflexivity |]. simpl. repeat split; try reflexivity.
  intros H. rewrite (Hlen H), set_button_states_same.
  destruct w as [[? ? ?] ? ?]. reflexivity.
Qed.

(** C9, as the code has it. Two reports with the same bytes, handled at
    any two points of the manager's life with an input handler set, are
    published with the same button map, the same touch points when the
    layout declares a touchpad offset other than zero, and the same
    battery fields except [changed]. The change-set and [changed] depend
    on what the manager stored before: they agree when the stored
    snapshots, respectively the stored battery texts, agree. *)
Theorem same_bytes_same_decoded_parts (data : DataView) (w1 w2 w1' w2' : World) :
  inputHandler (this w1) = true → inputHandler (this w2) = true →
  processControllerInput currentController l data w1 = (Ok tt, w1') →
  processControllerInput currentController l data w2 = (Ok tt, w2') →
  ∃ r1 r2,
    trace w1' = trace w1 ++ [EvInput r1]
    ∧ trace w2' = trace w2 ++ [EvInput r2]
    ∧ ProcessedInputResult.inputConfig r1 = ProcessedInputResult.inputConfig r2
    ∧ (is_Some (truthy_offset
                  (InputConfig.touchpadOffset (BaseController.getInputConfig currentController))) →
       ProcessedInputResult.touchPoints r1 = ProcessedInputResult.touchPoints r2)
    ∧ (let b1 := ProcessedInputResult.batteryStatus r1 in
       let b2 := ProcessedInputResult.batteryStatus r2 in
       BatteryStatus.bat_txt b1 = BatteryStatus.bat_txt b2
       ∧ BatteryStatus.bat_capacity b1 = BatteryStatus.bat_capacity b2
       ∧ BatteryStatus.cable_connected b1 = BatteryStatus.cable_connected b2
       ∧ BatteryStatus.is_charging b1 = BatteryStatus.is_charging b2
       ∧ BatteryStatus.is_error b1 = BatteryStatus.is_error b2
       ∧ (_lastBatteryText (tracker (this w1)) = _lastBatteryText (tracker (this w2)) →
          BatteryStatus.changed b1 = BatteryStatus.changed b2))
    ∧ (button_states (tracker (this w1)) = button_states (tracker (this w2)) →
       ProcessedInputResult.changes r1 = ProcessedInputResult.changes r2).
Proof.
  intros Hh1 Hh2. rewrite !processControllerInput_run, Hh1, Hh2.
  set (cfg := BaseController.getInputConfig currentController).
  set (pbs := BaseController.parseBatteryStatus currentController).
  destruct (processControllerInput_result l cfg pbs data (tracker (this w1)))
    as [[r1|e1] t1] eqn:H1; [| discriminate].
  destruct (processControllerInput_result l cfg pbs data (tracker (this w2)))
    as [[r2|e2] t2] eqn:H2; [| discriminate].
  intros [= <-] [= <-]. exists r1, r2. simpl.
  split; [reflexivity |]. split; [reflexivity |].
  pose proof (result_independent_parts _ _ _ _ _ _ _ H1)
    as (Hc1 & Htp1 & _ & info1 & Hi1 & Ht1 & Hch1 & Hcap1 & Hcab1 & Hchg1 & Herr1).
  pose proof (result_independent_parts _ _ _ _ _ _ _ H2)
    as (Hc2 & Htp2 & _ & info2 & Hi2 & Ht2 & Hch2 & Hcap2 & Hcab2 & Hchg2 & Herr2).
  rewrite Hi1 in Hi2. injection Hi2 as <-.
  split; [congruence |]. split.
  { intros [off Hoff]. specialize (Htp1 _ Hoff). specialize (Htp2 _ Hoff). congruence. }
  split.
  { repeat split; congruence. }
  intros Hbs.
  rewrite processControllerInput_result_run in H1, H2. rewrite Hbs in H1.
  destruct (_recordButtonStates _ _ _ _ _ _) as [[changes|e] bs']; [| discriminate].
  cbv zeta in H1, H2. unfold finishInput in H1, H2.
  destruct (truthy_offset (InputConfig.touchpadOffset cfg)) as [off|].
  - destruct (_parseTouchPoints data off) as [pts|e]; [| discriminate].
    destruct (pbs data) as [info|e]; [| discriminate].
    injection H1 as <- _. injection H2 as <- _. reflexivity.
  - destruct (pbs data) as [info|e]; [| discriminate].
    injection H1 as <- _. injection H2 as <- _. reflexivity.
Qed.

End ManagerProperties.

Lemma run_returned_unit {S} (r : Res unit * S) : is_Ok r.1 = true → r = (Ok tt, r.2).
Proof. destruct r as [[[]|e] s]; [reflexivity | discriminate]. Qed.

Lemma short_report_throws_RangeError_witness :
  has_sticks (button_states (tracker (this sample_world)))
  ∧ 8 ∈ layout_offsets (BaseController.getInputConfig sample_controller)
  ∧ ¬ in_range short_report 8
  ∧ ∃ w', processControllerInput sample_controller id short_report sample_world
          = (Throw RangeError, w')
          ∧ exn_name RangeError = "RangeError"
          ∧ trace w' = trace sample_world
          ∧ device w' = device sample_world
          ∧ touchPoints (tracker (this w')) = touchPoints (tracker (this sample_world))
          ∧ batteryStatus (tracker (this w')) = batteryStatus (tracker (this sample_world))
          ∧ _lastBatteryText (tracker (this w'))
            = _lastBatteryText (tracker (this sample_world))
          ∧ ((length short_report < 4)%nat → w' = sample_world).
Proof.
  assert (H1 : has_sticks (button_states (tracker (this sample_world))))
    by (eexists; vm_compute; reflexivity).
  assert (H2 : 8 ∈ layout_offsets (BaseController.getInputConfig sample_controller))
    by (apply (bool_decide_unpack _); vm_compute; exact I).
  assert (H3 : ¬ in_range short_report 8)
    by (unfold in_range; vm_compute; intros [_ H]; discriminate H).
  repeat (split; [assumption |]).
  exact (short_report_throws_RangeError sample_controller id short_report
           sample_world 8 H1 H2 H3).
Defined.

(** C8 as stated fails: a report of eight bytes is shorter than the
    layout needs (the right trigger is byte 8); handling it throws
    [RangeError], not an error named [MalformedReport], and by then the
    left trigger has been stored in the snapshot, which held no trigger
    value before. *)
Lemma short_report_changes_snapshot :
  8 ∈ layout_offsets sample_inputConfig
  ∧ ¬ in_range short_report 8
  ∧ (processControllerInput sample_controller id short_report sample_world).1
    = Throw RangeError
  ∧ exn_name RangeError ≠ "MalformedReport"
  ∧ button_states (tracker (this sample_world)) !! "l2_analog" = None
  ∧ button_states (tracker (this short_input.2)) !! "l2_analog" = Some (VNum 0).
Proof.
  split; [apply (bool_decide_unpack _); vm_compute; exact I |].
  split; [unfold in_range; vm_compute; intros [_ H]; discriminate H |].
  split; [vm_compute; reflexivity |].
  split; [vm_compute; discriminate |].
  split; vm_compute; reflexivity.
Qed.

Lemma same_bytes_same_decoded_parts_witness :
  inputHandler (this sample_world) = true
  ∧ inputHandler (this sample_first_input.2) = true
  ∧ processControllerInput sample_controller id sample_report sample_world
    = (Ok tt, sample_first_input.2)
  ∧ processControllerInput sample_controller id sample_report sample_first_input.2
    = (Ok tt, sample_second_input.2)
  ∧ ∃ r1 r2,
      trace sample_first_input.2 = trace sample_world ++ [EvInput r1]
      ∧ trace sample_second_input.2 = trace sample_first_input.2 ++ [EvInput r2]
      ∧ ProcessedInputResult.inputConfig r1 = ProcessedInputResult.inputConfig r2
      ∧ (is_Some (truthy_offset
                    (InputConfig.touchpadOffset
                       (BaseController.getInputConfig sample_controller))) →
         ProcessedInputResult.touchPoints r1 = ProcessedInputResult.touchPoints r2)
      ∧ (let b1 := ProcessedInputResult.batteryStatus r1 in
         let b2 := ProcessedInputResult.batteryStatus r2 in
         BatteryStatus.bat_txt b1 = BatteryStatus.bat_txt b2
         ∧ BatteryStatus.bat_capacity b1 = BatteryStatus.bat_capacity b2
         ∧ BatteryStatus.cable_connected b1 = BatteryStatus.cable_connected b2
         ∧ BatteryStatus.is_charging b1 = BatteryStatus.is_charging b2
         ∧ BatteryStatus.is_error b1 = BatteryStatus.is_error b2
         ∧ (_lastBatteryText (tracker (this sample_world))
            = _lastBatteryText (tracker (this sample_first_input.2)) →
            BatteryStatus.changed b1 = BatteryStatus.changed b2))
      ∧ (button_states (tracker (this sample_world))
         = button_states (tracker (this sample_first_input.2)) →
         ProcessedInputResult.changes r1 = ProcessedInputResult.changes r2).
Proof.
  assert (H1 : inputHandler (this sample_world) = true) by (vm_compute; reflexivity).
  assert (H2 : inputHandler (this sample_first_input.2) = true)
    by (vm_compute; reflexivity).
  assert (H3 : processControllerInput sample_controller id sample_report sample_world
               = (Ok tt, sample_first_input.2))
    by (apply (run_returned_unit sample_first_input); vm_compute; reflexivity).
  assert (H4 : processControllerInput sample_controller id sample_report
                 sample_first_input.2
               = (Ok tt, sample_second_input.2))
    by (apply (run_returned_unit sample_second_input); vm_compute; reflexivity).
  repeat (split; [assumption |]).
  exact (same_bytes_same_decoded_parts sample_controller id sample_report
           sample_world sample_first_input.2 sample_first_input.2
           sample_second_input.2 H1 H2 H3 H4).
Defined.

(** C9 as stated fails: the same report handled twice in a row is
    published first with the right trigger in its change-set and the
    battery marked as changed, then with neither. *)
Lemma same_report_published_differently :
  (processControllerInput sample_controller id sample_report sample_world).1 = Ok tt
  ∧ (processControllerInput sample_controller id sample_report sample_first_input.2).1
    = Ok tt
  ∧ (λ r, (ProcessedInputResult.changes r !! "r2_analog",
           BatteryStatus.changed (ProcessedInputResult.batteryStatus r)))
    <$> input_results (trace sample_second_input.2)
    = [(Some (VNum 200), true); (None, false)].
Proof. repeat split; vm_compute; reflexivity. Qed.

(** ** Calibration and NVS entry points *)

Section CalibrationProperties.
Context {Dev : Type}.
Variable currentController : BaseController.t Dev.
Variable l : string → string.
Variable handleNvStatusUpdate : bool.

Lemma request_returns {A} (op : DriverOp) (run : M Dev A) (w : World) (a : A) (d' : Dev) :
  run (device w) = (Ok a, d') →
  request op run w = (Ok a, mkWorld (this w) d' (trace w ++ [EvDriver op])).
Proof. intros H. by rewrite request_run, H. Qed.

Lemma setHasChangesToWrite_run (hasChanges : bool) (w : @World Dev) :
  setHasChangesToWrite hasChanges w
  = (Ok tt,
     if bool_decide (has_changes_to_write (this w) = Some hasChanges) then w
     else mkWorld (set_has_changes_to_write (Some hasChanges) (this w))
            (device w) (trace w ++ [EvSaveButton hasChanges])).
Proof.
  unfold setHasChangesToWrite, emit, modify, get, mbind, M_bind, bind, mret, M_ret, ret.
  by destruct (bool_decide _).
Qed.

Lemma is_expected_code_spec (code : option Z) :
  is_expected_code code = true ↔ ∃ c, code = Some c ∧ c ∈ EXPECTED_CALIBRATION_ERROR_CODES.
Proof.
  unfold is_expected_code, truthy_code. destruct code as [c|].
  - destruct (Z.eqb_spec c 0) as [->|Hc].
    + split; [discriminate |]. intros (c & [= <-] & Hin).
      unfold EXPECTED_CALIBRATION_ERROR_CODES in Hin.
      rewrite !elem_of_cons, elem_of_nil in Hin. lia.
    + rewrite bool_decide_eq_true. split; [eauto |]. by intros (c' & [= <-] & Hin).
  - split; [discriminate | by intros (c & [=] & _)].
Qed.

(** The three ways out of [calibrateRangeOnClose], once the driver has
    answered. *)
Lemma calibrateRangeOnClose_run (w : World) (res : option CalibrationResult.t) (d' : Dev) :
  BaseController.calibrateRangeEnd currentController (device w) = (Ok res, d') →
  let w1 := mkWorld (this w) d' (trace w ++ [EvDriver OpCalibrateRangeEnd]) in
  calibrateRangeOnClose currentController l w
  = if opt_ok res then
      (Ok (CalibrationResponse.mk true (l "Range calibration completed")),
       (setHasChangesToWrite true w1).2)
    else if is_expected_code (opt_code res) then
      (Ok (CalibrationResponse.mk true (l "Range calibration window closed")),
       mkWorld (this w) d' (trace w1 ++ [EvConsoleLog]))
    else
      (Ok (CalibrationResponse.mk false
             (l "Range calibration failed: "
              +:+ failure_detail l (opt_code res) (opt_error res))),
       mkWorld (this w) d' (trace w1 ++ [EvConsoleLog; EvSleep 500])).
Proof.
  intros Hdrv w1. unfold calibrateRangeOnClose.
  rewrite (bind_Ok_run _ _ _ _ _ (request_returns _ _ _ _ _ Hdrv)). fold w1.
  destruct (opt_ok res).
  - rewrite bind_run, setHasChangesToWrite_run. reflexivity.
  - destruct (is_expected_code (opt_code res)).
    + reflexivity.
    + unfold sleep, emit, modify, mbind, M_bind, bind, mret, M_ret, ret. simpl.
      by rewrite <- app_assoc.
Qed.

(** C1. When the driver's answer to the end of a range calibration is not
    ok: if it carries one of the codes 3, 4, 5, [calibrateRangeOnClose]
    returns success with the message for a closed window, not the one of
    a completed calibration; with any other code, or none, it returns a
    failure whose message carries the code or the error text. *)
Theorem range_close_expected_codes (w : World) (res : option CalibrationResult.t)
  (d' : Dev) :
  BaseController.calibrateRangeEnd currentController (device w) = (Ok res, d') →
  opt_ok res = false →
  ((∃ c, opt_code res = Some c ∧ c ∈ [3; 4; 5]) →
   (calibrateRangeOnClose currentController l w).1
   = Ok (CalibrationResponse.mk true (l "Range calibration window closed")))
  ∧ ((∀ c, opt_code res = Some c → c ∉ [3; 4; 5]) →
     (calibrateRangeOnClose currentController l w).1
     = Ok (CalibrationResponse.mk false
             (l "Range calibration failed: "
              +:+ failure_detail l (opt_code res) (opt_error res))))
  ∧ "Range calibration window closed" ≠ "Range calibration completed".
Proof.
  intros Hdrv Hok. rewrite (calibrateRangeOnClose_run _ _ _ Hdrv), Hok.
  split; [| split; [| discriminate]].
  - intros Hc. apply is_expected_code_spec in Hc. by rewrite Hc.
  - intros Hc. destruct (is_expected_code (opt_code res)) eqn:He; [| reflexivity].
    apply is_expected_code_spec in He as (c & Hcode & Hin). by destruct (Hc c Hcode).
Qed.

(** C10. [calibrateRangeOnClose] marks changes as pending on the ok path
    only: when the driver's answer is not ok, with an expected code or
    not, the manager and its unsaved-changes flag are left as they were
    and the save button is not touched; when it is ok, the flag is true
    afterwards. *)
Theorem range_close_pending_flag (w : World) (res : option CalibrationResult.t)
  (d' : Dev) :
  BaseController.calibrateRangeEnd currentController (device w) = (Ok res, d') →
  let w' := (calibrateRangeOnClose currentController l w).2 in
  (opt_ok res = false →
   this w' = this w
   ∧ has_changes_to_write (this w') = has_changes_to_write (this w)
   ∧ ∀ b, EvSaveButton b ∉ drop (length (trace w)) (trace w'))
  ∧ (opt_ok res = false → (∃ c, opt_code res = Some c ∧ c ∈ [3; 4; 5]) →
     (calibrateRangeOnClose currentController l w).1
     = Ok (CalibrationResponse.mk true (l "Range calibration window closed"))
     ∧ trace w' = trace w ++ [EvDriver OpCalibrateRangeEnd; EvConsoleLog])
  ∧ (opt_ok res = true → has_changes_to_write (this w') = Some true).
Proof.
  intros Hdrv w'. subst w'. rewrite (calibrateRangeOnClose_run _ _ _ Hdrv).
  split; [| split].
  - intros ->. destruct (is_expected_code (opt_code res)); simpl.
    all: split; [reflexivity |]; split; [reflexivity |]; intros b.
    all: rewrite <- app_assoc, drop_app_length; simpl.
    all: rewrite !elem_of_cons, elem_of_nil; intros H; destruct_or!; discriminate.
  - intros -> Hc. apply is_expected_code_spec in Hc. rewrite Hc. simpl.
    by rewrite <- app_assoc.
  - intros ->. rewrite setHasChangesToWrite_run. simpl.
    case_bool_decide as Hflag; simpl; [exact Hflag | reflexivity].
Qed.

Lemma queryNvStatus_run (w : World) :
  queryNvStatus currentController handleNvStatusUpdate w
  = let r := BaseController.queryNvStatus currentController (device w) in
    (r.1,
     mkWorld (this w) r.2
       (trace w ++ [EvDriver OpQueryNvStatus]
        ++ match r.1 with
           | Ok nv => if handleNvStatusUpdate then [EvNvStatusUpdate nv] else []
           | Throw _ => []
           end)).
Proof.
  unfold queryNvStatus. rewrite bind_run, request_run.
  destruct (BaseController.queryNvStatus currentController (device w)) as [[nv|e] d'];
    simpl; [| reflexivity].
  unfold emit, modify, mbind, M_bind, bind, mret, M_ret, ret.
  destruct handleNvStatusUpdate; simpl.
  - by rewrite <- app_assoc.
  - reflexivity.
Qed.

(** C4. When the driver's answer to [nvsLock] is not ok, the manager
    throws an error whose message ends with the driver's error text, and
    has done nothing but the lock request: no NVS status query, no NVS
    status update. When the answer is ok, the manager queries the NVS
    status on the device, passes it to the status handler if there is
    one, and then returns the answer. *)
Theorem nvs_lock_requery (w : World) (res : NvResult.t) (d' : Dev) :
  BaseController.nvsLock currentController (device w) = (Ok res, d') →
  (NvResult.ok res = false →
   nvsLock currentController l handleNvStatusUpdate w
   = (Throw (Error (l "NVS Lock failed: " +:+ String_of_error (NvResult.error res))),
      mkWorld (this w) d' (trace w ++ [EvDriver OpNvsLock])))
  ∧ (NvResult.ok res = true →
     let q := BaseController.queryNvStatus currentController d' in
     nvsLock currentController l handleNvStatusUpdate w
     = (match q.1 with Ok _ => Ok res | Throw e => Throw e end,
        mkWorld (this w) q.2
          (trace w ++ [EvDriver OpNvsLock; EvDriver OpQueryNvStatus]
           ++ match q.1 with
              | Ok nv => if handleNvStatusUpdate then [EvNvStatusUpdate nv] else []
              | Throw _ => []
              end))).
Proof.
  intros Hdrv. unfold nvsLock.
  rewrite (bind_Ok_run _ _ _ _ _ (request_returns _ _ _ _ _ Hdrv)).
  split; intros ->; simpl; [reflexivity |].
  rewrite bind_run, queryNvStatus_run. simpl.
  destruct (BaseController.queryNvStatus currentController d') as [[nv|e] d2]; simpl.
  - unfold mret, M_ret, ret. by rewrite <- app_assoc.
  - by rewrite <- app_assoc.
Qed.

End CalibrationProperties.

(** ** Progress of the stick-centre calibration *)

Section ProgressProperties.
Context {Dev : Type}.
Variable currentController : BaseController.t Dev.
Variable l : string → string.

Lemma progress_values_app (tr1 tr2 : list Event) :
  progress_values (tr1 ++ tr2) = progress_values tr1 ++ progress_values tr2.
Proof. unfold progress_values. apply omap_app. Qed.

Lemma reports_ret {A} (a : A) (Q : A → Prop) :
  Q a → reports (Dev := Dev) (mret a) Q [].
Proof. intros Ha w. exists a, w. by rewrite app_nil_r. Qed.

Lemma reports_bind {A B} (m : M (@World Dev) A) (k : A → M (@World Dev) B)
  (Q : A → Prop) (R : B → Prop) (ps1 ps2 : list float) :
  reports m Q ps1 → (∀ a, Q a → reports (k a) R ps2) →
  reports (m ≫= k) R (ps1 ++ ps2).
Proof.
  intros Hm Hk w. destruct (Hm w) as (a & w1 & Hrun & Ha & Hps).
  destruct (Hk a Ha w1) as (b & w2 & Hrun' & Hb & Hps').
  exists b, w2. rewrite (bind_Ok_run _ _ _ _ _ Hrun). split; [done |]. split; [done |].
  by rewrite Hps', Hps, app_assoc.
Qed.

Lemma reports_emit (e : Event) :
  reports (Dev := Dev) (emit e) (λ _, True) (progress_values [e]).
Proof.
  intros w. eexists tt, _. split; [reflexivity |]. split; [done |].
  simpl. apply progress_values_app.
Qed.

Lemma reports_request (op : DriverOp) (run : M Dev CalibrationResult.t) :
  always_ok run →
  reports (request op run) (λ res, CalibrationResult.ok res = true) [].
Proof.
  intros Hok w. destruct (Hok (device w)) as (res & d' & Hrun & Hres).
  exists res. eexists. rewrite (request_returns _ _ _ _ _ Hrun).
  split; [reflexivity |]. split; [done |]. simpl.
  by rewrite progress_values_app.
Qed.

Lemma reports_setHasChangesToWrite (hasChanges : bool) :
  reports (Dev := Dev) (setHasChangesToWrite hasChanges) (λ _, True) [].
Proof.
  intros w. rewrite setHasChangesToWrite_run. eexists tt, _.
  split; [reflexivity |]. split; [done |].
  case_bool_decide; simpl; [by rewrite app_nil_r |].
  by rewrite progress_values_app.
Qed.

Lemma reports_try_catch {A} (m : M (@World Dev) A) (h : exn → M (@World Dev) A)
  (Q : A → Prop) (ps : list float) :
  reports m Q ps → reports (try_catch m h) Q ps.
Proof.
  intros Hm w. destruct (Hm w) as (a & w' & Hrun & Ha & Hps).
  exists a, w'. unfold try_catch. by rewrite Hrun.
Qed.

Lemma reports_for_count (n : nat) (i : Z) (body : Z → M (@World Dev) unit)
  (f : Z → float) :
  (∀ j, reports (body j) (λ _, True) [f j]) →
  reports (for_count n i body) (λ _, True) (f <$> seqZ i (Z.of_nat n)).
Proof.
  intros Hbody. revert i. induction n as [|n IH]; intros i.
  - by apply reports_ret.
  - replace (Z.of_nat (S n)) with (Z.succ (Z.of_nat n)) by lia.
    rewrite seqZ_cons by lia. rewrite fmap_cons.
    replace (Z.pred (Z.succ (Z.of_nat n))) with (Z.of_nat n) by lia.
    replace (Z.succ i) with (i + 1) by lia.
    cbn [for_count].
    apply (reports_bind _ _ (λ _, True) _ [f i]); [apply Hbody |].
    intros _ _. apply IH.
Qed.

Lemma reports_calibrateSticksBegin :
  always_ok (BaseController.calibrateSticksBegin currentController) →
  reports (calibrateSticksBegin currentController l) (λ _, True) [].
Proof.
  intros Hok. unfold calibrateSticksBegin.
  apply (reports_bind _ _ _ _ [] [] (reports_request _ _ Hok)).
  intros res ->. by apply reports_ret.
Qed.

Lemma reports_calibrateSticksSample :
  always_ok (BaseController.calibrateSticksSample currentController) →
  reports (calibrateSticksSample currentController l) (λ _, True) [].
Proof.
  intros Hok. unfold calibrateSticksSample.
  apply (reports_bind _ _ _ _ [] [] (reports_request _ _ Hok)).
  intros res ->. by apply reports_ret.
Qed.

Lemma reports_calibrateSticksEnd :
  always_ok (BaseController.calibrateSticksEnd currentController) →
  reports (calibrateSticksEnd currentController l) (λ _, True) [].
Proof.
  intros Hok. unfold calibrateSticksEnd.
  apply (reports_bind _ _ _ _ [] [] (reports_request _ _ Hok)).
  intros res ->. apply reports_setHasChangesToWrite.
Qed.

Lemma on_return_ret {A} (a : A) (Q : A → Prop) :
  Q a → reports_on_return (Dev := Dev) (mret a) Q [].
Proof. intros Ha w a' w' [= <- <-]. by rewrite app_nil_r. Qed.

Lemma on_return_throw {A} (e : exn) (Q : A → Prop) (ps : list float) :
  reports_on_return (Dev := Dev) (throw e) Q ps.
Proof. intros w a w' [=]. Qed.

Lemma on_return_bind {A B} (m : M (@World Dev) A) (k : A → M (@World Dev) B)
  (Q : A → Prop) (R : B → Prop) (ps1 ps2 : list float) :
  reports_on_return m Q ps1 → (∀ a, Q a → reports_on_return (k a) R ps2) →
  reports_on_return (m ≫= k) R (ps1 ++ ps2).
Proof.
  intros Hm Hk w b w' (a & w1 & Hrun & Hrun')%bind_Ok_inv.
  destruct (Hm _ _ _ Hrun) as [Ha Hps].
  destruct (Hk a Ha _ _ _ Hrun') as [Hb Hps'].
  split; [done |]. by rewrite Hps', Hps, app_assoc.
Qed.

Lemma on_return_total {A} (m : M (@World Dev) A) (Q : A → Prop) (ps : list float) :
  reports m Q ps → reports_on_return m Q ps.
Proof.
  intros Hm w a w' Hrun. destruct (Hm w) as (a' & w'' & Hrun' & Ha & Hps).
  rewrite Hrun in Hrun'. by injection Hrun' as <- <-.
Qed.

Lemma on_return_request {A} (op : DriverOp) (run : M Dev A) :
  reports_on_return (request op run) (λ _, True) [].
Proof.
  intros w a w'. rewrite request_run. intros [= _ <-]. split; [done |]. simpl.
  by rewrite progress_values_app.
Qed.

Lemma on_return_try_catch {A} (m : M (@World Dev) A) (h : exn → M (@World Dev) A)
  (Q : A → Prop) (ps : list float) :
  reports_on_return m Q ps →
  (∀ e w, is_Ok (h e w).1 = false) →
  reports_on_return (try_catch m h) Q ps.
Proof.
  intros Hm Hh w a w'. unfold try_catch.
  destruct (m w) as [[a'|e] w1] eqn:Hrun.
  - intros [= <- <-]. by eapply Hm.
  - intros Hrun'. specialize (Hh e w1). by rewrite Hrun' in Hh.
Qed.

Lemma on_return_for_count (n : nat) (i : Z) (body : Z → M (@World Dev) unit)
  (f : Z → float) :
  (∀ j, reports_on_return (body j) (λ _, True) [f j]) →
  reports_on_return (for_count n i body) (λ _, True) (f <$> seqZ i (Z.of_nat n)).
Proof.
  intros Hbody. revert i. induction n as [|n IH]; intros i.
  - by apply on_return_ret.
  - replace (Z.of_nat (S n)) with (Z.succ (Z.of_nat n)) by lia.
    rewrite seqZ_cons by lia. rewrite fmap_cons.
    replace (Z.pred (Z.succ (Z.of_nat n))) with (Z.of_nat n) by lia.
    replace (Z.succ i) with (i + 1) by lia.
    cbn [for_count].
    apply (on_return_bind _ _ (λ _, True) _ [f i]); [apply Hbody |].
    intros _ _. apply IH.
Qed.

Lemma on_return_calibrateSticksBegin :
  reports_on_return (calibrateSticksBegin currentController l) (λ _, True) [].
Proof.
  unfold calibrateSticksBegin.
  apply (on_return_bind _ _ _ _ [] [] (on_return_request _ _)). intros res _.
  destruct (negb (CalibrationResult.ok res)); [apply on_return_throw |].
  by apply on_return_ret.
Qed.

Lemma on_return_calibrateSticksSample :
  reports_on_return (calibrateSticksSample currentController l) (λ _, True) [].
Proof.
  unfold calibrateSticksSample.
  apply (on_return_bind _ _ _ _ [] [] (on_return_request _ _)). intros res _.
  destruct (negb (CalibrationResult.ok res)); [| by apply on_return_ret].
  apply (on_return_bind _ _ _ _ [] [] (on_return_total _ _ _ (reports_emit (EvSleep 500)))).
  intros _ _. apply on_return_throw.
Qed.

Lemma on_return_calibrateSticksEnd :
  reports_on_return (calibrateSticksEnd currentController l) (λ _, True) [].
Proof.
  unfold calibrateSticksEnd.
  apply (on_return_bind _ _ _ _ [] [] (on_return_request _ _)). intros res _.
  destruct (negb (CalibrationResult.ok res)).
  - apply (on_return_bind _ _ _ _ [] [] (on_return_total _ _ _ (reports_emit (EvSleep 500)))).
    intros _ _. apply on_return_throw.
  - apply on_return_total, reports_setHasChangesToWrite.
Qed.

(** C7. Every run of [calibrateSticks] that returns, which it does only
    when the driver has answered ok to the begin request, to the five
    sample requests and to the end request, returns success and has
    called the progress callback with 20, 30, 40, 50, 60, 70, 80, 90 and
    100, in this order: an increasing sequence of values between 0 and
    100 that starts at 20 and ends at 100. On a driver that answers ok to
    these requests, [calibrateSticks] does return. *)
Theorem stick_calibration_progress (w : World) :
  let ps := [20; 30; 40; 50; 60; 70; 80; 90; 100]%float in
  (∀ r w', calibrateSticks currentController l w = (Ok r, w') →
           r = CalibrationResponse.mk true (l "Stick calibration completed")
           ∧ progress_values (trace w') = progress_values (trace w) ++ ps)
  ∧ (always_ok (BaseController.calibrateSticksBegin currentController) →
     always_ok (BaseController.calibrateSticksSample currentController) →
     always_ok (BaseController.calibrateSticksEnd currentController) →
     ∃ r w', calibrateSticks currentController l w = (Ok r, w'))
  ∧ strictly_increasing ps = true
  ∧ within_0_100 ps = true
  ∧ head ps = Some 20%float
  ∧ last ps = Some 100%float.
Proof.
  intros ps. split; [| split; [| by vm_compute]].
  - assert (Hrep : ∃ ps',
              reports_on_return (calibrateSticks currentController l)
                (λ r, r = CalibrationResponse.mk true (l "Stick calibration completed"))
                ps'
              ∧ ps' = ps).
    { eexists. split.
      - unfold calibrateSticks. apply on_return_try_catch.
        2:{ intros e w0. reflexivity. }
        eapply on_return_bind;
          [apply on_return_total, reports_emit | intros _ _].
        eapply on_return_bind;
          [apply on_return_total, (reports_emit (EvProgress 20)) | intros _ _].
        eapply on_return_bind; [apply on_return_calibrateSticksBegin | intros _ _].
        eapply on_return_bind;
          [apply on_return_total, (reports_emit (EvProgress 30)) | intros _ _].
        eapply on_return_bind.
        { apply (on_return_for_count _ _ _ sampleProgress). intros j.
          apply (on_return_bind _ _ _ _ [] _
                   (on_return_total _ _ _ (reports_emit (EvSleep 100)))).
          intros _ _.
          apply (on_return_bind _ _ _ _ [] _ on_return_calibrateSticksSample).
          intros _ _.
          apply on_return_total, (reports_emit (EvProgress (sampleProgress j))). }
        intros _ _.
        eapply on_return_bind;
          [apply on_return_total, (reports_emit (EvProgress 90)) | intros _ _].
        eapply on_return_bind; [apply on_return_calibrateSticksEnd | intros _ _].
        eapply on_return_bind;
          [apply on_return_total, (reports_emit (EvProgress 100)) | intros _ _].
        by apply on_return_ret.
      - vm_compute. reflexivity. }
    destruct Hrep as (ps' & Hrep & ->). intros r w'. apply Hrep.
  - intros Hbegin Hsample Hend.
    assert (Hrep : ∃ ps', reports (calibrateSticks currentController l) (λ _, True) ps').
    { eexists. unfold calibrateSticks. apply reports_try_catch.
      eapply reports_bind; [apply reports_emit | intros _ _].
      eapply reports_bind; [apply (reports_emit (EvProgress 20)) | intros _ _].
      eapply reports_bind; [apply (reports_calibrateSticksBegin Hbegin) | intros _ _].
      eapply reports_bind; [apply (reports_emit (EvProgress 30)) | intros _ _].
      eapply reports_bind.
      { apply (reports_for_count _ _ _ sampleProgress). intros j.
        apply (reports_bind _ _ _ _ [] _ (reports_emit (EvSleep 100))). intros _ _.
        apply (reports_bind _ _ _ _ [] _ (reports_calibrateSticksSample Hsample)).
        intros _ _. apply (reports_emit (EvProgress (sampleProgress j))). }
      intros _ _.
      eapply reports_bind; [apply (reports_emit (EvProgress 90)) | intros _ _].
      eapply reports_bind; [apply (reports_calibrateSticksEnd Hend) | intros _ _].
      eapply reports_bind; [apply (reports_emit (EvProgress 100)) | intros _ _].
      by apply reports_ret. }
    destruct Hrep as (ps' & Hrep). destruct (Hrep w) as (r & w' & Hrun & _).
    by exists r, w'.
Qed.

End ProgressProperties.

(** ** The entry points on the sample drivers *)

Lemma range_close_expected_codes_witness :
  BaseController.calibrateRangeEnd refusing_controller (device sample_world)
  = (Ok (Some code4), tt)
  ∧ opt_ok (Some code4) = false
  ∧ (calibrateRangeOnClose refusing_controller id sample_world).1
    = Ok (CalibrationResponse.mk true "Range calibration window closed").
Proof.
  split; [reflexivity |]. split; [reflexivity |].
  apply (range_close_expected_codes refusing_controller id sample_world
           (Some code4) tt eq_refl eq_refl).
  exists 4. split; [reflexivity | in_list].
Defined.

Lemma range_close_pending_flag_witness :
  BaseController.calibrateRangeEnd refusing_controller (device sample_world)
  = (Ok (Some code4), tt)
  ∧ opt_ok (Some code4) = false
  ∧ this (calibrateRangeOnClose refusing_controller id sample_world).2
    = this sample_world
  ∧ has_changes_to_write (this (calibrateRangeOnClose refusing_controller id sample_world).2)
    = Some false.
Proof.
  split; [reflexivity |]. split; [reflexivity |].
  destruct (range_close_pending_flag refusing_controller id sample_world
              (Some code4) tt eq_refl) as [Hkeep _].
  destruct (Hkeep eq_refl) as (Hthis & Hflag & _).
  split; [exact Hthis | by rewrite Hflag].
Defined.

Lemma nvs_lock_requery_witness :
  BaseController.nvsLock refusing_controller (device sample_world)
  = (Ok lock_refused, tt)
  ∧ NvResult.ok lock_refused = false
  ∧ nvsLock refusing_controller id true sample_world
    = (Throw (Error "NVS Lock failed: timeout"),
       mkWorld (this sample_world) tt (trace sample_world ++ [EvDriver OpNvsLock])).
Proof.
  split; [reflexivity |]. split; [reflexivity |].
  exact (proj1 (nvs_lock_requery refusing_controller id true sample_world
                  lock_refused tt eq_refl) eq_refl).
Defined.

Lemma always_ok_ret {Dev} (res : CalibrationResult.t) :
  CalibrationResult.ok res = true → always_ok (Dev := Dev) (ret res).
Proof. intros Hres d. by exists res, d. Qed.

Lemma stick_calibration_progress_witness :
  always_ok (BaseController.calibrateSticksBegin sample_controller)
  ∧ always_ok (BaseController.calibrateSticksSample sample_controller)
  ∧ always_ok (BaseController.calibrateSticksEnd sample_controller)
  ∧ ∃ w', calibrateSticks sample_controller id sample_world
          = (Ok (CalibrationResponse.mk true "Stick calibration completed"), w')
          ∧ progress_values (trace w')
            = progress_values (trace sample_world)
              ++ [20; 30; 40; 50; 60; 70; 80; 90; 100]%float.
Proof.
  assert (H : always_ok (Dev := unit) (ret sample_ok)) by (by apply always_ok_ret).
  repeat (split; [exact H |]).
  destruct (stick_calibration_progress sample_controller id sample_world)
    as (Hreturned & Hreturns & _).
  destruct (Hreturns H H H) as (r & w' & Hrun).
  destruct (Hreturned r w' Hrun) as [-> Hps].
  by exists w'.
Defined.

(** * Further properties of the input path *)

(** ** What a change-set is *)

Lemma recordProp_union (k : string) (v : jsval) (ch ch' : InputChanges)
  (bs0 bs bs' : ButtonStates) :
  bs = ch ∪ bs0 → recordProp k v ch bs = (Ok ch', bs') → bs' = ch' ∪ bs0.
Proof.
  intros -> H. unfold recordProp in H.
  destruct (strict_neq _ _); injection H as <- <-; [| reflexivity].
  by rewrite insert_union_l.
Qed.

Lemma recordAll_union (props : list (string * jsval)) (ch ch' : InputChanges)
  (bs0 bs bs' : ButtonStates) :
  bs = ch ∪ bs0 → recordAll props ch bs = (Ok ch', bs') → bs' = ch' ∪ bs0.
Proof.
  revert ch bs. induction props as [|[k v] props IH]; intros ch bs Hbs.
  - intros [= <- <-]. exact Hbs.
  - rewrite recordAll_cons. intros (ch1 & bs1 & H1 & Hrest)%bind_Ok_inv.
    eapply IH; [| exact Hrest]. by eapply recordProp_union.
Qed.

Lemma recordSticks_union (newSticks : StickStates.t) (ch : InputChanges)
  (bs bs' : ButtonStates) :
  recordSticks newSticks bs = (Ok ch, bs') → bs' = ch ∪ bs.
Proof.
  unfold recordSticks. destruct (currentSticks bs) as [cur|e]; [| discriminate].
  destruct (_sticksChanged cur newSticks); intros [= <- <-].
  - by rewrite insert_union_singleton_l.
  - by rewrite (left_id_L ∅ (∪)).
Qed.

Lemma returned_decoded (data : DataView) (BUTTON_MAP : list ButtonMapping.t)
  (dpad_byte l2_analog_byte r2_analog_byte : Z) (bs bs' : ButtonStates)
  (ch : InputChanges) :
  _recordButtonStates data BUTTON_MAP dpad_byte l2_analog_byte r2_analog_byte bs
  = (Ok ch, bs') →
  ∃ newSticks props ch0 bs0,
    decode data BUTTON_MAP dpad_byte l2_analog_byte r2_analog_byte = Ok (newSticks, props)
    ∧ recordSticks newSticks bs = (Ok ch0, bs0)
    ∧ recordAll props ch0 bs0 = (Ok ch, bs').
Proof.
  intros Hrun.
  destruct (decode data BUTTON_MAP dpad_byte l2_analog_byte r2_analog_byte)
    as [[newSticks props]|e] eqn:Hdec.
  2:{ destruct (recordButtonStates_undecoded _ _ _ _ _ _ bs Hdec) as (e' & bs1 & H & _).
      rewrite H in Hrun. discriminate. }
  rewrite (recordButtonStates_decoded _ _ _ _ _ _ _ bs Hdec) in Hrun.
  apply bind_Ok_inv in Hrun as (ch0 & bs0 & Hst & Hall).
  by exists newSticks, props, ch0, bs0.
Qed.

(** X1: the new snapshot is the change-set laid over the old snapshot: what
    is reported is stored, and nothing else is touched. This holds for
    every layout. *)
Theorem snapshot_is_changes_over_old (data : DataView)
  (BUTTON_MAP : list ButtonMapping.t) (dpad_byte l2_analog_byte r2_analog_byte : Z)
  (bs bs' : ButtonStates) (ch : InputChanges) :
  _recordButtonStates data BUTTON_MAP dpad_byte l2_analog_byte r2_analog_byte bs
  = (Ok ch, bs') →
  bs' = ch ∪ bs
  ∧ (∀ k v, ch !! k = Some v → bs' !! k = Some v)
  ∧ (∀ k, ch !! k = None → bs' !! k = bs !! k).
Proof.
  intros (newSticks & props & ch0 & bs0 & _ & Hst & Hall)%returned_decoded.
  apply recordSticks_union in Hst.
  pose proof (recordAll_union _ _ _ _ _ _ Hst Hall) as ->.
  split; [reflexivity |]. split.
  - intros k v Hk. by apply lookup_union_Some_l.
  - intros k Hk. by apply lookup_union_r.
Qed.

Lemma snapshot_is_changes_over_old_witness :
  _recordButtonStates sample_report sample_buttonMap 4 7 8 initial_button_states
  = (Ok (res_value ∅ sample_recorded.1), sample_recorded.2)
  ∧ sample_recorded.2 = res_value ∅ sample_recorded.1 ∪ initial_button_states.
Proof.
  assert (Hrun : _recordButtonStates sample_report sample_buttonMap 4 7 8
                   initial_button_states
                 = (Ok (res_value ∅ sample_recorded.1), sample_recorded.2))
    by (apply (run_returned ∅ sample_recorded); vm_compute; reflexivity).
  split; [exact Hrun |].
  exact (proj1 (snapshot_is_changes_over_old _ _ _ _ _ _ _ _ Hrun)).
Defined.

(** Recording decoded properties under distinct keys reports exactly the
    ones that differ from the snapshot. *)
Lemma recordAll_diff (props : list (string * jsval)) (ch0 ch : InputChanges)
  (bs0 bs' : ButtonStates) :
  NoDup props.*1 → Forall (λ kv, is_prim kv.2 = true) props →
  recordAll props ch0 bs0 = (Ok ch, bs') →
  (∀ k v, (k, v) ∈ props →
          ch !! k = if strict_neq (bs0 !! k) v then Some v else ch0 !! k)
  ∧ (∀ k, k ∉ props.*1 → ch !! k = ch0 !! k).
Proof.
  revert ch0 bs0. induction props as [|[k v] props IH]; intros ch0 bs0 Hnd Hprim.
  - intros [= <- <-]. split; [intros k v Hin; by apply elem_of_nil in Hin | done].
  - apply NoDup_cons in Hnd as [Hk Hnd]. apply Forall_cons in Hprim as [Hv Hprim].
    rewrite recordAll_cons. intros (ch1 & bs1 & H1 & Hrest)%bind_Ok_inv.
    destruct (IH _ _ Hnd Hprim Hrest) as [Hin Hout].
    assert (Hstep : ch1 !! k = (if strict_neq (bs0 !! k) v then Some v else ch0 !! k)
                    ∧ (∀ k', k' ≠ k → ch1 !! k' = ch0 !! k' ∧ bs1 !! k' = bs0 !! k')).
    { unfold recordProp in H1. destruct (strict_neq (bs0 !! k) v) eqn:E.
      - injection H1 as <- <-. split.
        + apply lookup_insert_eq.
        + intros k' Hk'. by rewrite !lookup_insert_ne.
      - by injection H1 as <- <-. }
    destruct Hstep as [Hhere Hothers]. split.
    + intros k' v' [[= -> ->]|Hin']%elem_of_cons.
      * by rewrite (Hout k Hk).
      * assert (k' ≠ k).
        { intros ->. apply Hk. apply list_elem_of_fmap. by exists (k, v'). }
        destruct (Hothers k' H) as [Hc Hb]. rewrite (Hin _ _ Hin'), Hb, Hc. reflexivity.
    + intros k' [Hne Hk']%not_elem_of_cons. simpl in Hne.
      rewrite (Hout _ Hk'). by apply Hothers.
Qed.

(** What a run that returned is made of: the stick step, then the
    decoded properties recorded one after the other. *)
Lemma recorded_parts (data : DataView)
  (BUTTON_MAP : list ButtonMapping.t) (dpad_byte l2_analog_byte r2_analog_byte : Z)
  (bs bs' : ButtonStates) (ch : InputChanges) :
  NoDup (tracked_keys BUTTON_MAP) →
  _recordButtonStates data BUTTON_MAP dpad_byte l2_analog_byte r2_analog_byte bs
  = (Ok ch, bs') →
  ∃ newSticks props current (ch0 : InputChanges) (bs0 : ButtonStates),
    decode data BUTTON_MAP dpad_byte l2_analog_byte r2_analog_byte = Ok (newSticks, props)
    ∧ "sticks" :: props.*1 = tracked_keys BUTTON_MAP
    ∧ Forall (λ kv, is_prim kv.2 = true) props
    ∧ bs !! "sticks" = Some (VSticks current)
    ∧ (ch0, bs0) = (if _sticksChanged current newSticks
                    then ({["sticks" := VSticks newSticks]},
                          <["sticks" := VSticks newSticks]> bs)
                    else (∅, bs))
    ∧ (∀ k v, (k, v) ∈ props →
              ch !! k = if strict_neq (bs0 !! k) v then Some v else ch0 !! k)
    ∧ (∀ k, k ∉ props.*1 → ch !! k = ch0 !! k).
Proof.
  intros Hnd (newSticks & props & ch0 & bs0 & Hdec & Hst & Hall)%returned_decoded.
  pose proof Hdec as [_ Hp]%decode_Ok.
  apply decodeProps_keys in Hp as [Hkeys Hprim].
  rewrite <- Hkeys in Hnd. apply NoDup_cons in Hnd as [Hsticks Hnd].
  destruct (recordAll_diff _ _ _ _ _ Hnd Hprim Hall) as [Hin Hout].
  destruct (recordSticks_run newSticks bs) as [(cur & Hcur & Hr)|[_ Hr]];
    rewrite Hr in Hst; [| discriminate].
  exists newSticks, props, cur, ch0, bs0. repeat split; try done.
  by destruct (_sticksChanged cur newSticks); injection Hst as <- <-.
Qed.

(** X2: under a layout that stores every tracked field under a key of its
    own and has no button named [__proto__], the change-set holds
    exactly the decoded properties that differ from the snapshot, the
    stick record when a stick value differs, and nothing else. *)
Theorem change_set_is_the_difference (data : DataView)
  (BUTTON_MAP : list ButtonMapping.t) (dpad_byte l2_analog_byte r2_analog_byte : Z)
  (bs bs' : ButtonStates) (ch : InputChanges) :
  NoDup (tracked_keys BUTTON_MAP) →
  "__proto__" ∉ ButtonMapping.name <$> BUTTON_MAP →
  _recordButtonStates data BUTTON_MAP dpad_byte l2_analog_byte r2_analog_byte bs
  = (Ok ch, bs') →
  ∃ newSticks props current,
    decode data BUTTON_MAP dpad_byte l2_analog_byte r2_analog_byte = Ok (newSticks, props)
    ∧ bs !! "sticks" = Some (VSticks current)
    ∧ (∀ k v, (k, v) ∈ props →
              ch !! k = if strict_neq (bs !! k) v then Some v else None)
    ∧ ch !! "sticks" = (if _sticksChanged current newSticks
                        then Some (VSticks newSticks) else None)
    ∧ (∀ k, k ∉ tracked_keys BUTTON_MAP → ch !! k = None).
Proof.
  intros Hnd _ Hrun.
  destruct (recorded_parts _ _ _ _ _ _ _ _ Hnd Hrun)
    as (newSticks & props & cur & ch0 & bs0 & Hdec & Hkeys & _ & Hcur & Hst & Hin & Hout).
  rewrite <- Hkeys in Hnd |- *. apply NoDup_cons in Hnd as [Hsticks _].
  exists newSticks, props, cur. split; [done |]. split; [done |].
  assert (Hch0 : ∀ k, k ≠ "sticks" → ch0 !! k = None ∧ bs0 !! k = bs !! k).
  { intros k Hk. destruct (_sticksChanged cur newSticks); injection Hst as -> ->.
    - by rewrite lookup_singleton_ne, lookup_insert_ne.
    - by rewrite lookup_empty. }
  split; [| split].
  - intros k v Hkv.
    assert (k ≠ "sticks").
    { intros ->. apply Hsticks. apply list_elem_of_fmap. by exists ("sticks", v). }
    destruct (Hch0 k H) as [Hc Hb]. by rewrite (Hin _ _ Hkv), Hb, Hc.
  - rewrite (Hout _ Hsticks).
    destruct (_sticksChanged cur newSticks); injection Hst as -> ->.
    + apply lookup_singleton_eq.
    + apply lookup_empty.
  - intros k [Hne Hk]%not_elem_of_cons. rewrite (Hout _ Hk). by apply Hch0.
Qed.

Lemma change_set_is_the_difference_witness :
  NoDup (tracked_keys sample_buttonMap)
  ∧ ("__proto__" ∉ ButtonMapping.name <$> sample_buttonMap)
  ∧ _recordButtonStates sample_report sample_buttonMap 4 7 8 initial_button_states
    = (Ok (res_value ∅ sample_recorded.1), sample_recorded.2)
  ∧ (∀ k, k ∉ tracked_keys sample_buttonMap → res_value ∅ sample_recorded.1 !! k = None).
Proof.
  assert (Hnd : NoDup (tracked_keys sample_buttonMap))
    by (apply (bool_decide_unpack _); vm_compute; exact I).
  assert (Hrun : _recordButtonStates sample_report sample_buttonMap 4 7 8
                   initial_button_states
                 = (Ok (res_value ∅ sample_recorded.1), sample_recorded.2))
    by (apply (run_returned ∅ sample_recorded); vm_compute; reflexivity).
  assert (Hno : "__proto__" ∉ ButtonMapping.name <$> sample_buttonMap)
    by (apply (bool_decide_unpack _); vm_compute; exact I).
  split; [exact Hnd |]. split; [exact Hno |]. split; [exact Hrun |].
  destruct (change_set_is_the_difference _ _ _ _ _ _ _ _ Hnd Hno Hrun)
    as (newSticks & props & cur & _ & _ & _ & _ & Hout).
  exact Hout.
Defined.

(** X3: under a layout that stores every tracked field under a key of its
    own and has no button named [__proto__], a tracked field the
    snapshot does not hold yet is always reported: the first report
    after the constructor publishes both triggers, the four d-pad
    directions and every button of the layout. *)
Theorem absent_field_is_reported (data : DataView)
  (BUTTON_MAP : list ButtonMapping.t) (dpad_byte l2_analog_byte r2_analog_byte : Z)
  (bs bs' : ButtonStates) (ch : InputChanges) (k : string) :
  NoDup (tracked_keys BUTTON_MAP) →
  "__proto__" ∉ ButtonMapping.name <$> BUTTON_MAP →
  _recordButtonStates data BUTTON_MAP dpad_byte l2_analog_byte r2_analog_byte bs
  = (Ok ch, bs') →
  k ∈ tracked_keys BUTTON_MAP → k ≠ "sticks" → bs !! k = None →
  ∃ v, ch !! k = Some v ∧ bs' !! k = Some v ∧ is_prim v = true.
Proof.
  intros Hnd _ Hrun Hk Hne Habsent.
  destruct (recorded_parts _ _ _ _ _ _ _ _ Hnd Hrun)
    as (newSticks & props & cur & ch0 & bs0 & _ & Hkeys & Hprim & _ & Hst & Hin & _).
  rewrite <- Hkeys in Hk. apply elem_of_cons in Hk as [->|Hk]; [done |].
  apply list_elem_of_fmap in Hk as ([k' v] & -> & Hkv). simpl in *.
  assert (Hbs0 : bs0 !! k' = None).
  { destruct (_sticksChanged cur newSticks); injection Hst as _ ->; [| done].
    by rewrite lookup_insert_ne. }
  exists v. specialize (Hin _ _ Hkv). rewrite Hbs0 in Hin. simpl in Hin.
  split; [exact Hin |]. split.
  - apply returned_decoded in Hrun as (s1 & p1 & c1 & b1 & _ & Hrec & Hall).
    apply recordSticks_union in Hrec.
    rewrite (recordAll_union _ _ _ _ _ _ Hrec Hall). by apply lookup_union_Some_l.
  - rewrite Forall_forall in Hprim. by apply (Hprim (k', v)).
Qed.

Lemma absent_field_is_reported_witness :
  NoDup (tracked_keys sample_buttonMap)
  ∧ ("__proto__" ∉ ButtonMapping.name <$> sample_buttonMap)
  ∧ _recordButtonStates sample_report sample_buttonMap 4 7 8 initial_button_states
    = (Ok (res_value ∅ sample_recorded.1), sample_recorded.2)
  ∧ "triangle" ∈ tracked_keys sample_buttonMap
  ∧ "triangle" ≠ "sticks"
  ∧ initial_button_states !! "triangle" = None
  ∧ ∃ v, res_value ∅ sample_recorded.1 !! "triangle" = Some v
         ∧ sample_recorded.2 !! "triangle" = Some v ∧ is_prim v = true.
Proof.
  assert (Hnd : NoDup (tracked_keys sample_buttonMap))
    by (apply (bool_decide_unpack _); vm_compute; exact I).
  assert (Hno : "__proto__" ∉ ButtonMapping.name <$> sample_buttonMap)
    by (apply (bool_decide_unpack _); vm_compute; exact I).
  assert (Hrun : _recordButtonStates sample_report sample_buttonMap 4 7 8
                   initial_button_states
                 = (Ok (res_value ∅ sample_recorded.1), sample_recorded.2))
    by (apply (run_returned ∅ sample_recorded); vm_compute; reflexivity).
  assert (Hk : "triangle" ∈ tracked_keys sample_buttonMap)
    by (apply (bool_decide_unpack _); vm_compute; exact I).
  assert (Hne : "triangle" ≠ "sticks") by discriminate.
  assert (Habs : initial_button_states !! "triangle" = None)
    by (vm_compute; reflexivity).
  repeat (split; [assumption |]).
  exact (absent_field_is_reported _ _ _ _ _ _ _ _ "triangle" Hnd Hno Hrun Hk Hne Habs).
Defined.

(** ** Entries of the button map named after a d-pad direction *)

Lemma bind_ext {S A B} (m : M S A) (k k' : A → M S B) (s : S) :
  (∀ a s', k a s' = k' a s') → (m ≫= k) s = (m ≫= k') s.
Proof.
  intros H. rewrite !bind_run. destruct (m s) as [[a|e] s']; [apply H | reflexivity].
Qed.

Lemma for_of_recordButton_tracked (data : DataView) (BUTTON_MAP : list ButtonMapping.t)
  (ch : InputChanges) (bs : ButtonStates) :
  for_of (recordButton data) ch BUTTON_MAP bs
  = for_of (recordButton data) ch (tracked_buttons BUTTON_MAP) bs.
Proof.
  revert ch bs. induction BUTTON_MAP as [|btn rest IH]; intros ch bs; [reflexivity |].
  unfold tracked_buttons. rewrite filter_cons, for_of_cons, bind_run.
  destruct (is_dpad_name (ButtonMapping.name btn)) eqn:Hd.
  - rewrite decide_False by done. rewrite recordButton_run, Hd. apply IH.
  - rewrite decide_True by done. rewrite for_of_cons, bind_run.
    destruct (recordButton data ch btn bs) as [[ch1|e] bs1]; [apply IH | reflexivity].
Qed.

(** X4: the d-pad comes from the hat alone: the entries of the button map
    that are named after a d-pad direction count for nothing, whatever
    byte and mask they carry, even a byte the report does not have. *)
Theorem dpad_entries_are_ignored (data : DataView)
  (BUTTON_MAP : list ButtonMapping.t) (dpad_byte l2_analog_byte r2_analog_byte : Z)
  (bs : ButtonStates) :
  _recordButtonStates data BUTTON_MAP dpad_byte l2_analog_byte r2_analog_byte bs
  = _recordButtonStates data (tracked_buttons BUTTON_MAP)
      dpad_byte l2_analog_byte r2_analog_byte bs.
Proof.
  rewrite !recordButtonStates_run. destruct (readSticks data) as [ns|e]; [| reflexivity].
  apply bind_ext. intros ch0 bs0. apply bind_ext. intros ch1 bs1.
  apply bind_ext. intros hatByte bs2. apply bind_ext. intros ch2 bs3.
  apply for_of_recordButton_tracked.
Qed.

(** ** The d-pad *)

Lemma dpad_checks_byte (b : Byte.byte) : dpad_checks (byte_val b) = true.
Proof. destruct b; vm_compute; reflexivity. Qed.

(** X5: whatever the hat byte, only its low nibble counts; opposite
    directions are never pressed together, at most two directions are
    pressed, none is pressed exactly when the nibble is 8 or more, and
    two are pressed exactly on the odd nibbles below 8 (the diagonals). *)
Theorem dpad_directions (b : Byte.byte) :
  let pressed dir := dpad_map (Z.land (byte_val b) 0x0f) dir in
  let n := count_true [pressed "up"; pressed "right"; pressed "down"; pressed "left"] in
  Z.land (byte_val b) 0x0f = byte_val b `mod` 16
  ∧ (pressed "up" && pressed "down" = false)
  ∧ (pressed "left" && pressed "right" = false)
  ∧ (n ≤ 2)%nat
  ∧ (n = 0%nat ↔ 8 ≤ byte_val b `mod` 16)
  ∧ (n = 2%nat ↔ byte_val b `mod` 16 ∈ [1; 3; 5; 7]).
Proof.
  intros pressed n.
  assert (Hnib : Z.land (byte_val b) 0x0f = byte_val b `mod` 16)
    by (change 15 with (Z.ones 4); by rewrite Z.land_ones).
  split; [exact Hnib |].
  pose proof (dpad_checks_byte b) as H. unfold dpad_checks, dpad_pressed in H.
  fold (pressed "up") (pressed "right") (pressed "down") (pressed "left") in H.
  fold n in H. rewrite Hnib in H.
  apply andb_prop in H as [H H2]. apply andb_prop in H as [H H0].
  apply andb_prop in H as [H Hle]. apply andb_prop in H as [Hud Hlr].
  apply negb_true_iff in Hud, Hlr. apply bool_decide_eq_true in Hle.
  apply Bool.eqb_prop in H0, H2.
  split; [done |]. split; [done |]. split; [done |]. split.
  - by rewrite <- Z.leb_le, <- H0, bool_decide_eq_true.
  - by rewrite <- (bool_decide_eq_true (_ ∈ _)), <- H2, bool_decide_eq_true.
Qed.

(** ** The stick mapping over all bytes *)

Lemma all_stick_rows : all_stick_rows_checked = true.
Proof. vm_compute. reflexivity. Qed.

Lemma stick_rows_check_bytes (b b' : Byte.byte) :
  stick_rows_check (stick_row (byte_val b)) (stick_row (byte_val b')) = true.
Proof.
  pose proof all_stick_rows as H. unfold all_stick_rows_checked in H.
  rewrite forallb_forall in H.
  assert (Hin : ∀ c : Byte.byte, In (stick_row (byte_val c)) stick_table).
  { intros c. apply list_elem_of_In, list_elem_of_fmap. exists (byte_val c).
    split; [reflexivity |]. apply elem_of_seqZ. pose proof (byte_val_range c). lia. }
  specialize (H _ (Hin b)). rewrite forallb_forall in H. exact (H _ (Hin b')).
Qed.

Lemma byte_val_opposite (b : Byte.byte) : ∃ b', byte_val b' = 255 - byte_val b.
Proof.
  destruct (Byte.of_N (Z.to_N (255 - byte_val b))) as [b'|] eqn:E.
  - exists b'. apply Byte.to_of_N in E. unfold byte_val at 1. rewrite E.
    pose proof (byte_val_range b). lia.
  - apply Byte.of_N_None_iff in E. pose proof (byte_val_range b). lia.
Qed.

(** X6: the stick mapping keeps the order of the bytes and is symmetric
    about the centre: the bytes [v] and [255 - v] map to opposite values. *)
Theorem stick_mapping_ordered_symmetric (b b' : Byte.byte) :
  (byte_val b ≤ byte_val b' →
   (stickValue (byte_val b) <=? stickValue (byte_val b'))%float = true)
  ∧ num_eq (stickValue (255 - byte_val b)) (- stickValue (byte_val b))%float = true.
Proof.
  split.
  - pose proof (stick_rows_check_bytes b b') as H. unfold stick_rows_check, stick_row in H.
    apply andb_prop in H as [H _]. apply andb_prop in H as [H _].
    intros Hle. apply Z.leb_le in Hle. by rewrite Hle in H.
  - destruct (byte_val_opposite b) as [c Hc]. rewrite <- Hc.
    pose proof (stick_rows_check_bytes b c) as H. unfold stick_rows_check, stick_row in H.
    apply andb_prop in H as [_ H].
    assert (Hsum : (byte_val b + byte_val c =? 255) = true) by (apply Z.eqb_eq; lia).
    by rewrite Hsum in H.
Qed.

Lemma stick_mapping_ordered_symmetric_witness :
  byte_val Byte.x10 ≤ byte_val Byte.xf0
  ∧ (stickValue (byte_val Byte.x10) <=? stickValue (byte_val Byte.xf0))%float = true.
Proof.
  assert (H : byte_val Byte.x10 ≤ byte_val Byte.xf0) by (vm_compute; discriminate).
  split; [exact H |].
  exact (proj1 (stick_mapping_ordered_symmetric Byte.x10 Byte.xf0) H).
Defined.

(** X7: a stick change is reported exactly when a stick value moves to
    another hundredth: two reports whose stick bytes round to the same
    hundredths (bytes 127 and 128, for one) are the same to
    [_sticksChanged]. *)
Theorem sticks_change_by_hundredths (a0 a1 a2 a3 c0 c1 c2 c3 : Byte.byte) :
  _sticksChanged (sticks_of_bytes a0 a1 a2 a3) (sticks_of_bytes c0 c1 c2 c3) = false
  ↔ stickHundredths (byte_val a0) = stickHundredths (byte_val c0)
    ∧ stickHundredths (byte_val a1) = stickHundredths (byte_val c1)
    ∧ stickHundredths (byte_val a2) = stickHundredths (byte_val c2)
    ∧ stickHundredths (byte_val a3) = stickHundredths (byte_val c3).
Proof.
  assert (Heq : ∀ b b' : Byte.byte,
            num_eq (stickValue (byte_val b)) (stickValue (byte_val b')) = true
            ↔ stickHundredths (byte_val b) = stickHundredths (byte_val b')).
  { intros b b'. pose proof (stick_rows_check_bytes b b') as H.
    unfold stick_rows_check, stick_row in H.
    apply andb_prop in H as [H _]. apply andb_prop in H as [_ H].
    apply Bool.eqb_prop in H. rewrite H. apply Z.eqb_eq. }
  unfold _sticksChanged, sticks_of_bytes. simpl.
  rewrite !orb_false_iff, !negb_false_iff, !Heq. tauto.
Qed.

(** ** The touchpad bytes *)

Lemma getUint8_covered (data : DataView) (i : Z) :
  in_range data i → ∃ b, getUint8 data i = Ok (byte_val b).
Proof.
  intros [Hpos Hlt]. unfold getUint8. destruct (Z.ltb_spec i 0); [lia |].
  destruct (lookup_lt_is_Some_2 data (Z.to_nat i)) as [b Hb]; [lia |].
  rewrite Hb. eauto.
Qed.

Lemma parseTouchPoint_covered (data : DataView) (offset i : Z) :
  let base := offset + i * TOUCHPAD_BYTES_PER_POINT in
  in_range data base → in_range data (base + 3) →
  ∃ p, parseTouchPoint data offset i = Ok p.
Proof.
  intros base H0 H3. unfold parseTouchPoint. fold base.
  assert (H1 : in_range data (base + 1)) by (unfold in_range in *; lia).
  assert (H2 : in_range data (base + 2)) by (unfold in_range in *; lia).
  destruct (getUint8_covered _ _ H0) as [b0 ->].
  destruct (getUint8_covered _ _ H1) as [b1 ->].
  destruct (getUint8_covered _ _ H2) as [b2 ->].
  destruct (getUint8_covered _ _ H3) as [b3 ->].
  res_red. eauto.
Qed.

(** X8: [_parseTouchPoints] returns, with two points, exactly on the reports
    that hold the eight bytes from the offset on; on any other report,
    and on a negative offset, it throws [RangeError]. *)
Theorem parse_touch_points_bounds (data : DataView) (offset : Z) :
  (0 ≤ offset ∧ offset + 8 ≤ Z.of_nat (length data) →
   ∃ p0 p1, _parseTouchPoints data offset = Ok [p0; p1])
  ∧ (¬ (0 ≤ offset ∧ offset + 8 ≤ Z.of_nat (length data)) →
     _parseTouchPoints data offset = Throw RangeError).
Proof.
  split.
  - intros [Hpos Hlen]. rewrite parseTouchPoints_unfold.
    destruct (parseTouchPoint_covered data offset 0) as [p0 ->];
      [unfold in_range, TOUCHPAD_BYTES_PER_POINT; lia.. |].
    destruct (parseTouchPoint_covered data offset 1) as [p1 ->];
      [unfold in_range, TOUCHPAD_BYTES_PER_POINT; lia.. |].
    res_red. eauto.
  - intros Hout. destruct (_parseTouchPoints data offset) as [pts|e] eqn:E.
    + apply parseTouchPoints_Ok in E.
      apply Forall_cons in E as [[H0 _] E].
      do 6 apply Forall_cons in E as [_ E].
      apply Forall_cons in E as [[_ H7] _]. lia.
    + by apply parseTouchPoints_Throw in E as ->.
Qed.

Lemma parse_touch_points_bounds_witness :
  (0 ≤ 9 ∧ 9 + 8 ≤ Z.of_nat (length sample_report))
  ∧ ¬ (0 ≤ 9 ∧ 9 + 8 ≤ Z.of_nat (length short_report))
  ∧ (∃ p0 p1, _parseTouchPoints sample_report 9 = Ok [p0; p1])
  ∧ _parseTouchPoints short_report 9 = Throw RangeError.
Proof.
  assert (H1 : 0 ≤ 9 ∧ 9 + 8 ≤ Z.of_nat (length sample_report))
    by (vm_compute; split; discriminate).
  assert (H2 : ¬ (0 ≤ 9 ∧ 9 + 8 ≤ Z.of_nat (length short_report)))
    by (vm_compute; intros [_ H]; by apply H).
  split; [exact H1 |]. split; [exact H2 |]. split.
  - exact (proj1 (parse_touch_points_bounds sample_report 9) H1).
  - exact (proj2 (parse_touch_points_bounds short_report 9) H2).
Defined.

Lemma high_bit_of_byte (b : Byte.byte) :
  Z.testbit (byte_val b) 7 = (128 <=? byte_val b).
Proof. destruct b; reflexivity. Qed.

Lemma touch_point_arith (b0 b1 b2 b3 : Byte.byte) :
  touch_point_of_bytes (byte_val b0) (byte_val b1) (byte_val b2) (byte_val b3)
  = TouchPoint.mk (byte_val b0 <? 128) (byte_val b0 `mod` 128)
      ((byte_val b2 `mod` 16) * 256 + byte_val b1)
      (byte_val b3 * 16 + byte_val b2 `div` 16).
Proof.
  pose proof (byte_val_range b1). pose proof (byte_val_range b2).
  assert (0 ≤ byte_val b2 `div` 16 < 16)
    by (split; [apply Z.div_pos; lia | apply Z.div_lt_upper_bound; lia]).
  unfold touch_point_of_bytes. f_equal.
  - rewrite high_bit_of_byte. apply eq_sym, Z.ltb_antisym.
  - change 127 with (Z.ones 7). by rewrite Z.land_ones.
  - change 15 with (Z.ones 4). rewrite Z.land_ones by lia.
    rewrite lor_shiftl_low; [reflexivity | lia | change (2 ^ 8) with 256; lia].
  - rewrite Z.shiftr_div_pow2 by lia. change (2 ^ 4) with 16.
    rewrite lor_shiftl_low; [reflexivity | lia | change (2 ^ 4) with 16; lia].
Qed.

Lemma parseTouchPoints_bytes (pre post : DataView)
  (a0 a1 a2 a3 a4 a5 a6 a7 : Byte.byte) :
  _parseTouchPoints (pre ++ [a0; a1; a2; a3; a4; a5; a6; a7] ++ post)
                    (Z.of_nat (length pre))
  = Ok [ touch_point_of_bytes (byte_val a0) (byte_val a1) (byte_val a2) (byte_val a3);
         touch_point_of_bytes (byte_val a4) (byte_val a5) (byte_val a6) (byte_val a7) ].
Proof.
  rewrite parseTouchPoints_unfold.
  pose proof (parseTouchPoint_at pre ([a4; a5; a6; a7] ++ post) [] a0 a1 a2 a3 0) as H0.
  pose proof (parseTouchPoint_at pre post [a0; a1; a2; a3] a4 a5 a6 a7 1) as H1.
  simpl in H0, H1. simpl app. rewrite H0, H1 by reflexivity. reflexivity.
Qed.

(** X9: the eight touchpad bytes are used in full: two reports that decode to
    the same two touch points carry the same eight bytes at their
    touchpad offsets. *)
Theorem touch_point_bytes_determined (pre post pre' post' : DataView)
  (a0 a1 a2 a3 a4 a5 a6 a7 c0 c1 c2 c3 c4 c5 c6 c7 : Byte.byte) :
  _parseTouchPoints (pre ++ [a0; a1; a2; a3; a4; a5; a6; a7] ++ post)
                    (Z.of_nat (length pre))
  = _parseTouchPoints (pre' ++ [c0; c1; c2; c3; c4; c5; c6; c7] ++ post')
                      (Z.of_nat (length pre')) →
  [a0; a1; a2; a3; a4; a5; a6; a7] = [c0; c1; c2; c3; c4; c5; c6; c7].
Proof.
  assert (Hinj : ∀ b0 b1 b2 b3 d0 d1 d2 d3 : Byte.byte,
            touch_point_of_bytes (byte_val b0) (byte_val b1) (byte_val b2) (byte_val b3)
            = touch_point_of_bytes (byte_val d0) (byte_val d1) (byte_val d2) (byte_val d3) →
            b0 = d0 ∧ b1 = d1 ∧ b2 = d2 ∧ b3 = d3).
  { intros b0 b1 b2 b3 d0 d1 d2 d3. rewrite !touch_point_arith. intros [= Hact Hid Hx Hy].
    pose proof (byte_val_range b0). pose proof (byte_val_range b1).
    pose proof (byte_val_range b2). pose proof (byte_val_range b3).
    pose proof (byte_val_range d0). pose proof (byte_val_range d1).
    pose proof (byte_val_range d2). pose proof (byte_val_range d3).
    assert (E0 : byte_val b0 = byte_val d0).
    { destruct (Z.ltb_spec (byte_val b0) 128), (Z.ltb_spec (byte_val d0) 128);
        try discriminate; revert Hid; Z.div_mod_to_equations; lia. }
    assert (E123 : byte_val b1 = byte_val d1 ∧ byte_val b2 = byte_val d2
                   ∧ byte_val b3 = byte_val d3).
    { revert Hx Hy. Z.div_mod_to_equations. lia. }
    destruct E123 as (E1 & E2 & E3).
    by rewrite (byte_val_inj _ _ E0), (byte_val_inj _ _ E1),
               (byte_val_inj _ _ E2), (byte_val_inj _ _ E3). }
  assert (Hpair : ∀ p q p' q' : TouchPoint.t,
            Ok (A := list TouchPoint.t) [p; q] = Ok [p'; q'] → p = p' ∧ q = q')
    by (by intros p q p' q' [= -> ->]).
  rewrite !parseTouchPoints_bytes. intros [Hp Hq]%Hpair.
  apply Hinj in Hp as (-> & -> & -> & ->). apply Hinj in Hq as (-> & -> & -> & ->).
  reflexivity.
Qed.

Lemma touch_point_bytes_determined_witness :
  _parseTouchPoints sample_report 9 = _parseTouchPoints (drop 9 sample_report) 0
  ∧ take 8 (drop 9 sample_report)
    = [Byte.x00; Byte.x34; Byte.x02; Byte.x50; Byte.x80; Byte.x00; Byte.x00; Byte.x00].
Proof.
  split; [vm_compute; reflexivity |].
  exact (touch_point_bytes_determined (take 9 sample_report) [] [] []
           Byte.x00 Byte.x34 Byte.x02 Byte.x50 Byte.x80 Byte.x00 Byte.x00 Byte.x00
           Byte.x00 Byte.x34 Byte.x02 Byte.x50 Byte.x80 Byte.x00 Byte.x00 Byte.x00
           eq_refl).
Defined.

(** ** What the snapshot holds, report after report *)

Lemma preserves_liftRes {A} (P : ButtonStates → Prop) (r : Res A) :
  preserves P (liftRes r).
Proof. by intros bs r' bs' HP [= _ <-]. Qed.

Lemma preserves_ret {A} (P : ButtonStates → Prop) (a : A) : preserves P (ret a).
Proof. by intros bs r' bs' HP [= _ <-]. Qed.

Lemma preserves_bind {A B} (P : ButtonStates → Prop) (m : M ButtonStates A)
  (k : A → M ButtonStates B) :
  preserves P m → (∀ a, preserves P (k a)) → preserves P (m ≫= k).
Proof.
  intros Hm Hk bs r bs' HP. rewrite bind_run.
  destruct (m bs) as [[a|e] bs1] eqn:Hrun.
  - apply Hk. by eapply Hm.
  - intros [= _ <-]. by eapply Hm.
Qed.

Lemma preserves_for_of {A} (P : ButtonStates → Prop)
  (body : InputChanges → A → M ButtonStates InputChanges) (items : list A)
  (ch : InputChanges) :
  (∀ ch it, it ∈ items → preserves P (body ch it)) →
  preserves P (for_of body ch items).
Proof.
  revert ch. induction items as [|it rest IH]; intros ch Hbody.
  - apply preserves_ret.
  - rewrite for_of_cons. apply preserves_bind.
    + apply Hbody. apply list_elem_of_here.
    + intros ch'. apply IH. intros ch'' it' Hin. apply Hbody.
      by apply list_elem_of_further.
Qed.

Lemma preserves_recordProp (BUTTON_MAP : list ButtonMapping.t) (k : string) (v : jsval)
  (ch : InputChanges) :
  k ≠ "sticks" → well_typed_entry BUTTON_MAP k v →
  preserves (well_typed_snapshot BUTTON_MAP) (recordProp k v ch).
Proof.
  intros Hk Hv bs r bs' [[s Hs] Hall]. unfold recordProp.
  destruct (strict_neq (bs !! k) v); intros [= _ <-]; [| by split; [exists s |]].
  split.
  - exists s. by rewrite lookup_insert_ne.
  - intros k' v'. destruct (decide (k = k')) as [<-|Hne].
    + rewrite lookup_insert_eq. by intros [= <-].
    + rewrite lookup_insert_ne by done. apply Hall.
Qed.

Lemma preserves_recordSticks (BUTTON_MAP : list ButtonMapping.t)
  (newSticks : StickStates.t) :
  preserves (well_typed_snapshot BUTTON_MAP) (recordSticks newSticks).
Proof.
  intros bs r bs' [[s Hs] Hall]. unfold recordSticks, currentSticks. rewrite Hs.
  destruct (_sticksChanged s newSticks); intros [= _ <-]; [| by split; [exists s |]].
  split.
  - exists newSticks. apply lookup_insert_eq.
  - intros k' v'. destruct (decide ("sticks" = k')) as [<-|Hne].
    + rewrite lookup_insert_eq. by intros [= <-].
    + rewrite lookup_insert_ne by done. apply Hall.
Qed.

Lemma preserves_read {A B} (P : ButtonStates → Prop) (r : Res A)
  (k : A → M ButtonStates B) :
  (∀ a, r = Ok a → preserves P (k a)) → preserves P (liftRes r ≫= k).
Proof.
  intros Hk bs r' bs' HP. rewrite bind_run. unfold liftRes.
  destruct r as [a|e]; [by apply Hk | by intros [= _ <-]].
Qed.

Lemma getUint8_byte (data : DataView) (i v : Z) : getUint8 data i = Ok v → 0 ≤ v ≤ 255.
Proof.
  intros (_ & b & _ & ->)%getUint8_Ok. pose proof (byte_val_range b). lia.
Qed.

Lemma preserves_recordButtonStates (data : DataView) (BUTTON_MAP : list ButtonMapping.t)
  (dpad_byte l2_analog_byte r2_analog_byte : Z) :
  "sticks" ∉ ButtonMapping.name <$> BUTTON_MAP →
  preserves (well_typed_snapshot BUTTON_MAP)
    (_recordButtonStates data BUTTON_MAP dpad_byte l2_analog_byte r2_analog_byte).
Proof.
  intros Hno. unfold _recordButtonStates.
  apply preserves_bind; [apply preserves_liftRes | intros newSticks].
  apply preserves_bind; [apply preserves_recordSticks | intros ch0].
  apply preserves_bind.
  { apply preserves_for_of. intros ch [name byte] Hin. unfold recordTrigger.
    apply preserves_read. intros val Hval. cbn [fst snd] in *.
    assert (Hname : name ∈ ["l2_analog"; "r2_analog"]).
    { rewrite !elem_of_cons, elem_of_nil in Hin. rewrite !elem_of_cons.
      destruct Hin as [[= -> _]|[[= -> _]|[]]]; auto. }
    apply preserves_recordProp.
    - rewrite !elem_of_cons, elem_of_nil in Hname. intros ->.
      destruct Hname as [[=]|[[=]|[]]].
    - split; [done | by eapply getUint8_byte]. }
  intros ch1. apply preserves_read. intros hatByte _. cbv zeta.
  apply preserves_bind.
  { apply preserves_for_of. intros ch dir Hdir. unfold recordDpad.
    apply preserves_recordProp.
    - unfold dpadDirections in Hdir. rewrite !elem_of_cons, elem_of_nil in Hdir.
      intros ->. destruct Hdir as [[=]|[[=]|[[=]|[[=]|[]]]]].
    - change (dir ∈ dpadDirections ++ (ButtonMapping.name <$> tracked_buttons BUTTON_MAP)).
      apply elem_of_app. by left. }
  intros ch2. apply preserves_for_of. intros ch btn Hbtn. unfold recordButton.
  destruct (is_dpad_name (ButtonMapping.name btn)) eqn:Hd; [apply preserves_ret |].
  apply preserves_read. intros b _. cbv zeta.
  apply preserves_recordProp.
  - intros Hname. apply Hno. apply list_elem_of_fmap. by exists btn.
  - change (ButtonMapping.name btn
            ∈ dpadDirections ++ (ButtonMapping.name <$> tracked_buttons BUTTON_MAP)).
    apply elem_of_app. right. apply list_elem_of_fmap. exists btn.
    split; [done |]. unfold tracked_buttons. by apply list_elem_of_filter.
Qed.

Lemma initial_snapshot_well_typed (BUTTON_MAP : list ButtonMapping.t) :
  well_typed_snapshot BUTTON_MAP initial_button_states.
Proof.
  split; [eexists; apply lookup_singleton_eq |].
  intros k v. unfold initial_button_states.
  destruct (decide ("sticks" = k)) as [<-|Hne].
  - rewrite lookup_singleton_eq. by intros [= <-].
  - by rewrite lookup_singleton_ne.
Qed.

(** X10: under a layout without a button named [sticks], after any sequence
    of reports handled from the constructor's snapshot on, reports that
    were too short included, the snapshot still holds a stick record,
    every number in it is a byte under one of the two trigger keys,
    every flag in it is under a d-pad direction or a tracked button's
    name, and stick records are under [sticks] only; and the only
    exception [_recordButtonStates] can throw on the next report is the
    [RangeError] of a missing byte. *)
Theorem snapshot_stays_well_typed (BUTTON_MAP : list ButtonMapping.t)
  (dpad_byte l2_analog_byte r2_analog_byte : Z) (reports : list DataView)
  (data : DataView) :
  "sticks" ∉ ButtonMapping.name <$> BUTTON_MAP →
  let bs := record_reports BUTTON_MAP dpad_byte l2_analog_byte r2_analog_byte
              reports initial_button_states in
  well_typed_snapshot BUTTON_MAP bs
  ∧ ∀ e bs',
      _recordButtonStates data BUTTON_MAP dpad_byte l2_analog_byte r2_analog_byte bs
      = (Throw e, bs') →
      e = RangeError.
Proof.
  intros Hno bs.
  assert (Hwt : well_typed_snapshot BUTTON_MAP bs).
  { subst bs. unfold record_reports.
    generalize (initial_snapshot_well_typed BUTTON_MAP).
    generalize initial_button_states as bs0.
    induction reports as [|d rest IH]; intros bs0 Hbs0; [exact Hbs0 |].
    simpl. apply IH.
    destruct (_recordButtonStates d BUTTON_MAP dpad_byte l2_analog_byte
                r2_analog_byte bs0) as [r bs1] eqn:Hrun.
    exact (preserves_recordButtonStates _ _ _ _ _ Hno _ _ _ Hbs0 Hrun). }
  split; [exact Hwt |]. intros e bs' Hrun.
  destruct (decode data BUTTON_MAP dpad_byte l2_analog_byte r2_analog_byte)
    as [[newSticks props]|e0] eqn:Hdec.
  - rewrite (recordButtonStates_decoded _ _ _ _ _ _ _ bs Hdec), bind_run in Hrun.
    destruct (recordSticks_run newSticks bs) as [(cur & _ & Hr)|[Hnot _]];
      [| by destruct Hwt].
    rewrite Hr in Hrun.
    destruct (_sticksChanged cur newSticks);
      match type of Hrun with context [recordAll ?p ?c ?b] =>
        destruct (recordAll_total p c b) as (ch' & bs1 & Hall) end;
      rewrite Hall in Hrun; discriminate.
  - pose proof (decode_Throw_RangeError _ _ _ _ _ _ Hdec) as ->.
    destruct (recordButtonStates_undecoded _ _ _ _ _ _ bs Hdec) as (e' & bs1 & H & He).
    rewrite H in Hrun. injection Hrun as <- _. apply He, Hwt.
Qed.

Lemma snapshot_stays_well_typed_witness :
  ("sticks" ∉ ButtonMapping.name <$> sample_buttonMap)
  ∧ well_typed_snapshot sample_buttonMap
      (record_reports sample_buttonMap 4 7 8 [short_report; sample_report]
         initial_button_states).
Proof.
  assert (H : "sticks" ∉ ButtonMapping.name <$> sample_buttonMap)
    by (apply (bool_decide_unpack _); vm_compute; exact I).
  split; [exact H |].
  exact (proj1 (snapshot_stays_well_typed sample_buttonMap 4 7 8
                  [short_report; sample_report] [] H)).
Defined.

(** ** A stick movement in a report that fails *)

Lemma recordProp_keeps_sticks (x : option jsval) (k : string) (v : jsval)
  (ch : InputChanges) :
  k ≠ "sticks" → preserves (λ bs, bs !! "sticks" = x) (recordProp k v ch).
Proof.
  intros Hk bs r bs' Hbs. unfold recordProp.
  destruct (strict_neq (bs !! k) v); intros [= _ <-]; [| done].
  by rewrite lookup_insert_ne.
Qed.

Lemma fields_keep_sticks (x : option jsval) (data : DataView)
  (BUTTON_MAP : list ButtonMapping.t) (dpad_byte l2_analog_byte r2_analog_byte : Z)
  (ch : InputChanges) :
  "sticks" ∉ ButtonMapping.name <$> BUTTON_MAP →
  preserves (λ bs, bs !! "sticks" = x)
    (changes ← for_of (recordTrigger data) ch
                 [("l2_analog", l2_analog_byte); ("r2_analog", r2_analog_byte)];
     hatByte ← liftRes (getUint8 data dpad_byte);
     changes ← for_of (recordDpad (Z.land hatByte 0x0f)) changes dpadDirections;
     for_of (recordButton data) changes BUTTON_MAP).
Proof.
  intros Hno. apply preserves_bind.
  { apply preserves_for_of. intros ch' [name byte] Hin. unfold recordTrigger.
    apply preserves_read. intros val _. cbn [fst snd].
    apply recordProp_keeps_sticks.
    rewrite !elem_of_cons, elem_of_nil in Hin.
    destruct Hin as [[= -> _]|[[= -> _]|[]]]; done. }
  intros ch1. apply preserves_read. intros hatByte _.
  apply preserves_bind.
  { apply preserves_for_of. intros ch' dir Hdir. unfold recordDpad.
    apply recordProp_keeps_sticks.
    unfold dpadDirections in Hdir. rewrite !elem_of_cons, elem_of_nil in Hdir.
    destruct Hdir as [->|[->|[->|[->|[]]]]]; done. }
  intros ch2. apply preserves_for_of. intros ch' btn Hbtn. unfold recordButton.
  destruct (is_dpad_name (ButtonMapping.name btn)); [apply preserves_ret |].
  apply preserves_read. intros b _. cbv zeta.
  apply recordProp_keeps_sticks.
  intros Hname. apply Hno. apply list_elem_of_fmap. by exists btn.
Qed.

Lemma recordAll_other_key (props : list (string * jsval)) (ch0 ch : InputChanges)
  (bs0 bs' : ButtonStates) (k : string) :
  k ∉ props.*1 → recordAll props ch0 bs0 = (Ok ch, bs') → ch !! k = ch0 !! k.
Proof.
  revert ch0 bs0. induction props as [|[k' v] props IH]; intros ch0 bs0 Hk.
  - by intros [= <- _].
  - rewrite recordAll_cons. intros (ch1 & bs1 & H1 & Hrest)%bind_Ok_inv.
    cbn in Hk. apply not_elem_of_cons in Hk as [Hne Hk].
    rewrite (IH _ _ Hk Hrest). unfold recordProp in H1.
    destruct (strict_neq (bs0 !! k') v); injection H1 as <- _; [| done].
    by rewrite lookup_insert_ne.
Qed.

Lemma decodeProps_without_sticks (data : DataView) (BUTTON_MAP : list ButtonMapping.t)
  (dpad_byte l2_analog_byte r2_analog_byte : Z) (props : list (string * jsval)) :
  "sticks" ∉ ButtonMapping.name <$> BUTTON_MAP →
  decodeProps data BUTTON_MAP dpad_byte l2_analog_byte r2_analog_byte = Ok props →
  "sticks" ∉ props.*1.
Proof.
  intros Hno [Hkeys _]%decodeProps_keys.
  assert (props.*1 = "l2_analog" :: "r2_analog" :: dpadDirections
                       ++ (ButtonMapping.name <$> tracked_buttons BUTTON_MAP)) as ->
    by (unfold tracked_keys in Hkeys; congruence).
  rewrite 2!not_elem_of_cons, not_elem_of_app. unfold dpadDirections.
  rewrite !not_elem_of_cons. repeat split; try done.
  - apply not_elem_of_nil.
  - intros (btn & Hname & Hin)%list_elem_of_fmap. apply Hno.
    apply list_elem_of_fmap. exists btn. split; [done |].
    unfold tracked_buttons in Hin. by apply list_elem_of_filter in Hin as [_ Hin].
Qed.

(** C3. [_recordButtonStates] takes the stick values from bytes 0 to 3 of
    the report, each byte [v] mapped to
    [Math.round(((v - 127.5) / 128) * 100) / 100], whatever the offsets
    of the layout.  Under a layout without a button named [sticks], on
    every report that has these four bytes and whether the call returns
    or throws further on, the stick record it leaves in the snapshot is
    the one of these values when one of them differs from the stored
    one, and the stored one otherwise; in both cases it compares equal
    to these values; and when the call returns, the change-set holds
    these values under [sticks] exactly when one of them differs.  The
    value of a byte is a whole number of hundredths between -100 and
    100, so it lies in [-1, 1]; byte 0 gives -1, byte 255 gives 1 and
    byte 128 gives 0. *)
Theorem stick_values_from_bytes (b0 b1 b2 b3 : Byte.byte) (rest : DataView)
  (BUTTON_MAP : list ButtonMapping.t) (dpad_byte l2_analog_byte r2_analog_byte : Z)
  (bs bs' : ButtonStates) (current : StickStates.t) (r : Res InputChanges) :
  let value (b : Byte.byte) : float :=
    (Math_round (((Z_to_float (byte_val b) - 127.5) / 128) * 100) / 100)%float in
  let newSticks :=
    StickStates.mk (StickPosition.mk (value b0) (value b1))
                   (StickPosition.mk (value b2) (value b3)) in
  "sticks" ∉ ButtonMapping.name <$> BUTTON_MAP →
  bs !! "sticks" = Some (VSticks current) →
  _recordButtonStates (b0 :: b1 :: b2 :: b3 :: rest) BUTTON_MAP
    dpad_byte l2_analog_byte r2_analog_byte bs = (r, bs') →
  readSticks (b0 :: b1 :: b2 :: b3 :: rest) = Ok newSticks
  ∧ bs' !! "sticks"
    = Some (VSticks (if _sticksChanged current newSticks then newSticks else current))
  ∧ _sticksChanged (if _sticksChanged current newSticks then newSticks else current)
      newSticks = false
  ∧ (∀ ch, r = Ok ch →
       ch !! "sticks" = if _sticksChanged current newSticks
                        then Some (VSticks newSticks) else None)
  ∧ (∀ b : Byte.byte,
       value b = stickValue (byte_val b)
       ∧ num_eq (value b) (Z_to_float (stickHundredths (byte_val b)) / 100)%float = true
       ∧ -100 ≤ stickHundredths (byte_val b) ≤ 100
       ∧ (-1 <=? value b)%float = true ∧ (value b <=? 1)%float = true)
  ∧ value Byte.x00 = (-1)%float
  ∧ value Byte.xff = 1%float
  ∧ value Byte.x80 = 0%float.
Proof.
  intros value newSticks Hno Hcur Hrun.
  change newSticks with (sticks_of_bytes b0 b1 b2 b3) in *.
  split; [reflexivity |].
  assert (Hstep : recordSticks (sticks_of_bytes b0 b1 b2 b3) bs
                  = if _sticksChanged current (sticks_of_bytes b0 b1 b2 b3)
                    then (Ok {["sticks" := VSticks (sticks_of_bytes b0 b1 b2 b3)]},
                          <["sticks" := VSticks (sticks_of_bytes b0 b1 b2 b3)]> bs)
                    else (Ok ∅, bs)).
  { destruct (recordSticks_run (sticks_of_bytes b0 b1 b2 b3) bs)
      as [(cur & Hcur' & Hr)|[Hnone _]]; [| destruct Hnone; by exists current].
    rewrite Hcur in Hcur'. by injection Hcur' as <-. }
  split; [| split; [| split]].
  - rewrite recordButtonStates_run, readSticks_cons, bind_run, Hstep in Hrun.
    destruct (_sticksChanged current (sticks_of_bytes b0 b1 b2 b3)).
    + eapply (fields_keep_sticks (Some (VSticks (sticks_of_bytes b0 b1 b2 b3))));
        [exact Hno | | exact Hrun].
      apply lookup_insert_eq.
    + eapply (fields_keep_sticks (Some (VSticks current))); [exact Hno | | exact Hrun].
      exact Hcur.
  - destruct (_sticksChanged current (sticks_of_bytes b0 b1 b2 b3)) eqn:Hch;
      [apply sticksChanged_same | exact Hch].
  - intros ch ->.
    apply returned_decoded in Hrun as (s1 & props & ch0 & bs0 & Hdec & Hrec & Hall).
    apply decode_Ok in Hdec as [Hs1 Hprops]. rewrite readSticks_cons in Hs1.
    injection Hs1 as <-. rewrite Hstep in Hrec.
    pose proof (decodeProps_without_sticks _ _ _ _ _ _ Hno Hprops) as Hnot.
    rewrite (recordAll_other_key _ _ _ _ _ _ Hnot Hall).
    destruct (_sticksChanged current (sticks_of_bytes b0 b1 b2 b3));
      injection Hrec as <- _; [apply lookup_singleton_eq | apply lookup_empty].
  - split; [| by vm_compute].
    intros b. pose proof (stick_value_checks_byte b) as H.
    unfold stick_value_checks in H.
    repeat (apply andb_prop in H as [H ?]).
    change (value b) with (stickValue (byte_val b)).
    repeat split; try done; lia.
Qed.

Lemma stick_values_from_bytes_witness :
  ("sticks" ∉ ButtonMapping.name <$> sample_buttonMap)
  ∧ initial_button_states !! "sticks" = Some (VSticks sticks_at_zero)
  ∧ _sticksChanged sticks_at_zero moved_sticks = true
  ∧ moved_first_recorded.2 !! "sticks"
    = Some (VSticks (if _sticksChanged sticks_at_zero moved_sticks
                     then moved_sticks else sticks_at_zero))
  ∧ ∀ ch, moved_first_recorded.1 = Ok ch →
          ch !! "sticks" = if _sticksChanged sticks_at_zero moved_sticks
                           then Some (VSticks moved_sticks) else None.
Proof.
  assert (Hno : "sticks" ∉ ButtonMapping.name <$> sample_buttonMap)
    by (apply (bool_decide_unpack _); vm_compute; exact I).
  assert (Hcur : initial_button_states !! "sticks" = Some (VSticks sticks_at_zero))
    by apply lookup_singleton_eq.
  split; [exact Hno | split; [exact Hcur | split; [vm_compute; reflexivity |]]].
  destruct (stick_values_from_bytes Byte.xff Byte.x80 Byte.x80 Byte.x80
              (drop 4 moved_report) sample_buttonMap 4 7 8 initial_button_states
              moved_first_recorded.2 sticks_at_zero moved_first_recorded.1 Hno Hcur
              (surjective_pairing moved_first_recorded))
    as (_ & Hstored & _ & Hpublished & _).
  split; [exact Hstored | exact Hpublished].
Defined.

(** X18: a stick movement that comes in a report too short to be handled
    is stored and never published.  When a report whose stick bytes are
    there makes [_recordButtonStates] throw, and the next report that
    is recorded has the sticks where that report had them, its
    change-set has no [sticks] field, wherever the sticks were before. *)
Theorem stick_move_in_failed_report_is_lost (d1 d2 : DataView)
  (BUTTON_MAP : list ButtonMapping.t) (dpad_byte l2_analog_byte r2_analog_byte : Z)
  (bs bs1 bs2 : ButtonStates) (e : exn) (ch : InputChanges) (sticks : StickStates.t) :
  "sticks" ∉ ButtonMapping.name <$> BUTTON_MAP →
  readSticks d1 = Ok sticks → readSticks d2 = Ok sticks →
  _recordButtonStates d1 BUTTON_MAP dpad_byte l2_analog_byte r2_analog_byte bs
  = (Throw e, bs1) →
  _recordButtonStates d2 BUTTON_MAP dpad_byte l2_analog_byte r2_analog_byte bs1
  = (Ok ch, bs2) →
  ch !! "sticks" = None
  ∧ bs1 !! "sticks" = bs2 !! "sticks"
  ∧ ∃ stored, bs1 !! "sticks" = Some (VSticks stored)
      ∧ _sticksChanged stored sticks = false.
Proof.
  intros Hno Hs1 Hs2 Hrun1 Hrun2.
  assert (Hstored : ∃ stored, bs1 !! "sticks" = Some (VSticks stored)
                      ∧ _sticksChanged stored sticks = false).
  { rewrite recordButtonStates_run, Hs1, bind_run in Hrun1.
    destruct (recordSticks_run sticks bs) as [(cur & Hcur & Hr)|[Hnone Hr]].
    - rewrite Hr in Hrun1.
      destruct (_sticksChanged cur sticks) eqn:Hch.
      + exists sticks. split.
        * eapply (fields_keep_sticks (Some (VSticks sticks))); [exact Hno | | exact Hrun1].
          apply lookup_insert_eq.
        * apply readSticks_Ok in Hs1 as (b0 & b1 & b2 & b3 & rest & _ & ->).
          apply sticksChanged_same.
      + exists cur. split; [| exact Hch].
        eapply (fields_keep_sticks (Some (VSticks cur))); [exact Hno | | exact Hrun1].
        exact Hcur.
    - rewrite Hr in Hrun1. injection Hrun1 as _ <-.
      rewrite recordButtonStates_run, Hs2, bind_run, Hr in Hrun2. discriminate. }
  destruct Hstored as (stored & Hst & Hsame).
  apply returned_decoded in Hrun2 as (newSticks & props & ch0 & bs0 & Hdec & Hrec & Hall).
  apply decode_Ok in Hdec as [Hs2' Hprops]. rewrite Hs2 in Hs2'. injection Hs2' as <-.
  destruct (recordSticks_run sticks bs1) as [(cur & Hcur & Hr)|[Hnone _]];
    [| destruct Hnone; by exists stored].
  rewrite Hst in Hcur. injection Hcur as <-. rewrite Hr, Hsame in Hrec.
  injection Hrec as <- <-.
  apply decodeProps_keys in Hprops as [Hkeys _].
  assert (Hnot : "sticks" ∉ props.*1).
  { assert (props.*1 = "l2_analog" :: "r2_analog" :: dpadDirections
                         ++ (ButtonMapping.name <$> tracked_buttons BUTTON_MAP)) as ->
      by (unfold tracked_keys in Hkeys; congruence).
    rewrite 2!not_elem_of_cons, not_elem_of_app. unfold dpadDirections.
    rewrite !not_elem_of_cons. repeat split; try done.
    - apply not_elem_of_nil.
    - intros (btn & Hname & Hin)%list_elem_of_fmap. apply Hno.
      apply list_elem_of_fmap. exists btn. split; [done |].
      unfold tracked_buttons in Hin. by apply list_elem_of_filter in Hin as [_ Hin]. }
  split; [| split; [| by exists stored]].
  - by rewrite (recordAll_other_key _ _ _ _ _ _ Hnot Hall).
  - pose proof (recordAll_union props ∅ ch bs1 bs1 bs2) as Hu.
    rewrite (left_id_L ∅ (∪)) in Hu. specialize (Hu eq_refl Hall).
    rewrite Hu, lookup_union_r; [done |].
    by rewrite (recordAll_other_key _ _ _ _ _ _ Hnot Hall).
Qed.

Lemma run_thrown {S A} (d : exn) (r : Res A * S) :
  is_Ok r.1 = false → r = (Throw (res_error d r.1), r.2).
Proof. by destruct r as [[a|e] s]. Qed.

Lemma stick_move_in_failed_report_is_lost_witness :
  ("sticks" ∉ ButtonMapping.name <$> sample_buttonMap)
  ∧ is_Ok moved_short_recorded.1 = false
  ∧ is_Ok moved_recorded.1 = true
  ∧ res_value ∅ moved_recorded.1 !! "sticks" = None
  ∧ moved_short_recorded.2 !! "sticks" = moved_recorded.2 !! "sticks".
Proof.
  assert (Hno : "sticks" ∉ ButtonMapping.name <$> sample_buttonMap)
    by (apply (bool_decide_unpack _); vm_compute; exact I).
  assert (H1 : is_Ok moved_short_recorded.1 = false) by (vm_compute; reflexivity).
  assert (H2 : is_Ok moved_recorded.1 = true) by (vm_compute; reflexivity).
  split; [exact Hno | split; [exact H1 | split; [exact H2 |]]].
  destruct (stick_move_in_failed_report_is_lost moved_short_report moved_report
              sample_buttonMap 4 7 8 initial_button_states moved_short_recorded.2
              moved_recorded.2 (res_error RangeError moved_short_recorded.1)
              (res_value ∅ moved_recorded.1) moved_sticks Hno eq_refl eq_refl
              (run_thrown RangeError moved_short_recorded H1)
              (run_returned ∅ moved_recorded H2)) as (Hch & Hkept & _).
  split; [exact Hch | exact Hkept].
Defined.

(** ** The battery text and its [changed] flag *)

Lemma numeral_pretty_N_go (x : N) (s : string) :
  numeral s = true → numeral (pretty_N_go x s) = true.
Proof.
  revert s. induction (N.lt_wf_0 x) as [x _ IH]; intros s Hs.
  assert (x = 0 ∨ 0 < x)%N as [->|Hx] by lia; [by rewrite pretty_N_go_0 |].
  rewrite pretty_N_go_step by done. apply IH; [by apply N.div_lt |].
  simpl. rewrite Hs, andb_true_r.
  unfold pretty_N_char. by repeat case_match.
Qed.

Lemma numeral_String_of_Z (n : Z) : numeral (String_of_Z n) = true.
Proof.
  assert (HN : ∀ x : N, numeral (pretty x) = true).
  { intros x. unfold pretty, pretty_N. case_decide; [done |].
    by apply numeral_pretty_N_go. }
  unfold String_of_Z, pretty, pretty_Z. destruct n as [|p|p]; [done | apply HN |].
  change (numeral (String "-" (pretty (N.pos p))) = true). simpl. apply HN.
Qed.

Lemma append_cons (a : ascii) (s r : string) : String a s +:+ r = String a (s +:+ r).
Proof. reflexivity. Qed.

Lemma append_nil (r : string) : "" +:+ r = r.
Proof. reflexivity. Qed.

(** Two texts that go on after a numeral with a character that is not of
    a numeral have the same numeral. *)
Lemma numeral_prefix_inj (a : ascii) (s1 s2 r1 r2 : string) :
  numeral_char a = false → numeral s1 = true → numeral s2 = true →
  s1 +:+ String a r1 = s2 +:+ String a r2 → s1 = s2 ∧ r1 = r2.
Proof.
  intros Ha. revert s2. induction s1 as [|c1 s1 IH]; intros [|c2 s2] H1 H2;
    rewrite ?append_cons, ?append_nil.
  - by intros [= ->].
  - intros [= <- _]. simpl in H2. by rewrite Ha in H2.
  - intros [= -> _]. simpl in H1. by rewrite Ha in H1.
  - intros [= -> Hrest]. simpl in H1, H2.
    apply andb_true_iff in H1 as [_ H1]. apply andb_true_iff in H2 as [_ H2].
    destruct (IH s2 H1 H2 Hrest) as [-> ->]. done.
Qed.

Lemma string_app_assoc (s1 s2 s3 : string) : (s1 +:+ s2) +:+ s3 = s1 +:+ s2 +:+ s3.
Proof. induction s1 as [|a s1 IH]; [done | by rewrite !append_cons, IH]. Qed.

Lemma batteryPercentToText_shown (l : string → string) (i1 i2 : BatteryInfo.t) :
  _batteryPercentToText l i1 = _batteryPercentToText l i2
  ↔ battery_shown i1 = battery_shown i2.
Proof.
  unfold _batteryPercentToText, battery_shown, join3.
  destruct i1 as [c1 cable1 ch1 e1], i2 as [c2 cable2 ch2 e2]. cbn.
  assert (Hmixed : ∀ c r r', String "<" r ≠ (String_of_Z c +:+ "%") +:+ r').
  { intros c r r' H. pose proof (numeral_String_of_Z c) as Hn.
    destruct (String_of_Z c) as [|a s]; [discriminate |].
    rewrite !append_cons in H. injection H as <- _. discriminate. }
  destruct e1, e2; split; try done.
  - intros H. by apply Hmixed in H.
  - intros H. symmetry in H. by apply Hmixed in H.
  - rewrite !string_app_assoc. intros H.
    apply (numeral_prefix_inj "%") in H as [Hc H];
      [| done | apply numeral_String_of_Z | apply numeral_String_of_Z].
    apply (inj pretty) in Hc as ->.
    repeat apply (inj (String.append _)) in H.
    by destruct ch1, ch2.
  - by intros [= -> ->].
Qed.

Section InputComposition.
Variable l : string → string.
Variable cfg : InputConfig.t.
Variable parseBatteryStatus : DataView → Res BatteryInfo.t.

(** What a result holds of the touchpad and of the battery is what the
    tracker holds once the report is handled. *)
Lemma result_is_tracker_state (data : DataView) (t t' : Tracker)
  (r : ProcessedInputResult.t) :
  processControllerInput_result l cfg parseBatteryStatus data t = (Ok r, t') →
  ProcessedInputResult.touchPoints r = touchPoints t'
  ∧ ProcessedInputResult.batteryStatus r = batteryStatus t'
  ∧ BatteryStatus.bat_txt (ProcessedInputResult.batteryStatus r) = _lastBatteryText t'.
Proof.
  rewrite processControllerInput_result_run.
  destruct (_recordButtonStates _ _ _ _ _ _) as [[changes|e] bs']; [| discriminate].
  cbv zeta. unfold finishInput.
  destruct (truthy_offset (InputConfig.touchpadOffset cfg)) as [o|].
  - destruct (_parseTouchPoints data o) as [pts|e]; [| discriminate].
    destruct (parseBatteryStatus data) as [info|e]; [| discriminate].
    by intros [= <- <-].
  - destruct (parseBatteryStatus data) as [info|e]; [| discriminate].
    by intros [= <- <-].
Qed.

(** Without a touchpad offset, or with the offset 0, the stored touch
    points stay as they are, whether the report is handled to the end
    or not. *)
Lemma no_offset_keeps_touchPoints (data : DataView) (t : Tracker) :
  truthy_offset (InputConfig.touchpadOffset cfg) = None →
  touchPoints (processControllerInput_result l cfg parseBatteryStatus data t).2
  = touchPoints t.
Proof.
  intros Hno. rewrite processControllerInput_result_run, Hno.
  destruct (_recordButtonStates _ _ _ _ _ _) as [[changes|e] bs']; [| done].
  cbv zeta. unfold finishInput. by destruct (parseBatteryStatus data).
Qed.

(** The text kept for the next comparison changes only when a battery
    reading was parsed. *)
Lemma failed_report_keeps_battery (data : DataView) (t t' : Tracker) (e : exn) :
  processControllerInput_result l cfg parseBatteryStatus data t = (Throw e, t') →
  _lastBatteryText t' = _lastBatteryText t ∧ batteryStatus t' = batteryStatus t.
Proof.
  rewrite processControllerInput_result_run.
  destruct (_recordButtonStates _ _ _ _ _ _) as [[changes|e0] bs']; [| by intros [= _ <-]].
  cbv zeta. unfold finishInput.
  destruct (truthy_offset (InputConfig.touchpadOffset cfg)) as [o|].
  - destruct (_parseTouchPoints data o) as [pts|e1]; [| by intros [= _ <-]].
    destruct (parseBatteryStatus data) as [info|e1]; [discriminate | by intros [= _ <-]].
  - destruct (parseBatteryStatus data) as [info|e1]; [discriminate | by intros [= _ <-]].
Qed.

(** The next result's [changed] after the reports [failed], none of
    which was handled to the end. *)
Lemma changed_after_failed (failed : list DataView) (data : DataView)
  (t t' : Tracker) (r : ProcessedInputResult.t) :
  none_handled l cfg parseBatteryStatus failed t = true →
  processControllerInput_result l cfg parseBatteryStatus data
    (after_reports l cfg parseBatteryStatus failed t) = (Ok r, t') →
  ∃ info, parseBatteryStatus data = Ok info
    ∧ BatteryStatus.changed (ProcessedInputResult.batteryStatus r)
      = negb (String.eqb (_batteryPercentToText l info) (_lastBatteryText t)).
Proof.
  intros Hfailed Hrun.
  assert (Hlast : _lastBatteryText (after_reports l cfg parseBatteryStatus failed t)
                  = _lastBatteryText t).
  { clear Hrun. revert t Hfailed. unfold after_reports.
    induction failed as [|d rest IH]; intros t Hfailed; [done |].
    simpl in *. apply andb_true_iff in Hfailed as [Hd Hrest].
    rewrite (IH _ Hrest).
    destruct (processControllerInput_result l cfg parseBatteryStatus d t) as [[r0|e] t0] eqn:H;
      [discriminate |].
    apply failed_report_keeps_battery in H as [H _]. exact H. }
  apply result_independent_parts in Hrun as (_ & _ & _ & info & Hinfo & _ & Hch & _).
  exists info. by rewrite Hch, Hlast.
Qed.

End InputComposition.

(** X11: of two reports handled to the end, with any number of reports in
    between that were not, the second result's [changed] is raised
    exactly when what the battery text shows differs between the two
    readings: an error on one side only or, without an error, another
    capacity or another charging state.  The cable alone never raises
    it, and under an error the capacity does not either. *)
Theorem battery_changed_when_shown_differs (l : string → string) (cfg : InputConfig.t)
  (parseBatteryStatus : DataView → Res BatteryInfo.t)
  (d1 d2 : DataView) (failed : list DataView) (t0 t1 t2 : Tracker)
  (r1 r2 : ProcessedInputResult.t) (i1 i2 : BatteryInfo.t) :
  processControllerInput_result l cfg parseBatteryStatus d1 t0 = (Ok r1, t1) →
  none_handled l cfg parseBatteryStatus failed t1 = true →
  processControllerInput_result l cfg parseBatteryStatus d2
    (after_reports l cfg parseBatteryStatus failed t1) = (Ok r2, t2) →
  parseBatteryStatus d1 = Ok i1 → parseBatteryStatus d2 = Ok i2 →
  BatteryStatus.changed (ProcessedInputResult.batteryStatus r2)
  = negb (bool_decide (battery_shown i1 = battery_shown i2)).
Proof.
  intros H1 Hfailed H2 Hi1 Hi2.
  destruct (changed_after_failed l cfg parseBatteryStatus failed d2 t1 t2 r2 Hfailed H2)
    as (info2 & Hinfo2 & ->).
  rewrite Hi2 in Hinfo2. injection Hinfo2 as <-.
  pose proof (result_is_tracker_state l cfg parseBatteryStatus d1 t0 t1 r1 H1)
    as (_ & _ & <-).
  apply result_independent_parts in H1 as (_ & _ & _ & info1 & Hinfo1 & -> & _).
  rewrite Hi1 in Hinfo1. injection Hinfo1 as <-.
  f_equal. destruct (String.eqb_spec (_batteryPercentToText l i2)
                       (_batteryPercentToText l i1)) as [Heq|Hne]; symmetry.
  - apply bool_decide_eq_true. symmetry. by apply (batteryPercentToText_shown l).
  - apply bool_decide_eq_false. intros H. apply Hne. symmetry.
    by apply (batteryPercentToText_shown l).
Qed.

Lemma battery_changed_when_shown_differs_witness :
  sample_result_first = (Ok (res_value no_result sample_result_first.1), sample_result_first.2)
  ∧ none_handled id sample_inputConfig sample_parseBatteryStatus [short_report]
      sample_result_first.2 = true
  ∧ sample_result_second
    = (Ok (res_value no_result sample_result_second.1), sample_result_second.2)
  ∧ BatteryStatus.changed
      (ProcessedInputResult.batteryStatus (res_value no_result sample_result_second.1))
    = negb (bool_decide (battery_shown (BatteryInfo.mk 55 true false false)
                         = battery_shown (BatteryInfo.mk 55 true false false))).
Proof.
  assert (H1 : sample_result_first
               = (Ok (res_value no_result sample_result_first.1), sample_result_first.2))
    by (apply run_returned; vm_compute; reflexivity).
  assert (Hf : none_handled id sample_inputConfig sample_parseBatteryStatus [short_report]
                 sample_result_first.2 = true) by (vm_compute; reflexivity).
  assert (H2 : sample_result_second
               = (Ok (res_value no_result sample_result_second.1), sample_result_second.2))
    by (apply run_returned; vm_compute; reflexivity).
  split; [exact H1 | split; [exact Hf | split; [exact H2 |]]].
  exact (battery_changed_when_shown_differs id sample_inputConfig sample_parseBatteryStatus
           sample_report sample_report [short_report] initial_tracker _ _ _ _ _ _
           H1 Hf H2 eq_refl eq_refl).
Defined.

(** X12: handling a report touches neither the device nor the unsaved-changes
    flag nor the handler.  The handler is called once, when there is one
    and the report was handled to the end, and with the touch points,
    the battery status and the battery text that the manager holds from
    then on; in every other case nothing is published.  Without a
    touchpad offset, or with the offset 0, the stored touch points stay
    as they were. *)
Theorem input_handler_sees_tracker {Dev : Type} (currentController : BaseController.t Dev)
  (l : string → string) (data : DataView) (w : World) :
  let r := processControllerInput currentController l data w in
  let t' := tracker (this r.2) in
  device r.2 = device w
  ∧ has_changes_to_write (this r.2) = has_changes_to_write (this w)
  ∧ inputHandler (this r.2) = inputHandler (this w)
  ∧ (if is_Ok r.1 && inputHandler (this w)
     then ∃ res, trace r.2 = trace w ++ [EvInput res]
            ∧ ProcessedInputResult.touchPoints res = touchPoints t'
            ∧ ProcessedInputResult.batteryStatus res = batteryStatus t'
            ∧ BatteryStatus.bat_txt (ProcessedInputResult.batteryStatus res)
              = _lastBatteryText t'
     else trace r.2 = trace w)
  ∧ (truthy_offset (InputConfig.touchpadOffset
                      (BaseController.getInputConfig currentController)) = None →
     touchPoints t' = touchPoints (tracker (this w))).
Proof.
  intros r t'. subst r t'. rewrite processControllerInput_run.
  pose proof (no_offset_keeps_touchPoints l
                (BaseController.getInputConfig currentController)
                (BaseController.parseBatteryStatus currentController)
                data (tracker (this w))) as Hno.
  destruct (processControllerInput_result l _ _ data (tracker (this w)))
    as [[res|e] t1] eqn:Hrun; cbn.
  - repeat split; [| exact Hno].
    destruct (inputHandler (this w)); [| done].
    exists res. split; [done |]. by apply result_is_tracker_state in Hrun.
  - repeat split. exact Hno.
Qed.

(** * Further properties of the manager *)

(** ** The save button and the flag *)

Lemma save_events_snoc (tr : list Event) (e : Event) :
  save_events (tr ++ [e])
  = save_events tr ++ match e with EvSaveButton b => [b] | _ => [] end.
Proof. unfold save_events. rewrite omap_app. by destruct e. Qed.

Lemma save_events_quiet (tr : list Event) (e : Event) :
  (∀ b, e ≠ EvSaveButton b) → save_events (tr ++ [e]) = save_events tr.
Proof.
  intros He. rewrite save_events_snoc. destruct e; try by rewrite app_nil_r.
  by destruct (He hasChanges).
Qed.

Lemma alternates_snoc (bs : list bool) (b : bool) :
  alternates bs = true → last bs ≠ Some b → alternates (bs ++ [b]) = true.
Proof.
  induction bs as [|b0 [|b1 rest] IH]; [done | |].
  - intros _ Hlast. simpl in *. rewrite andb_true_r. destruct b0, b; try done.
    all: by destruct Hlast.
  - intros [Hne Hrest]%andb_true_iff Hlast.
    change (negb (eqb b0 b1) && alternates ((b1 :: rest) ++ [b]) = true).
    rewrite Hne. by apply IH.
Qed.

Section Keeps.
Context {Dev : Type}.
Implicit Types w : @World Dev.

Lemma keeps_ret {A} (I : @World Dev → Prop) (a : A) : keeps I (mret a).
Proof. by intros w. Qed.

Lemma keeps_throw {A} (I : @World Dev → Prop) (e : exn) : keeps I (throw (A := A) e).
Proof. by intros w. Qed.

Lemma keeps_bind {A B} (I : @World Dev → Prop) (m : M (@World Dev) A)
  (k : A → M (@World Dev) B) :
  keeps I m → (∀ a, keeps I (k a)) → keeps I (m ≫= k).
Proof.
  intros Hm Hk w Hw. rewrite bind_run. specialize (Hm w Hw).
  destruct (m w) as [[a|e] w1]; [by apply Hk | done].
Qed.

Lemma keeps_try_catch {A} (I : @World Dev → Prop) (m : M (@World Dev) A)
  (h : exn → M (@World Dev) A) :
  keeps I m → (∀ e, keeps I (h e)) → keeps I (try_catch m h).
Proof.
  intros Hm Hh w Hw. unfold try_catch. specialize (Hm w Hw).
  destruct (m w) as [[a|e] w1]; [done | by apply Hh].
Qed.

Lemma keeps_for_count (I : @World Dev → Prop) (n : nat) (i : Z)
  (body : Z → M (@World Dev) unit) :
  (∀ j, keeps I (body j)) → keeps I (for_count n i body).
Proof.
  intros Hbody. revert i. induction n as [|n IH]; intros i; [by intros w |].
  simpl. apply keeps_bind; [apply Hbody | intros _; apply IH].
Qed.

Lemma keeps_if {A} (I : @World Dev → Prop) (b : bool) (m1 m2 : M (@World Dev) A) :
  keeps I m1 → keeps I m2 → keeps I (if b then m1 else m2).
Proof. by destruct b. Qed.

(** A step that leaves the flag and the save button alone. *)
Lemma keeps_quiet {A} (m : M (@World Dev) A) :
  (∀ w, has_changes_to_write (this (m w).2) = has_changes_to_write (this w)
        ∧ save_events (trace (m w).2) = save_events (trace w)) →
  keeps save_button_follows_flag m.
Proof.
  intros Hm w (Hset & Hlast & Halt). destruct (Hm w) as [Hflag Hev].
  unfold save_button_follows_flag. by rewrite Hflag, Hev.
Qed.

Lemma keeps_emit (e : Event) :
  (∀ b, e ≠ EvSaveButton b) → keeps save_button_follows_flag (emit (Dev := Dev) e).
Proof.
  intros He. apply keeps_quiet. intros w. split; [done |].
  by apply save_events_quiet.
Qed.

Lemma keeps_request {A} (op : DriverOp) (run : M Dev A) :
  keeps save_button_follows_flag (request op run).
Proof.
  apply keeps_quiet. intros w. rewrite request_run. split; [done |].
  by apply save_events_quiet.
Qed.

Lemma keeps_setHasChangesToWrite (hasChanges : bool) :
  keeps save_button_follows_flag (setHasChangesToWrite (Dev := Dev) hasChanges).
Proof.
  intros w (Hset & Hlast & Halt). rewrite setHasChangesToWrite_run. cbn [snd].
  case_bool_decide as Hflag; [done |].
  split; [| split]; cbn [trace this has_changes_to_write set_has_changes_to_write].
  - by eexists.
  - by rewrite save_events_snoc, last_snoc.
  - rewrite save_events_snoc. apply alternates_snoc; [done |]. by rewrite Hlast.
Qed.

Lemma keeps_queryNvStatus (cc : BaseController.t Dev) (h : bool) :
  keeps save_button_follows_flag (queryNvStatus cc h).
Proof.
  apply keeps_quiet. intros w. rewrite queryNvStatus_run. split; [done |].
  cbn [snd trace]. unfold save_events. rewrite !omap_app. cbn.
  destruct (BaseController.queryNvStatus cc (device w)) as [[nv|e] d']; cbn;
    [destruct h |]; cbn; by rewrite app_nil_r.
Qed.

Lemma keeps_processControllerInput (cc : BaseController.t Dev) (l : string → string)
  (data : DataView) :
  keeps save_button_follows_flag (processControllerInput cc l data).
Proof.
  apply keeps_quiet. intros w. rewrite processControllerInput_run.
  destruct (processControllerInput_result l _ _ data (tracker (this w))) as [[r|e] t'];
    (split; [done |]); cbn [snd trace]; [| done].
  destruct (inputHandler (this w)); [| done]. by apply save_events_quiet.
Qed.

Ltac keeps_step :=
  first
    [ apply keeps_ret | apply keeps_throw | apply keeps_request
    | apply keeps_setHasChangesToWrite | apply keeps_queryNvStatus
    | apply keeps_emit; by intros ?
    | apply keeps_if
    | apply keeps_for_count; intros ?
    | apply keeps_try_catch; [| intros ?]
    | apply keeps_bind; [| intros ?] ].

Variable currentController : BaseController.t Dev.
Variable driver_flash : M Dev FlashResult.t.
Variable l : string → string.
Variable handleNvStatusUpdate : bool.

Lemma keeps_flash : keeps save_button_follows_flag (flash driver_flash).
Proof.
  unfold flash. apply keeps_bind; [| intros res; repeat keeps_step].
  apply keeps_quiet. intros w. unfold zoom.
  by destruct (driver_flash (device w)).
Qed.

Lemma keeps_nvsUnlock :
  keeps save_button_follows_flag (nvsUnlock currentController handleNvStatusUpdate).
Proof. unfold nvsUnlock. repeat keeps_step. Qed.

Lemma keeps_nvsLock :
  keeps save_button_follows_flag (nvsLock currentController l handleNvStatusUpdate).
Proof. unfold nvsLock. repeat keeps_step. Qed.

Lemma keeps_calibrateSticksBegin :
  keeps save_button_follows_flag (calibrateSticksBegin currentController l).
Proof. unfold calibrateSticksBegin. repeat keeps_step. Qed.

Lemma keeps_calibrateSticksSample :
  keeps save_button_follows_flag (calibrateSticksSample currentController l).
Proof. unfold calibrateSticksSample. repeat keeps_step. Qed.

Lemma keeps_calibrateSticksEnd :
  keeps save_button_follows_flag (calibrateSticksEnd currentController l).
Proof. unfold calibrateSticksEnd. repeat keeps_step. Qed.

Lemma keeps_calibrateRangeBegin :
  keeps save_button_follows_flag (calibrateRangeBegin currentController l).
Proof. unfold calibrateRangeBegin. repeat keeps_step. Qed.

Lemma keeps_calibrateRangeOnClose :
  keeps save_button_follows_flag (calibrateRangeOnClose currentController l).
Proof. unfold calibrateRangeOnClose. repeat keeps_step. Qed.

Lemma keeps_calibrateSticks :
  keeps save_button_follows_flag (calibrateSticks currentController l).
Proof.
  unfold calibrateSticks.
  apply keeps_try_catch; [| intros e; repeat keeps_step].
  repeat first
    [ apply keeps_calibrateSticksBegin | apply keeps_calibrateSticksSample
    | apply keeps_calibrateSticksEnd | keeps_step ].
Qed.

Lemma keeps_call (c : Call) (w : @World Dev) :
  save_button_follows_flag w →
  save_button_follows_flag (call currentController driver_flash l handleNvStatusUpdate c w).
Proof.
  destruct c; cbn [call].
  - intros H. by apply (keeps_quiet setInputHandler).
  - apply keeps_queryNvStatus.
  - apply keeps_setHasChangesToWrite.
  - apply keeps_flash.
  - apply keeps_nvsUnlock.
  - apply keeps_nvsLock.
  - apply keeps_calibrateSticksBegin.
  - apply keeps_calibrateSticksSample.
  - apply keeps_calibrateSticksEnd.
  - apply keeps_calibrateRangeBegin.
  - apply keeps_calibrateRangeOnClose.
  - apply keeps_calibrateSticks.
  - apply keeps_processControllerInput.
Qed.

End Keeps.

(** X13: from [initControllerManager] on, and after any calls on the
    manager, whether they returned or threw, the unsaved-changes flag
    is set (it is [null] no more), the last state given to the save
    button is the flag, and the button was never given the same state
    twice in a row. *)
Theorem save_button_always_follows_flag {Dev : Type}
  (currentController : BaseController.t Dev) (driver_flash : M Dev FlashResult.t)
  (l : string → string) (handleNvStatusUpdate : bool) (d : Dev) (cs : list Call) :
  save_button_follows_flag
    (session currentController driver_flash l handleNvStatusUpdate d cs).
Proof.
  unfold session.
  assert (Hinit : save_button_follows_flag (initControllerManager d)).
  { unfold initControllerManager. rewrite setHasChangesToWrite_run.
    repeat split. by eexists. }
  revert Hinit. generalize (initControllerManager d) as w.
  induction cs as [|c rest IH]; intros w Hw; [exact Hw |].
  simpl. apply IH. by apply keeps_call.
Qed.

(** ** [flash] and [nvsUnlock] *)

(** X14: [flash] disables the save button and clears the flag whenever
    the driver's flash returns, also when the result it returns says
    that nothing was written; the result is passed on as it is.  When
    the driver throws, the flag and the button stay as they were. *)
Theorem flash_clears_flag_on_any_result {Dev : Type} (driver_flash : M Dev FlashResult.t)
  (w : @World Dev) :
  let r := flash driver_flash w in
  let answer := driver_flash (device w) in
  r.1 = answer.1
  ∧ device r.2 = answer.2
  ∧ tracker (this r.2) = tracker (this w)
  ∧ inputHandler (this r.2) = inputHandler (this w)
  ∧ (if is_Ok answer.1
     then has_changes_to_write (this r.2) = Some false
          ∧ trace r.2 = trace w ++ (if bool_decide (has_changes_to_write (this w) = Some false)
                                    then [] else [EvSaveButton false])
     else has_changes_to_write (this r.2) = has_changes_to_write (this w)
          ∧ trace r.2 = trace w).
Proof.
  intros r answer. subst r answer. unfold flash. rewrite bind_run. unfold zoom.
  destruct (driver_flash (device w)) as [[res|e] d'] eqn:Hd; cbn [fst snd is_Ok]; [| done].
  rewrite bind_run, setHasChangesToWrite_run. cbn [fst snd this has_changes_to_write].
  change (has_changes_to_write (this (set_device d' w)))
    with (has_changes_to_write (this w)).
  case_bool_decide as Hflag; cbn; [by rewrite app_nil_r | done].
Qed.

(** X15: [nvsUnlock] does not look at the driver's answer.  Whatever the
    answer says, a refusal included, the NVS status is queried next and
    given to the status handler if there is one, and [nvsUnlock]
    returns; the manager's own state is untouched. *)
Theorem nvs_unlock_ignores_answer {Dev : Type} (currentController : BaseController.t Dev)
  (handleNvStatusUpdate : bool) (w : @World Dev)
  (res : NvResult.t) (nv : NvStatus.t) (d1 d2 : Dev) :
  BaseController.nvsUnlock currentController (device w) = (Ok res, d1) →
  BaseController.queryNvStatus currentController d1 = (Ok nv, d2) →
  nvsUnlock currentController handleNvStatusUpdate w
  = (Ok tt,
     mkWorld (this w) d2
       (trace w ++ [EvDriver OpNvsUnlock; EvDriver OpQueryNvStatus]
        ++ (if handleNvStatusUpdate then [EvNvStatusUpdate nv] else []))).
Proof.
  intros Hunlock Hquery. unfold nvsUnlock.
  rewrite bind_run, (request_returns _ _ _ _ _ Hunlock).
  rewrite bind_run, queryNvStatus_run. cbn [device this trace fst snd].
  rewrite Hquery. cbn [fst snd]. unfold mret, M_ret, ret.
  by rewrite <- !app_assoc.
Qed.

Lemma nvs_unlock_ignores_answer_witness :
  NvResult.ok unlock_refused = false
  ∧ nvsUnlock unlock_refusing_controller true sample_world
    = (Ok tt,
       mkWorld (this sample_world) tt
         (trace sample_world
          ++ [EvDriver OpNvsUnlock; EvDriver OpQueryNvStatus]
          ++ [EvNvStatusUpdate (NvStatus.mk "locked" true)])).
Proof.
  split; [reflexivity |].
  exact (nvs_unlock_ignores_answer unlock_refusing_controller true sample_world
           unlock_refused (NvStatus.mk "locked" true) tt tt eq_refl eq_refl).
Defined.

(** ** The requests of a stick calibration *)

Lemma driver_ops_app (tr tr' : list Event) :
  driver_ops (tr ++ tr') = driver_ops tr ++ driver_ops tr'.
Proof. apply omap_app. Qed.

Section Requests.
Context {Dev : Type}.
Implicit Types w : @World Dev.

Lemma requests_ret {A} (a : A) : requests (Dev := Dev) (mret a) [].
Proof. intros w. split; [done |]. exists []. by rewrite app_nil_r. Qed.

Lemma requests_throw {A} (e : exn) (ops : list DriverOp) :
  requests (Dev := Dev) (throw (A := A) e) ops.
Proof.
  intros w. split; [done |]. exists []. rewrite app_nil_r. split; [done |].
  apply prefix_nil.
Qed.

Lemma requests_emit (e : Event) :
  (∀ op, e ≠ EvDriver op) → requests (Dev := Dev) (emit e) [].
Proof.
  intros He w. split; [done |]. exists [e]. split; [done |].
  destruct e; try done. by destruct (He op).
Qed.

Lemma requests_request {A} (op : DriverOp) (run : M Dev A) : requests (request op run) [op].
Proof.
  intros w. rewrite request_run. split; [done |]. exists [EvDriver op].
  split; [done |]. cbn [fst]. by destruct (is_Ok _).
Qed.

Lemma requests_bind {A B} (m : M (@World Dev) A) (k : A → M (@World Dev) B)
  (ops1 ops2 ops : list DriverOp) :
  ops = ops1 ++ ops2 →
  requests m ops1 → (∀ a, requests (k a) ops2) → requests (m ≫= k) ops.
Proof.
  intros -> Hm Hk w. rewrite bind_run.
  destruct (Hm w) as (Hthis & evs1 & Htr & Hops).
  destruct (m w) as [[a|e] w1]; cbn [fst snd is_Ok] in *.
  - destruct (Hk a w1) as (Hthis2 & evs2 & Htr2 & Hops2).
    split; [congruence |]. exists (evs1 ++ evs2).
    split; [by rewrite Htr2, Htr, app_assoc |].
    rewrite driver_ops_app, Hops.
    destruct (is_Ok _); [by rewrite Hops2 | by apply prefix_app].
  - split; [done |]. exists evs1. split; [done |]. by apply prefix_app_r.
Qed.

Lemma requests_if {A} (b : bool) (m1 m2 : M (@World Dev) A) (ops : list DriverOp) :
  requests m1 ops → requests m2 ops → requests (if b then m1 else m2) ops.
Proof. by destruct b. Qed.

Lemma requests_for_count (n : nat) (i : Z) (body : Z → M (@World Dev) unit)
  (op : DriverOp) :
  (∀ j, requests (body j) [op]) → requests (for_count n i body) (replicate n op).
Proof.
  intros Hbody. revert i. induction n as [|n IH]; intros i; [apply requests_ret |].
  simpl. eapply (requests_bind _ _ [op]); [done | apply Hbody | intros _; apply IH].
Qed.

Variable currentController : BaseController.t Dev.
Variable l : string → string.

Lemma requests_calibrateSticksBegin :
  requests (calibrateSticksBegin currentController l) [OpCalibrateSticksBegin].
Proof.
  unfold calibrateSticksBegin.
  eapply (requests_bind _ _ [_] []); [done | apply requests_request | intros res].
  apply requests_if; [apply requests_throw | apply requests_ret].
Qed.

Lemma requests_calibrateSticksSample :
  requests (calibrateSticksSample currentController l) [OpCalibrateSticksSample].
Proof.
  unfold calibrateSticksSample.
  eapply (requests_bind _ _ [_] []); [done | apply requests_request | intros res].
  apply requests_if; [| apply requests_ret].
  eapply (requests_bind _ _ [] []); [done | by apply requests_emit | intros _].
  apply requests_throw.
Qed.

Lemma progress_then_return {A} (p : float) (a : A) w :
  (progressCallback p;; mret a) w
  = (Ok a, mkWorld (this w) (device w) (trace w ++ [EvProgress p])).
Proof. reflexivity. Qed.

Lemma sleep_then_throw {A} (ms : Z) (e : exn) w :
  (sleep ms;; throw (A := A) e) w
  = (Throw e, mkWorld (this w) (device w) (trace w ++ [EvSleep ms])).
Proof. reflexivity. Qed.

(** The end of the calibration, and what follows it. *)
Lemma requests_calibrateSticksEnd {A} (a : A) (Q : A → Prop) :
  Q a →
  requests_then_flags
    (calibrateSticksEnd currentController l;; progressCallback 100;; mret a)
    [OpCalibrateSticksEnd] Q.
Proof.
  intros HQ w. rewrite bind_run. unfold calibrateSticksEnd.
  rewrite bind_run, request_run. cbn [fst snd].
  destruct (BaseController.calibrateSticksEnd currentController (device w))
    as [[res|e] d']; cbn [fst snd].
  - destruct (CalibrationResult.ok res); cbn [negb].
    + rewrite setHasChangesToWrite_run. cbn [this has_changes_to_write fst snd].
      case_bool_decide as Hflag; rewrite progress_then_return.
      * exists [EvDriver OpCalibrateSticksEnd; EvProgress 100].
        split; [cbn; by rewrite <- app_assoc | done].
      * exists [EvDriver OpCalibrateSticksEnd; EvSaveButton true; EvProgress 100].
        split; [cbn; by rewrite <- !app_assoc | done].
    + rewrite sleep_then_throw. exists [EvDriver OpCalibrateSticksEnd; EvSleep 500].
      split; [cbn; by rewrite <- app_assoc | done].
  - exists [EvDriver OpCalibrateSticksEnd]. done.
Qed.

Lemma requests_then {A B} (m : M (@World Dev) A) (k : A → M (@World Dev) B)
  (ops1 ops2 ops : list DriverOp) (Q : B → Prop) :
  ops = ops1 ++ ops2 →
  requests m ops1 → (∀ a, requests_then_flags (k a) ops2 Q) →
  requests_then_flags (m ≫= k) ops Q.
Proof.
  intros -> Hm Hk w. rewrite bind_run.
  destruct (Hm w) as (Hthis & evs1 & Htr & Hops).
  destruct (m w) as [[a|e] w1]; cbn [fst snd is_Ok] in *.
  - destruct (Hk a w1) as (evs2 & Htr2 & Hpost).
    exists (evs1 ++ evs2). split; [by rewrite Htr2, Htr, app_assoc |].
    rewrite driver_ops_app, Hops.
    destruct ((k a w1).1) as [b|e].
    + destruct Hpost as (-> & HQ & Hflag). done.
    + destruct Hpost as [Hpre Hthis2]. split; [by apply prefix_app | congruence].
  - exists evs1. split; [done |]. split; [by apply prefix_app_r | done].
Qed.

End Requests.

(** X16: whatever the driver answers, the requests [calibrateSticks]
    makes are the first ones of: begin, five samples, end, in this
    order.  When it returns, all seven were made, the response says
    success and the unsaved-changes flag is raised; when it throws, the
    manager's own state is as before and the last thing done was to log
    the failure. *)
Theorem stick_calibration_protocol {Dev : Type} (currentController : BaseController.t Dev)
  (l : string → string) (w : @World Dev) :
  let r := calibrateSticks currentController l w in
  ∃ evs, trace r.2 = trace w ++ evs
    ∧ driver_ops evs `prefix_of` stick_protocol
    ∧ match r.1 with
      | Ok res => driver_ops evs = stick_protocol
                  ∧ CalibrationResponse.success res = true
                  ∧ has_changes_to_write (this r.2) = Some true
      | Throw e => this r.2 = this w
                   ∧ last evs = Some (EvLa "multi_calibrate_sticks_failed")
      end.
Proof.
  intros r. subst r. unfold calibrateSticks.
  match goal with |- context [try_catch ?body _] =>
    assert (Hbody : requests_then_flags body stick_protocol
                      (λ res, CalibrationResponse.success res = true)) end.
  { set (samples := replicate (Z.to_nat sampleCount) OpCalibrateSticksSample).
    set (rest := samples ++ [OpCalibrateSticksEnd]).
    apply (requests_then _ _ [] ([OpCalibrateSticksBegin] ++ rest));
      [done | by apply requests_emit | intros _].
    apply (requests_then _ _ [] ([OpCalibrateSticksBegin] ++ rest));
      [done | by apply requests_emit | intros _].
    apply (requests_then _ _ [OpCalibrateSticksBegin] rest);
      [done | apply requests_calibrateSticksBegin | intros _].
    apply (requests_then _ _ [] rest); [done | by apply requests_emit | intros _].
    apply (requests_then _ _ samples [OpCalibrateSticksEnd]); [done | |].
    - apply requests_for_count. intros j.
      apply (requests_bind _ _ [] [OpCalibrateSticksSample]);
        [done | by apply requests_emit | intros _].
      apply (requests_bind _ _ [OpCalibrateSticksSample] []);
        [done | apply requests_calibrateSticksSample | intros _].
      by apply requests_emit.
    - intros _.
      apply (requests_then _ _ [] [OpCalibrateSticksEnd]);
        [done | by apply requests_emit | intros _].
      by apply requests_calibrateSticksEnd. }
  unfold try_catch. destruct (Hbody w) as (evs & Htr & Hpost).
  match type of Htr with trace (?body w).2 = _ =>
    destruct (body w) as [[res|e] w1] end; cbn [fst snd] in *.
  - exists evs. split; [done |]. destruct Hpost as (Hops & Hres & Hflag).
    split; [by rewrite Hops | done].
  - destruct Hpost as [Hpre Hthis].
    exists (evs ++ [EvLa "multi_calibrate_sticks_failed"]).
    rewrite bind_run. cbn. rewrite Htr, <- app_assoc. split; [done |].
    rewrite driver_ops_app. cbn. rewrite app_nil_r. split; [done |].
    split; [done | by rewrite last_snoc].
Qed.

(** * [BaseController.alloc_req] *)

(** X17: on a device with a collection, [alloc_req] asks for a buffer of
    the length declared for the report, or of the length of the data
    when the report is not declared, has no item, or declares the count
    0.  When that length is not negative and within what the platform
    allows for a typed array, the buffer is returned: it starts with
    the data, each value taken modulo 256, cut at the length of the
    buffer, and is zero from there on, so data too long for the report
    is cut without an error.  For any other length [alloc_req] throws
    [RangeError]. *)
Theorem alloc_req_buffer (max_length : Z) (c : HIDCollectionInfo.t)
  (others : list HIDCollectionInfo.t) (id : Z) (data : list Z) :
  let report := find_report (HIDCollectionInfo.featureReports c) id in
  let maxLen := match report with
                | Some r => if HIDReportItem.reportCount r =? 0
                            then Z.of_nat (length data)
                            else HIDReportItem.reportCount r
                | None => Z.of_nat (length data)
                end in
  (0 ≤ maxLen ≤ max_length →
   ∃ out, alloc_req max_length (c :: others) id data = Ok out
     ∧ Z.of_nat (length out) = maxLen
     ∧ ∀ i, (i < length out)%nat →
            out !! i = Some (default 0 (ToUint8 <$> data !! i)))
  ∧ (¬ (0 ≤ maxLen ≤ max_length) →
     alloc_req max_length (c :: others) id data = Throw RangeError).
Proof.
  intros report maxLen. unfold alloc_req. cbn [head]. fold report.
  change (request_length report data) with maxLen. cbv zeta.
  unfold Uint8Array_new. split.
  - intros [Hmin Hmax].
    destruct (Z.ltb_spec maxLen 0) as [?|_]; [lia |].
    destruct (Z.ltb_spec max_length maxLen) as [?|_]; [lia |].
    cbn [orb]. res_red.
    unfold Uint8Array_set. rewrite length_replicate, length_take.
    destruct (Nat.ltb_spec (Z.to_nat maxLen)
                (Z.to_nat (Z.of_nat (length data) `min` maxLen) `min` length data))
      as [?|_]; [lia |].
    eexists. split; [reflexivity |].
    assert (Hlen : length ((ToUint8 <$> take (Z.to_nat (Z.of_nat (length data) `min` maxLen))
                                           data)
                           ++ drop (Z.to_nat (Z.of_nat (length data) `min` maxLen)
                                      `min` length data)
                                (replicate (Z.to_nat maxLen) 0))
                   = Z.to_nat maxLen).
    { rewrite length_app, length_fmap, length_take, length_drop, length_replicate. lia. }
    split; [rewrite Hlen; by rewrite Z2Nat.id |].
    intros i Hi. rewrite Hlen in Hi.
    destruct (decide (i < length data)%nat) as [Hin|Hout].
    + rewrite lookup_app_l by (rewrite length_fmap, length_take; lia).
      rewrite list_lookup_fmap, lookup_take_lt by lia.
      destruct (lookup_lt_is_Some_2 data i Hin) as [z ->]. done.
    + rewrite lookup_app_r by (rewrite length_fmap, length_take; lia).
      rewrite length_fmap, length_take, lookup_drop, lookup_replicate_2 by lia.
      by rewrite (lookup_ge_None_2 data i) by lia.
  - intros Hout.
    destruct (Z.ltb_spec maxLen 0) as [?|?]; [reflexivity |].
    destruct (Z.ltb_spec max_length maxLen) as [?|?]; [reflexivity | lia].
Qed.

Lemma alloc_req_buffer_witness :
  alloc_req sample_max_length sample_collections 0x80 [1; 2; 3; 4; 5; 6] = Ok [1; 2; 3; 4]
  ∧ alloc_req sample_max_length sample_collections 0x80 [257] = Ok [1; 0; 0; 0]
  ∧ alloc_req sample_max_length sample_collections 0x81 [7; 8] = Ok [7; 8]
  ∧ alloc_req sample_max_length sample_collections 0x90 [7; 8] = Throw RangeError
  ∧ ∃ out, alloc_req sample_max_length sample_collections 0x80 [1; 2; 3; 4; 5; 6] = Ok out
      ∧ Z.of_nat (length out) = 4
      ∧ ∀ i, (i < length out)%nat →
             out !! i = Some (default 0 (ToUint8 <$> [1; 2; 3; 4; 5; 6] !! i)).
Proof.
  split; [reflexivity | split; [reflexivity | split; [reflexivity |]]].
  split.
  - apply (proj2 (alloc_req_buffer sample_max_length sample_collection [] 0x90 [7; 8])).
    intros [_ H]. exact (H eq_refl).
  - apply (proj1 (alloc_req_buffer sample_max_length sample_collection []
                    0x80 [1; 2; 3; 4; 5; 6])).
    split; vm_compute; discriminate.
Defined.
